(** * Apple-Health-DS: glucose normalisation, timestamp alignment, windowing

    A shallow embedding of [src/glucose_processor.py],
    [src/data_merger.py] and [src/data_parser.py], and the properties of the
    specification that are settled on it.

    Conventions of the embedding.
    - A pandas float64 cell is an [option Q]: [None] is NaN, a finite float
      is the rational it denotes.  Arithmetic on cells is exact rational
      arithmetic, except for the percentages of [get_time_in_range_stats],
      which are rounded as binary64 rounds them ([Binary64.round]).
    - A pandas datetime64 cell is an [option Z]: [None] is NaT, [Some t] is
      [t] nanoseconds since the epoch (the representation pandas uses).
    - A DataFrame is its list of column names together with its rows; a row
      is a record with one field per column the code reads or writes.
    - A Python exception is the [Raise] case of [result]; a method that
      assigns to a field of its object takes the object and returns the
      object it leaves behind together with its result. *)

From Stdlib Require Import ZArith QArith Qabs Qround Qpower List String Bool Lia Lqa.
From Stdlib Require Import Permutation Sorted.
Import ListNotations.

Local Open Scope string_scope.
Local Open Scope Z_scope.

Set Implicit Arguments.

(** ** Exceptions and results *)

Inductive exn : Type :=
| ValueError (msg : string)
| KeyError (labels : list string)
| MergeError (msg : string)
| AttributeError
| OverflowError.

Inductive result (A : Type) : Type :=
| Ok (a : A)
| Raise (e : exn).

Arguments Ok {A} a.
Arguments Raise {A} e.

Definition bind {A B} (r : result A) (k : A -> result B) : result B :=
  match r with
  | Ok a => k a
  | Raise e => Raise e
  end.

Notation "x <- c ;; k" := (bind c (fun x => k))
  (at level 61, c at next level, right associativity).

Definition raises {A} (r : result A) : Prop :=
  exists e, r = Raise e.

(** ** The pandas operations the two modules call *)

Module Pandas.

Record DataFrame (R : Type) : Type := mkFrame {
  columns : list string;
  rows : list R
}.
Arguments mkFrame {R} columns rows.
Arguments columns {R} d.
Arguments rows {R} d.

(** [col in df.columns] *)
Definition has_column {R} (df : DataFrame R) (c : string) : bool :=
  existsb (String.eqb c) (columns df).

(** [len(df)] *)
Definition len {R} (df : DataFrame R) : nat := List.length (rows df).

(** [df[c] = ...] for a column computed row by row: the rows are replaced
    and the label is appended unless it is already there. *)
Definition add_column (c : string) (cols : list string) : list string :=
  if existsb (String.eqb c) cols then cols else cols ++ [c].

(** [df.rename(columns=table)]: labels in the table are replaced, the
    others are kept. *)
Fixpoint lookup (table : list (string * string)) (c : string) : option string :=
  match table with
  | [] => None
  | (k, v) :: rest => if String.eqb k c then Some v else lookup rest c
  end.

Definition rename (table : list (string * string)) (cols : list string)
  : list string :=
  map (fun c => match lookup table c with Some c' => c' | None => c end) cols.

(** [df[labels]] with a list of labels raises [KeyError] naming the labels
    that are not columns of the frame. *)
Definition missing_labels (cols labels : list string) : list string :=
  filter (fun l => negb (existsb (String.eqb l) cols)) labels.

Definition select_columns (cols labels : list string) : result unit :=
  match missing_labels cols labels with
  | [] => Ok tt
  | m => Raise (KeyError m)
  end.

(** Comparisons of a float cell with a constant; NaN compares false. *)
Definition Qltb (x y : Q) : bool := negb (Qle_bool y x).

Definition lt (x : option Q) (c : Q) : bool :=
  match x with Some v => Qltb v c | None => false end.

Definition gt (x : option Q) (c : Q) : bool :=
  match x with Some v => Qltb c v | None => false end.

(** [Series.between(left, right)], inclusive on both sides:
    [left <= x] and [x <= right]. *)
Definition between (x : option Q) (left right : Q) : bool :=
  match x with
  | Some v => Qle_bool left v && Qle_bool v right
  | None => false
  end.

(** The same on an integer column (hour of day). *)
Definition between_int (x : option Z) (left right : Z) : bool :=
  match x with
  | Some v => (left <=? v) && (v <=? right)
  | None => false
  end.

Definition isin_int (x : option Z) (l : list Z) : bool :=
  match x with
  | Some v => existsb (Z.eqb v) l
  | None => false
  end.

Definition notna {A} (x : option A) : bool :=
  match x with Some _ => true | None => false end.

(** [df[cols].bfill(axis=1).iloc[:, 0]] on one row: the first cell of the
    row that is not NaN, NaN when all are. *)
Fixpoint bfill_first (cells : list (option Q)) : option Q :=
  match cells with
  | [] => None
  | Some v :: _ => Some v
  | None :: rest => bfill_first rest
  end.

(** Equality of datetime cells as [drop_duplicates] sees it: NaT equals
    NaT. *)
Definition time_eqb (a b : option Z) : bool :=
  match a, b with
  | Some x, Some y => x =? y
  | None, None => true
  | _, _ => false
  end.

(** [df.drop_duplicates(subset=[key])]: the first row of each key is
    kept. *)
Fixpoint drop_duplicates_from {R} (key : R -> option Z)
         (seen : list (option Z)) (l : list R) : list R :=
  match l with
  | [] => []
  | r :: rest =>
      if existsb (time_eqb (key r)) seen
      then drop_duplicates_from key seen rest
      else r :: drop_duplicates_from key (key r :: seen) rest
  end.

Definition drop_duplicates {R} (key : R -> option Z) (l : list R) : list R :=
  drop_duplicates_from key [] l.

(** Order of datetime cells under [sort_values]: ascending, NaT last. *)
Definition time_leb (a b : option Z) : bool :=
  match a, b with
  | Some x, Some y => x <=? y
  | _, None => true
  | None, Some _ => false
  end.

(** [df.sort_values(key)], as an insertion sort that keeps rows of equal
    key in their order.  (The default sort of pandas promises no order
    among rows of equal key; the properties below that go through a sort
    use only that its result is sorted and holds the same rows.) *)
Fixpoint insert_by {R} (key : R -> option Z) (r : R) (l : list R) : list R :=
  match l with
  | [] => [r]
  | x :: rest =>
      if time_leb (key r) (key x) && negb (time_eqb (key r) (key x))
      then r :: l
      else x :: insert_by key r rest
  end.

Definition sort_values {R} (key : R -> option Z) (l : list R) : list R :=
  fold_left (fun acc r => insert_by key r acc) l [].

(** Components of a timestamp: [.dt.hour] and [.dt.dayofweek]
    (Monday is 0; the epoch fell on a Thursday). *)
Definition ns_per_second : Z := 1000000000.
Definition ns_per_minute : Z := 60 * ns_per_second.
Definition ns_per_hour : Z := 60 * ns_per_minute.
Definition ns_per_day : Z := 24 * ns_per_hour.

Definition dt_hour (t : option Z) : option Z :=
  option_map (fun ns => (ns / ns_per_hour) mod 24) t.

Definition dt_dayofweek (t : option Z) : option Z :=
  option_map (fun ns => (ns / ns_per_day + 3) mod 7) t.

(** [Timedelta.total_seconds()] *)
Definition total_seconds (ns : Z) : Q := inject_Z ns / inject_Z ns_per_second.

(** [Series.dropna()]: the cells of a float column that are not NaN. *)
Fixpoint dropna (l : list (option Q)) : list Q :=
  match l with
  | [] => []
  | Some v :: rest => v :: dropna rest
  | None :: rest => dropna rest
  end.

(** [Series.mean()]: the mean of the cells that are not NaN, NaN when
    there is none. *)
Definition mean (l : list (option Q)) : option Q :=
  match dropna l with
  | [] => None
  | vs => Some (fold_left Qplus vs 0 / inject_Z (Z.of_nat (List.length vs)))%Q
  end.

(** [Series.sum()]: NaN cells count for nothing. *)
Definition sum (l : list (option Q)) : Q := fold_left Qplus (dropna l) 0%Q.

(** The cells of a string column that are not empty. *)
Fixpoint dropna_str (l : list (option string)) : list string :=
  match l with
  | [] => []
  | Some s :: rest => s :: dropna_str rest
  | None :: rest => dropna_str rest
  end.

Definition occurrences (s : string) (l : list string) : nat :=
  List.length (filter (String.eqb s) l).

Definition max_occurrences (l : list string) : nat :=
  fold_right (fun s m => Nat.max (occurrences s l) m) O l.

Fixpoint insert_str (s : string) (l : list string) : list string :=
  match l with
  | [] => [s]
  | x :: rest => if String.leb s x then s :: l else x :: insert_str s rest
  end.

Definition sort_str (l : list string) : list string :=
  fold_right insert_str [] l.

(** [Series.mode()]: the values that occur most often, empty cells left
    out, in sorted order (strings compare character by character, by
    code). *)
Definition mode (x : list (option string)) : list string :=
  let vals := dropna_str x in
  let top := max_occurrences vals in
  sort_str (nodup string_dec
                  (filter (fun s => Nat.eqb (occurrences s vals) top) vals)).

End Pandas.

Import Pandas.


(** ** Binary64 arithmetic *)

Module Binary64.

Local Open Scope Q_scope.

(** [2 ^ k] for any integer [k]. *)
Definition pow2 (k : Z) : Q := 2 ^ k.

(** The integer nearest to a rational, the even one of two that are equally
    near. *)
Definition nearest_even (x : Q) : Z :=
  let f := Qfloor x in
  match Qcompare (x - inject_Z f) (1 # 2) with
  | Lt => f
  | Gt => (f + 1)%Z
  | Eq => if Z.even f then f else (f + 1)%Z
  end.

(** The exponent [e] of the unit in the last place of a positive [x]:
    [2 ^ (e + 52) <= x < 2 ^ (e + 53)], so that [x / 2 ^ e] has 53 bits
    before the point. *)
Definition ulp_exponent (x : Q) : Z :=
  let e0 := (Z.log2 (Qnum x) - Z.log2 (Z.pos (Qden x)) - 52)%Z in
  if Qle_bool (pow2 (e0 + 52)) x then e0 else (e0 - 1)%Z.

Definition round_positive (x : Q) : Q :=
  let e := ulp_exponent x in
  inject_Z (nearest_even (x / pow2 e)) * pow2 e.

(** The binary64 number nearest to [x]: a significand of 53 bits, rounded to
    nearest, ties to even.  The range of the exponent is not modelled: the
    numbers rounded here are counts below [2 ^ 63], their quotients and
    percentages, which neither overflow nor underflow. *)
Definition round (x : Q) : Q :=
  match Qnum x with
  | Z0 => 0
  | Z.pos _ => round_positive x
  | Z.neg _ => - round_positive (- x)
  end.

(** The operations of a float64 on finite operands: the exact result,
    rounded. *)
Definition of_int (n : Z) : Q := round (inject_Z n).
Definition add (x y : Q) : Q := round (x + y).
Definition mul (x y : Q) : Q := round (x * y).
Definition div (x y : Q) : Q := round (x / y).


End Binary64.


(** ** [glucose_processor.py]: class [LibreGlucoseProcessor] *)

Module LibreGlucoseProcessor.

(** A row of the loaded CSV.  Each field is the cell of the column that
    [column_mappings] sends to the label of that name (NaN when the frame
    has no such column); the timestamp cell is held as
    [pd.to_datetime(..., errors="coerce")] reads it. *)
Record RawRow : Type := mkRaw {
  timestamp : option Z;
  glucose_mg_dl : option Q;
  glucose_mmol_l : option Q;
  scan_glucose_mg_dl : option Q;
  strip_glucose_mg_dl : option Q
}.

(** A row once [glucose_value] and [glucose_source] are added. *)
Record Consolidated : Type := mkConsolidated {
  c_raw : RawRow;
  c_value : option Q;
  c_source : string
}.

(** A row of the processed frame. *)
Record Reading : Type := mkReading {
  raw : RawRow;
  glucose_value : option Q;
  glucose_source : string;
  glucose_rate_change : option Q;
  glucose_trend : string;
  hour : option Z;
  day_of_week : option Z;
  is_weekend : bool;
  glucose_range : string
}.

(** The object: [self.raw_data] and [self.processed_data]. *)
Record Self : Type := mkSelf {
  raw_data : option (DataFrame RawRow);
  processed_data : option (DataFrame Reading)
}.

Definition column_mappings : list (string * string) :=
  [ ("Device Timestamp", "timestamp");
    ("Timestamp (YYYY-MM-DD HH:MM:SS)", "timestamp");
    ("Time", "timestamp");
    ("Date", "date");
    ("Historic Glucose mg/dL", "glucose_mg_dl");
    ("Historic Glucose (mg/dL)", "glucose_mg_dl");
    ("Historic Glucose mmol/L", "glucose_mmol_l");
    ("Glucose Value (mg/dL)", "glucose_mg_dl");
    ("Glucose Value (mmol/L)", "glucose_mmol_l");
    ("Record Type", "record_type");
    ("Scan Glucose mg/dL", "scan_glucose_mg_dl");
    ("Scan Glucose (mg/dL)", "scan_glucose_mg_dl");
    ("Scan Glucose mmol/L", "scan_glucose_mmol_l");
    ("Strip Glucose mg/dL", "strip_glucose_mg_dl");
    ("Strip Glucose (mg/dL)", "strip_glucose_mg_dl");
    ("Strip Glucose mmol/L", "strip_glucose_mmol_l");
    ("Notes", "notes");
    ("Serial Number", "serial_number");
    ("Device", "device");
    ("Ketone mmol/L", "ketone_mmol_l");
    ("Rapid-Acting Insulin (units)", "rapid_acting_insulin_units");
    ("Carbohydrates (grams)", "carbohydrates_grams");
    ("Long-Acting Insulin (units)", "long_acting_insulin_units") ].

Definition required_columns : list string := ["timestamp"; "glucose_mg_dl"].

(** [standardize_columns]: renames the columns of [self.raw_data] in place.
    The required columns that are missing are only written to the log as a
    warning; the method returns [None] whether or not some are missing. *)
Definition standardize_columns (self : Self) : Self * result unit :=
  match raw_data self with
  | None => (self, Raise (ValueError "CSV file not loaded. Call load_csv() first."))
  | Some df =>
      let df' := mkFrame (rename column_mappings (columns df)) (rows df) in
      (mkSelf (Some df') (processed_data self), Ok tt)
  end.

(** The warning [standardize_columns] logs, when it logs one. *)
Definition missing_columns (df : DataFrame RawRow) : list string :=
  missing_labels (columns df) required_columns.

Definition glucose_columns : list string :=
  ["glucose_mg_dl"; "scan_glucose_mg_dl"; "strip_glucose_mg_dl"].

(** [df["glucose_mg_dl"] = df["glucose_mmol_l"] * 18.0182] *)
Definition convert_mmol (r : RawRow) : RawRow :=
  mkRaw (timestamp r)
        (option_map (fun v => (v * 18.0182)%Q) (glucose_mmol_l r))
        (glucose_mmol_l r) (scan_glucose_mg_dl r) (strip_glucose_mg_dl r).

(** [df["glucose_value"]] on one row. *)
Definition combined_value (r : RawRow) : option Q :=
  bfill_first [glucose_mg_dl r; scan_glucose_mg_dl r; strip_glucose_mg_dl r].

(** [df["glucose_source"]] on one row: the default, then the two
    overwriting assignments in their order. *)
Definition source_label (cols : list string) (r : RawRow) : string :=
  let s := "historic" in
  let s := if existsb (String.eqb "scan_glucose_mg_dl") cols
              && notna (scan_glucose_mg_dl r)
           then "scan" else s in
  let s := if existsb (String.eqb "strip_glucose_mg_dl") cols
              && notna (strip_glucose_mg_dl r)
           then "fingerstick" else s in
  s.

(** [df["glucose_rate_change"]] on one row, from the row before it:
    [value.diff() / timestamp.diff().dt.total_seconds() * 60].  The first
    row has no predecessor and gets NaN, as does a row next to a NaN or
    NaT cell.  Two rows of equal timestamp do not reach this function from
    [clean_and_process], which drops duplicates first (see
    [clean_and_process_distinct_timestamps]); the quotient by zero is
    given NaN here. *)
Definition rate_change (prev : option Consolidated) (cur : Consolidated)
  : option Q :=
  match prev with
  | None => None
  | Some p =>
      match c_value p, c_value cur, timestamp (c_raw p), timestamp (c_raw cur) with
      | Some v0, Some v1, Some t0, Some t1 =>
          if t1 - t0 =? 0 then None
          else Some ((v1 - v0) / total_seconds (t1 - t0) * 60)%Q
      | _, _, _, _ => None
      end
  end.

(** [df["glucose_trend"]]: the default and the four [df.loc[...] = ...]
    assignments, in their order. *)
Definition trend_label (rate : option Q) : string :=
  let t := "stable" in
  let t := if gt rate 2 then "rising_fast" else t in
  let t := if between rate 1 2 then "rising" else t in
  let t := if between rate (-1) (-2) then "falling" else t in
  let t := if lt rate (-2) then "falling_fast" else t in
  t.

(** [df["glucose_range"]]: the default and the four assignments. *)
Definition range_label (value : option Q) : string :=
  let g := "normal" in
  let g := if lt value 70 then "low" else g in
  let g := if gt value 180 then "high" else g in
  let g := if lt value 54 then "very_low" else g in
  let g := if gt value 250 then "very_high" else g in
  g.

Definition add_metrics_row (prev : option Consolidated) (cur : Consolidated)
  : Reading :=
  let rate := rate_change prev cur in
  let h := dt_hour (timestamp (c_raw cur)) in
  let d := dt_dayofweek (timestamp (c_raw cur)) in
  mkReading (c_raw cur) (c_value cur) (c_source cur)
            rate (trend_label rate)
            h d (isin_int d [5; 6])
            (range_label (c_value cur)).

Fixpoint add_metrics_rows (prev : option Consolidated) (l : list Consolidated)
  : list Reading :=
  match l with
  | [] => []
  | cur :: rest => add_metrics_row prev cur :: add_metrics_rows (Some cur) rest
  end.

(** [_add_glucose_metrics] *)
Definition _add_glucose_metrics (df : DataFrame Consolidated)
  : DataFrame Reading :=
  let cols :=
    fold_left (fun cs c => add_column c cs)
              ["glucose_rate_change"; "glucose_trend"; "hour"; "day_of_week";
               "is_weekend"; "glucose_range"]
              (columns df) in
  mkFrame cols (add_metrics_rows None (rows df)).

(** [pd.to_datetime(df["timestamp"], errors="coerce")].  The cells of the
    column are held as it reads them; what is left of the call is its
    failure on a frame in which the label [timestamp] names two columns
    (two columns of the export that the table maps to it). *)
Definition to_datetime (cols : list string) : result unit :=
  if Nat.ltb 1 (List.length (filter (String.eqb "timestamp") cols))
  then Raise (ValueError "cannot assemble with duplicate keys")
  else Ok tt.

(** The body of [clean_and_process] from [df = self.raw_data.copy()] on.
    The rows of the embedding have one cell per label: a frame in which
    another label that the code reads names two columns is outside it, and
    the properties that say that [clean_and_process] returns are stated for
    frames whose mapped labels are distinct.  The code converts the
    timestamps before it selects the glucose columns; here the failure of
    the selection is reported first, so that a frame with two [timestamp]
    columns and without glucose columns raises the KeyError of the
    selection where the code raises the ValueError of the conversion. *)
Definition process (df : DataFrame RawRow) : result (DataFrame Reading) :=
  let cols := columns df in
  let has c := existsb (String.eqb c) cols in
  (* mmol/L to mg/dL when only mmol/L is there *)
  let '(cols, rs) :=
    if has "glucose_mmol_l" && negb (has "glucose_mg_dl")
    then (add_column "glucose_mg_dl" cols, map convert_mmol (rows df))
    else (cols, rows df) in
  (* df[glucose_columns] *)
  _ <- select_columns cols glucose_columns ;;
  (* pd.to_datetime(df["timestamp"], errors="coerce") *)
  _ <- to_datetime cols ;;
  let cols1 := add_column "glucose_source" (add_column "glucose_value" cols) in
  let rs1 :=
    map (fun r => mkConsolidated r (combined_value r)
                                 (source_label (add_column "glucose_value" cols) r))
        rs in
  (* df[df["glucose_value"].between(20, 600)] *)
  let rs2 := filter (fun c => between (c_value c) 20 600) rs1 in
  (* df.drop_duplicates(subset=["timestamp"]) *)
  _ <- select_columns cols1 ["timestamp"] ;;
  let rs3 := drop_duplicates (fun c => timestamp (c_raw c)) rs2 in
  (* df.sort_values("timestamp") *)
  let rs4 := sort_values (fun c => timestamp (c_raw c)) rs3 in
  Ok (_add_glucose_metrics (mkFrame cols1 rs4)).

(** [clean_and_process] *)
Definition clean_and_process (self : Self)
  : Self * result (DataFrame Reading) :=
  match raw_data self with
  | None => (self, Raise (ValueError "CSV file not loaded. Call load_csv() first."))
  | Some _ =>
      let (self1, r0) := standardize_columns self in
      let r :=
        _ <- r0 ;;
        match raw_data self1 with
        | Some df => process df
        | None => Raise (ValueError "CSV file not loaded. Call load_csv() first.")
        end in
      match r with
      | Ok out => (mkSelf (raw_data self1) (Some out), r)
      | Raise _ => (self1, r)
      end
  end.

(** The dictionary [get_time_in_range_stats] returns.  Its two entries
    that need a square root ([glucose_std], [coefficient_variation]) are
    not part of the embedding; [average_glucose] is the exact mean. *)
Record Stats : Type := mkStats {
  time_very_low_percent : Q;
  time_low_percent : Q;
  time_in_range_percent : Q;
  time_high_percent : Q;
  time_very_high_percent : Q;
  average_glucose : option Q
}.

(** [(df["glucose_range"] == label).sum()] *)
Definition count_range (label : string) (rs : list Reading) : nat :=
  List.length (filter (fun r => String.eqb (glucose_range r) label) rs).

(** [count / total_readings * 100]: the division of an int64 by an int and
    the multiplication by 100 are float64 operations. *)
Definition percent (count total : nat) : Q :=
  Binary64.mul
    (Binary64.div (Binary64.of_int (Z.of_nat count))
                  (Binary64.of_int (Z.of_nat total)))
    100.

(** [get_time_in_range_stats]; [None] is the empty dictionary. *)
Definition get_time_in_range_stats (self : Self) : result (option Stats) :=
  match processed_data self with
  | None => Raise (ValueError "Data not processed. Call clean_and_process() first.")
  | Some df =>
      let total_readings := len df in
      if Nat.eqb total_readings 0 then Ok None
      else
        Ok (Some (mkStats
          (percent (count_range "very_low" (rows df)) total_readings)
          (percent (count_range "low" (rows df)) total_readings)
          (percent (count_range "normal" (rows df)) total_readings)
          (percent (count_range "high" (rows df)) total_readings)
          (percent (count_range "very_high" (rows df)) total_readings)
          (mean (map glucose_value (rows df)))))
  end.

End LibreGlucoseProcessor.


(** ** [pandas.merge_asof] with [direction="nearest"] and a tolerance *)

Module MergeAsof.

(** The join keys of a frame, when none of them is NaT. *)
Fixpoint keyed {R} (key : R -> option Z) (l : list R) : option (list (Z * R)) :=
  match l with
  | [] => Some []
  | r :: rest =>
      match key r, keyed key rest with
      | Some t, Some krest => Some ((t, r) :: krest)
      | _, _ => None
      end
  end.

(** [Index(keys).is_monotonic_increasing] *)
Fixpoint is_monotonic {R} (l : list (Z * R)) : bool :=
  match l with
  | [] => true
  | (t, _) :: rest =>
      match rest with
      | [] => true
      | (t', _) :: _ => (t <=? t') && is_monotonic rest
      end
  end.

(** Backward search: the right position moves forward while the key there
    is at most the left key; the match is the position before the one it
    stops at, if there is one. *)
Fixpoint asof_backward {R} (t : Z) (right : list (Z * R)) : option (Z * R) :=
  match right with
  | [] => None
  | (tr, r) :: rest =>
      if tr <=? t
      then match asof_backward t rest with
           | Some m => Some m
           | None => Some (tr, r)
           end
      else None
  end.

(** Forward search: the first right position whose key is at least the
    left key (the right keys are sorted). *)
Definition asof_forward {R} (t : Z) (right : list (Z * R)) : option (Z * R) :=
  find (fun kr => t <=? fst kr) right.

(** A candidate farther than the tolerance is no match. *)
Definition within {R} (tolerance : Z) (diff : Z) (m : option (Z * R))
  : option (Z * R) :=
  match m with
  | Some kr => if tolerance <? diff then None else Some kr
  | None => None
  end.

Definition backward_match {R} (tolerance t : Z) (right : list (Z * R)) :=
  match asof_backward t right with
  | Some (tr, r) => within tolerance (t - tr) (Some (tr, r))
  | None => None
  end.

Definition forward_match {R} (tolerance t : Z) (right : list (Z * R)) :=
  match asof_forward t right with
  | Some (tr, r) => within tolerance (tr - t) (Some (tr, r))
  | None => None
  end.

(** Nearest: with a match on both sides, the backward one is taken when
    [(left - backward) - (forward - left) <= 0], the forward one
    otherwise; with a match on one side only, that one. *)
Definition nearest_match {R} (tolerance t : Z) (right : list (Z * R))
  : option (Z * R) :=
  match backward_match tolerance t right, forward_match tolerance t right with
  | Some (tb, b), Some (tf, f) =>
      if (t - tb) - (tf - t) <=? 0 then Some (tb, b) else Some (tf, f)
  | Some m, None => Some m
  | None, m => m
  end.

(** [pd.merge_asof(left, right, left_on=..., right_on=..., tolerance=...,
    direction="nearest")]: every left row, with its match or without one.
    Both key columns are [datetime64[ns]] columns without a time zone, as
    the datetime cells of the embedding are: the check of the dtypes of the
    two keys, which raises a [MergeError] when only one of them carries a
    time zone, is not part of it. *)
Definition merge_asof {L R} (left_on : L -> option Z) (right_on : R -> option Z)
           (left : list L) (right : list R) (tolerance : Z)
  : result (list (L * option R)) :=
  if tolerance <? 0 then Raise (MergeError "tolerance must be positive")
  else
    match keyed left_on left with
    | None => Raise (ValueError "Merge keys contain null values on left side")
    | Some kl =>
        if negb (is_monotonic kl) then Raise (ValueError "left keys must be sorted")
        else
          match keyed right_on right with
          | None => Raise (ValueError "Merge keys contain null values on right side")
          | Some kr =>
              if negb (is_monotonic kr)
              then Raise (ValueError "right keys must be sorted")
              else
                Ok (map (fun tl =>
                           (snd tl,
                            option_map snd (nearest_match tolerance (fst tl) kr)))
                        kl)
          end
    end.

End MergeAsof.


(** ** [data_merger.py]: class [HealthDataMerger] *)

Module HealthDataMerger.

Import LibreGlucoseProcessor.

(** A row of the Apple Health frame ([extract_health_records]); string
    cells are [None] when the attribute is absent from the XML record. *)
Record HealthRow : Type := mkHealth {
  type : option string;
  sourceName : option string;
  value : option Q;
  unit_ : option string;
  startDate : option Z
}.

(** A row of the merged frame: the columns of the health row, those of the
    glucose row matched to it ([None] when every glucose column of the row
    is NaN), and [time_diff_minutes]. *)
Record MergedRow : Type := mkMerged {
  health : HealthRow;
  glucose : option Reading;
  time_diff_minutes : option Q
}.

Definition health_timestamp (r : MergedRow) : option Z := startDate (health r).

Definition glucose_timestamp (r : MergedRow) : option Z :=
  match glucose r with
  | Some g => timestamp (raw g)
  | None => None
  end.

(** The object: the three frames it holds. *)
Record Self : Type := mkSelf {
  apple_health_data : option (DataFrame HealthRow);
  glucose_data : option (DataFrame Reading);
  merged_data : option (DataFrame MergedRow)
}.

Definition load_apple_health_data (self : Self) (data : DataFrame HealthRow) : Self :=
  mkSelf (Some data) (glucose_data self) (merged_data self).

Definition load_glucose_data (self : Self) (data : DataFrame Reading) : Self :=
  mkSelf (apple_health_data self) (Some data) (merged_data self).

(** [(health_timestamp - glucose_timestamp).dt.total_seconds() / 60] *)
Definition minutes_between (th tg : option Z) : option Q :=
  match th, tg with
  | Some a, Some b => Some (total_seconds (a - b) / 60)%Q
  | _, _ => None
  end.

(** [align_timestamps].  The tolerance is a number of minutes that
    [pd.Timedelta] holds (its nanoseconds fit 64 bits); beyond that the code
    raises before it merges. *)
Definition align_timestamps (self : Self) (tolerance_minutes : Z)
  : Self * result (DataFrame MergedRow) :=
  match apple_health_data self, glucose_data self with
  | Some health_df, Some glucose_df =>
      let r :=
        let gcols := rename [("timestamp", "glucose_timestamp")] (columns glucose_df) in
        _ <- (if has_column health_df "startDate" then Ok tt
              else Raise (ValueError "Apple Health data must have startDate column")) ;;
        let hcols := rename [("startDate", "health_timestamp")] (columns health_df) in
        (* sort both frames by their timestamp *)
        _ <- select_columns gcols ["glucose_timestamp"] ;;
        let gs := sort_values (fun g => timestamp (raw g)) (rows glucose_df) in
        let hs := sort_values startDate (rows health_df) in
        let tolerance := tolerance_minutes * ns_per_minute in
        merged <- MergeAsof.merge_asof startDate (fun g => timestamp (raw g))
                                       hs gs tolerance ;;
        (* merged_df.dropna(subset=["glucose_timestamp"]) *)
        let kept :=
          filter (fun hg => notna (glucose_timestamp (mkMerged (fst hg) (snd hg) None)))
                 merged in
        (* merged_df["time_diff_minutes"] *)
        let out :=
          map (fun hg =>
                 let r := mkMerged (fst hg) (snd hg) None in
                 mkMerged (fst hg) (snd hg)
                          (minutes_between (health_timestamp r) (glucose_timestamp r)))
              kept in
        Ok (mkFrame (add_column "time_diff_minutes" (hcols ++ gcols)) out) in
      match r with
      | Ok out => (mkSelf (apple_health_data self) (glucose_data self) (Some out), r)
      | Raise _ => (self, r)
      end
  | _, _ => (self, Raise (ValueError "Both datasets must be loaded before merging"))
  end.

(** *** Windows *)

(** A row of the windowed frame.  [glucose_value_std] needs a square root
    and is not part of the embedding. *)
Record WindowRow : Type := mkWindow {
  window_start : Z;
  glucose_value_mean : option Q;
  glucose_value_count : nat;
  value_mean : option Q;
  value_sum : Q;
  time_diff_minutes_mean : option Q;
  type_mode : option string;
  glucose_range_mode : option string;
  glucose_trend_mode : option string;
  sourceName_mode : option string
}.

(** [lambda x: x.mode().iloc[0] if len(x.mode()) > 0 else None] *)
Definition mode_agg (x : list (option string)) : option string :=
  match mode x with
  | m :: _ => Some m
  | [] => None
  end.

(** The categorical columns of a merged row. *)
Definition col_type (r : MergedRow) : option string := type (health r).
Definition col_sourceName (r : MergedRow) : option string := sourceName (health r).
Definition col_glucose_range (r : MergedRow) : option string :=
  option_map glucose_range (glucose r).
Definition col_glucose_trend (r : MergedRow) : option string :=
  option_map glucose_trend (glucose r).
Definition col_glucose_value (r : MergedRow) : option Q :=
  match glucose r with Some g => glucose_value g | None => None end.

(** [resample(f"{window_minutes}T")] on the frame indexed by
    [glucose_timestamp]: bins of [window_minutes], anchored at midnight of
    the day of the first timestamp, from the bin of the first timestamp to
    the bin of the last one, each with the rows that fall in it, in the
    order of the index. *)
Definition bin_of (origin width t : Z) : Z := (t - origin) / width.

Definition in_bin (origin width k : Z) (tr : Z * MergedRow) : bool :=
  bin_of origin width (fst tr) =? k.

Definition bins_between (lo hi : Z) : list Z :=
  map (fun i => lo + Z.of_nat i) (seq 0 (Z.to_nat (hi - lo + 1))).

Definition resample (width : Z) (index : list (Z * MergedRow))
  : list (Z * list MergedRow) :=
  match index with
  | [] => []
  | (first, _) :: _ =>
      let last := fst (List.last index (first, mkMerged (mkHealth None None None None None) None None)) in
      let origin := (first / ns_per_day) * ns_per_day in
      map (fun k => (origin + k * width,
                     map snd (filter (in_bin origin width k) index)))
          (bins_between (bin_of origin width first) (bin_of origin width last))
  end.

(** One row of the windowed frame, from a bin and its rows. *)
Definition aggregate (cols : list string) (bin : Z * list MergedRow) : WindowRow :=
  let rs := snd bin in
  let categorical c (col : MergedRow -> option string) :=
    if existsb (String.eqb c) cols then mode_agg (map col rs) else None in
  mkWindow (fst bin)
           (mean (map col_glucose_value rs))
           (List.length (dropna (map col_glucose_value rs)))
           (mean (map (fun r => value (health r)) rs))
           (sum (map (fun r => value (health r)) rs))
           (mean (map time_diff_minutes rs))
           (categorical "type" col_type)
           (categorical "glucose_range" col_glucose_range)
           (categorical "glucose_trend" col_glucose_trend)
           (categorical "sourceName" col_sourceName).

(** The bins [create_time_windows] aggregates: the merged frame indexed by
    [glucose_timestamp] (a NaT index is not binned) and resampled. *)
Definition indexed (rs : list MergedRow) : list (Z * MergedRow) :=
  flat_map (fun r => match glucose_timestamp r with
                     | Some t => [(t, r)]
                     | None => []
                     end) rs.

Definition windows (df : DataFrame MergedRow) (window_minutes : Z)
  : list (Z * list MergedRow) :=
  resample (window_minutes * ns_per_minute)
           (sort_values (fun tr => Some (fst tr)) (indexed (rows df))).

(** [create_time_windows] *)
Definition create_time_windows (self : Self) (window_minutes : Z)
  : result (DataFrame WindowRow) :=
  match merged_data self with
  | None => Raise (ValueError "Data must be merged before creating time windows")
  | Some df =>
      (* df.set_index("glucose_timestamp") *)
      _ <- select_columns (columns df) ["glucose_timestamp"] ;;
      (* resample does not bin at a frequency of zero minutes or less, nor
         at one whose nanoseconds do not fit 64 bits *)
      _ <- (if window_minutes <=? 0 then Raise (ValueError "invalid frequency")
            else if 2 ^ 63 <=? window_minutes * ns_per_minute
                 then Raise OverflowError
                 else Ok tt) ;;
      (* the edges of the bins are computed from the least and the greatest
         timestamp of the index: with rows and no timestamp among them both
         are NaT, and the computation fails inside pandas *)
      _ <- (match rows df, indexed (rows df) with
            | _ :: _, [] => Raise AttributeError
            | _, _ => Ok tt
            end) ;;
      (* .agg({...}) names three columns of the frame *)
      _ <- select_columns (columns df) ["glucose_value"; "value"; "time_diff_minutes"] ;;
      let aggregated := map (aggregate (columns df)) (windows df window_minutes) in
      (* windowed_data.dropna(subset=["glucose_value_mean"]) *)
      let kept := filter (fun w => notna (glucose_value_mean w)) aggregated in
      Ok (mkFrame
            ("glucose_timestamp" ::
             ["glucose_value_mean"; "glucose_value_std"; "glucose_value_count";
              "value_mean"; "value_sum"; "time_diff_minutes_mean"] ++
             map (fun c => c ++ "_mode")
                 (filter (fun c => existsb (String.eqb c) (columns df))
                         ["type"; "glucose_range"; "glucose_trend"; "sourceName"]))
            kept)
  end.

(** *** Contextual features *)

Record Features : Type := mkFeatures {
  hour : option Z;
  day_of_week : option Z;
  is_weekend : bool;
  is_night : bool;
  is_morning : bool;
  is_afternoon : bool;
  is_evening : bool;
  likely_meal_time : bool
}.

(** The feature columns of one row, from its timestamp cell. *)
Definition features_of (t : option Z) : Features :=
  let h := dt_hour t in
  let d := dt_dayofweek t in
  mkFeatures h d
             (isin_int d [5; 6])
             (between_int h 22 6)
             (between_int h 6 12)
             (between_int h 12 18)
             (between_int h 18 22)
             (between_int h 7 9 || between_int h 12 14 || between_int h 18 20).

(** [add_contextual_features], on a frame of any row type that may carry a
    [glucose_timestamp] or a [health_timestamp] column.  A row comes back
    with its features, or alone when the frame has neither column. *)
Definition add_contextual_features {R}
           (glucose_timestamp_of health_timestamp_of : R -> option Z)
           (df : DataFrame R) : DataFrame (R * option Features) :=
  if has_column df "glucose_timestamp" then
    mkFrame (fold_left (fun cs c => add_column c cs)
                       ["hour"; "day_of_week"; "is_weekend"; "is_night";
                        "is_morning"; "is_afternoon"; "is_evening"; "likely_meal_time"]
                       (columns df))
            (map (fun r => (r, Some (features_of (glucose_timestamp_of r)))) (rows df))
  else if has_column df "health_timestamp" then
    mkFrame (fold_left (fun cs c => add_column c cs)
                       ["hour"; "day_of_week"; "is_weekend"; "is_night";
                        "is_morning"; "is_afternoon"; "is_evening"; "likely_meal_time"]
                       (columns df))
            (map (fun r => (r, Some (features_of (health_timestamp_of r)))) (rows df))
  else
    mkFrame (columns df) (map (fun r => (r, None)) (rows df)).

End HealthDataMerger.


(** ** Sample inputs *)

Module Samples.

Import LibreGlucoseProcessor.

Definition minute : Z := ns_per_minute.

(** The header of a Libre export with the three kinds of reading. *)
Definition libre_header : list string :=
  ["Device Timestamp"; "Record Type"; "Historic Glucose mg/dL";
   "Scan Glucose mg/dL"; "Strip Glucose mg/dL"].

Definition historic (t : Z) (v : Q) : RawRow :=
  mkRaw (Some t) (Some v) None None None.

Definition loaded (header : list string) (rs : list RawRow)
  : LibreGlucoseProcessor.Self :=
  LibreGlucoseProcessor.mkSelf (Some (mkFrame header rs)) None.

(** 100 mg/dL, then 92 mg/dL five minutes later: -1.6 mg/dL per minute. *)
Definition falling_series : LibreGlucoseProcessor.Self :=
  loaded libre_header [historic 0 100; historic (5 * minute) 92].

(** One row that carries a historic value and a scan value. *)
Definition historic_and_scan : RawRow :=
  mkRaw (Some 0) (Some 100%Q) None (Some 110%Q) None.

Definition two_kinds : LibreGlucoseProcessor.Self :=
  loaded libre_header [historic_and_scan].

(** Readings at the boundaries of the range categories. *)
Definition boundary_series : LibreGlucoseProcessor.Self :=
  loaded libre_header
         [historic 0 70; historic (5 * minute) 69.999;
          historic (10 * minute) 180; historic (15 * minute) 180.001;
          historic (20 * minute) 40; historic (25 * minute) 300].


(** The processed frame of [boundary_series], and its second row. *)
Definition boundary_frame : DataFrame Reading :=
  Eval vm_compute in
    match snd (clean_and_process boundary_series) with
    | Ok out => out
    | Raise _ => mkFrame [] []
    end.

Definition boundary_low_row : Reading :=
  Eval vm_compute in
    nth 1 (rows boundary_frame)
        (mkReading (historic 0 0) None "" None "" None None false "").

(** The processed frame of [falling_series]: readings at 0 and 5 minutes. *)
Definition falling_frame : DataFrame Reading :=
  Eval vm_compute in
    match snd (clean_and_process falling_series) with
    | Ok out => out
    | Raise _ => mkFrame [] []
    end.

(** The processed frame of an export whose only reading is out of range:
    it has its columns and no row. *)
Definition empty_frame : DataFrame Reading :=
  Eval vm_compute in
    match snd (clean_and_process (loaded libre_header [historic 0 10])) with
    | Ok out => out
    | Raise _ => mkFrame [] []
    end.

Import HealthDataMerger.

Definition health_header : list string :=
  ["type"; "sourceName"; "value"; "unit"; "creationDate"; "startDate"; "endDate"].

Definition steps (t : Z) : HealthRow :=
  mkHealth (Some "HKQuantityTypeIdentifierStepCount") (Some "Watch")
           (Some 12%Q) (Some "count") (Some t).

Definition energy (t : Z) : HealthRow :=
  mkHealth (Some "HKQuantityTypeIdentifierActiveEnergyBurned") (Some "Watch")
           (Some 3%Q) (Some "kcal") (Some t).

Definition merger (hs : list HealthRow) (g : DataFrame Reading)
  : HealthDataMerger.Self :=
  load_glucose_data
    (load_apple_health_data (HealthDataMerger.mkSelf None None None)
                            (mkFrame health_header hs))
    g.

(** Steps at minute 1, energy at minute 2, steps at minute 40, against
    glucose readings at minutes 0 and 5. *)
Definition day_merger : HealthDataMerger.Self :=
  merger [steps (1 * minute); energy (2 * minute); steps (40 * minute)]
         falling_frame.

Definition day_aligned : DataFrame MergedRow :=
  Eval vm_compute in
    match snd (align_timestamps day_merger 15) with
    | Ok out => out
    | Raise _ => mkFrame [] []
    end.

(** The merger after [align_timestamps], and its windows of an hour. *)
Definition day_merged : HealthDataMerger.Self :=
  Eval vm_compute in fst (align_timestamps day_merger 15).

Definition day_windows : DataFrame WindowRow :=
  Eval vm_compute in
    match create_time_windows day_merged 60 with
    | Ok out => out
    | Raise _ => mkFrame [] []
    end.

Definition day_window : WindowRow :=
  Eval vm_compute in
    nth 0 (rows day_windows)
        (mkWindow 0 None 0 None 0 None None None None None).

(** Readings at 23:30 and at 03:00 of the next day, and a health record a
    minute after each. *)
Definition night_merger : HealthDataMerger.Self :=
  merger [steps (1411 * minute); steps (1621 * minute)]
         match snd (clean_and_process
                      (loaded libre_header
                              [historic (1410 * minute) 100;
                               historic (1620 * minute) 101])) with
         | Ok out => out
         | Raise _ => mkFrame [] []
         end.

(** A health record half way between the two glucose readings. *)
Definition tie_merger : HealthDataMerger.Self :=
  merger [steps (150 * ns_per_second)] falling_frame.

Definition tie_aligned : DataFrame MergedRow :=
  Eval vm_compute in
    match snd (align_timestamps tie_merger 15) with
    | Ok out => out
    | Raise _ => mkFrame [] []
    end.

Definition reading_at_0 : Reading :=
  Eval vm_compute in
    nth 0 (rows falling_frame)
        (mkReading (historic 0 0) None "" None "" None None false "").

Definition reading_at_5 : Reading :=
  Eval vm_compute in
    nth 1 (rows falling_frame)
        (mkReading (historic 0 0) None "" None "" None None false "").

(** Health records loaded, against a glucose frame with no row. *)
Definition empty_glucose_merger : HealthDataMerger.Self :=
  merger [steps (1 * minute)] empty_frame.

(** Health records loaded, glucose never loaded. *)
Definition unloaded_merger : HealthDataMerger.Self :=
  load_apple_health_data (HealthDataMerger.mkSelf None None None)
                         (mkFrame health_header [steps (1 * minute)]).

End Samples.


(** ** Statements of the specification that are compared with the code *)

Module Spec.

(** An input of the aligner that is "empty or unset". *)
Definition empty_or_unset {R} (input : option (DataFrame R)) : Prop :=
  match input with
  | None => True
  | Some df => rows df = []
  end.

(** The mode with ties broken by the first value met, in the words of the
    specification: the first value of the window, in window order, that
    occurs as often as any value does. *)
Definition first_encountered_mode (x : list (option string)) : option string :=
  let vals := dropna_str x in
  find (fun s => Nat.eqb (occurrences s vals) (max_occurrences vals)) vals.

(** [m] is the value of the column cells [x] that occurs most often and,
    among those that do, comes first in the order of strings; no value
    when every cell is empty. *)
Definition least_mode (x : list (option string)) (m : option string) : Prop :=
  match m with
  | Some v =>
      In (Some v) x /\
      (forall u, (occurrences u (dropna_str x) <= occurrences v (dropna_str x))%nat) /\
      (forall u, occurrences u (dropna_str x) = occurrences v (dropna_str x) ->
                 String.leb v u = true)
  | None => forall v, ~ In (Some v) x
  end.

(** The head of a list of strings is at most every element of it. *)
Definition head_least (l : list string) : Prop :=
  match l with
  | [] => True
  | m :: _ => forall x, In x l -> String.leb m x = true
  end.

End Spec.


(** ** Orders and shapes used to state further properties *)

Module Shape.

(** One timestamp cell comes strictly before another; a NaT comes after
    every timestamp and before nothing. *)
Definition time_before (a b : option Z) : Prop :=
  match a, b with
  | Some x, Some y => x < y
  | Some _, None => True
  | None, _ => False
  end.

(** A health row has a glucose reading within [T] minutes of its start. *)
Definition within_reach (T : Z) (readings : list LibreGlucoseProcessor.Reading)
           (h : HealthDataMerger.HealthRow) : bool :=
  match HealthDataMerger.startDate h with
  | Some th =>
      existsb (fun g =>
                 match LibreGlucoseProcessor.timestamp (LibreGlucoseProcessor.raw g) with
                 | Some tg => Z.abs (th - tg) <=? T * ns_per_minute
                 | None => false
                 end)
              readings
  | None => false
  end.

End Shape.


(** ** More sample inputs *)

Module MoreSamples.

Import LibreGlucoseProcessor Samples.

(** An export out of order, with a timestamp that occurs twice and an
    out-of-range reading that shares its timestamp with a valid one. *)
Definition shuffled_series : LibreGlucoseProcessor.Self :=
  loaded libre_header
         [historic (10 * minute) 120; historic 0 100;
          historic (10 * minute) 130; historic (5 * minute) 700;
          historic (5 * minute) 110].

Definition shuffled_frame : DataFrame Reading :=
  Eval vm_compute in
    match snd (clean_and_process shuffled_series) with
    | Ok out => out
    | Raise _ => mkFrame [] []
    end.

(** An export that has its historic readings in mmol/L only. *)
Definition mmol_series : LibreGlucoseProcessor.Self :=
  loaded ["Device Timestamp"; "Historic Glucose mmol/L";
          "Scan Glucose mg/dL"; "Strip Glucose mg/dL"]
         [mkRaw (Some 0) None (Some 5.5%Q) None None;
          mkRaw (Some (5 * minute)) None (Some 6%Q) None None].

Definition mmol_frame : DataFrame Reading :=
  Eval vm_compute in
    match snd (clean_and_process mmol_series) with
    | Ok out => out
    | Raise _ => mkFrame [] []
    end.

Definition mmol_first_row : Reading :=
  Eval vm_compute in
    nth 0 (rows mmol_frame)
        (mkReading (historic 0 0) None "" None "" None None false "").

(** An export in which no reading is within the valid range. *)
Definition invalid_series : LibreGlucoseProcessor.Self :=
  loaded libre_header
         [historic 0 10; historic (5 * minute) 700;
          mkRaw (Some (10 * minute)) None None None None].

(** An object that holds an earlier processed frame and, as its loaded
    data, an export without glucose columns. *)
Definition reloaded_without_glucose : LibreGlucoseProcessor.Self :=
  LibreGlucoseProcessor.mkSelf
    (Some (mkFrame ["Device Timestamp"; "Notes"]
                   [mkRaw (Some 0) None None None None]))
    (Some boundary_frame).

(** Glucose at minutes 0, 5 and 185; health records at minutes 1, 2 and
    186: windows of an hour leave two hours between them empty. *)
Definition long_merger : HealthDataMerger.Self :=
  merger [steps (1 * minute); energy (2 * minute); steps (186 * minute)]
         match snd (clean_and_process
                      (loaded libre_header
                              [historic 0 100; historic (5 * minute) 92;
                               historic (185 * minute) 110])) with
         | Ok out => out
         | Raise _ => mkFrame [] []
         end.

Definition long_merged : HealthDataMerger.Self :=
  Eval vm_compute in fst (HealthDataMerger.align_timestamps long_merger 15).

Definition long_aligned : DataFrame HealthDataMerger.MergedRow :=
  Eval vm_compute in
    match HealthDataMerger.merged_data long_merged with
    | Some d => d
    | None => mkFrame [] []
    end.

Definition long_windows : DataFrame HealthDataMerger.WindowRow :=
  Eval vm_compute in
    match HealthDataMerger.create_time_windows long_merged 60 with
    | Ok out => out
    | Raise _ => mkFrame [] []
    end.

Definition long_last_row : HealthDataMerger.MergedRow :=
  Eval vm_compute in
    nth 2 (rows long_aligned)
        (HealthDataMerger.mkMerged (steps 0) None None).

End MoreSamples.


(** ** [data_parser.py]: class [AppleHealthParser] *)

Module AppleHealthParser.

(** An element of the tree [ET.parse] returns: its tag, its attributes and
    its children in document order. *)
Inductive Element : Type :=
| Elem (tag : string) (attrib : list (string * string)) (children : list Element).

Definition tag (e : Element) : string :=
  match e with Elem t _ _ => t end.

Definition attrib (e : Element) : list (string * string) :=
  match e with Elem _ a _ => a end.

Definition children (e : Element) : list Element :=
  match e with Elem _ _ cs => cs end.

(** [element.get(key)]: the attribute, [None] when the element has none
    of that name. *)
Definition get (e : Element) (key : string) : option string :=
  lookup (attrib e) key.

(** The elements below an element, at any depth, in document order. *)
Fixpoint descendants (e : Element) : list Element :=
  match e with
  | Elem _ _ cs =>
      (fix below (l : list Element) : list Element :=
         match l with
         | [] => []
         | c :: rest => c :: descendants c ++ below rest
         end) cs
  end.

(** [element.findall(".//" + name)] *)
Definition findall (e : Element) (name : string) : list Element :=
  filter (fun d => String.eqb (tag d) name) (descendants e).

(** The object: the root of the loaded tree, [None] before [load_xml]. *)
Record Self : Type := mkSelf {
  xml_file_path : string;
  root : option Element
}.

(** The dictionary built for one [Record] element. *)
Record RecordData : Type := mkRecordData {
  d_type : option string;
  d_sourceName : option string;
  d_value : option string;
  d_unit : option string;
  d_creationDate : option string;
  d_startDate : option string;
  d_endDate : option string
}.

(** A row of the frame [extract_health_records] returns. *)
Record HealthRecord : Type := mkHealthRecord {
  type : option string;
  sourceName : option string;
  value : option Q;
  unit_ : option string;
  creationDate : option Z;
  startDate : option Z;
  endDate : option Z
}.

Definition record_keys : list string :=
  ["type"; "sourceName"; "value"; "unit"; "creationDate"; "startDate"; "endDate"].

(** [record_types and record_type not in record_types]: the test that
    makes the loop skip a record.  An empty list is as good as no list,
    and a record without a type is in no list. *)
Definition skipped (record_types : option (list string))
           (record_type : option string) : bool :=
  match record_types with
  | None => false
  | Some [] => false
  | Some types =>
      match record_type with
      | Some t => negb (existsb (String.eqb t) types)
      | None => true
      end
  end.

Definition record_data (record : Element) : RecordData :=
  mkRecordData (get record "type") (get record "sourceName")
               (get record "value") (get record "unit")
               (get record "creationDate") (get record "startDate")
               (get record "endDate").

Section Conversions.

(** [pd.to_datetime(column, errors="coerce")] on one cell of a column (the
    format may be read off the column), and
    [pd.to_numeric(column, errors="coerce")] on one cell. *)
Variable to_datetime : list (option string) -> option string -> option Z.
Variable to_numeric : option string -> option Q.

(** [pd.DataFrame(records)] and the conversions of the date columns and of
    the value column.  A frame made of no record has no column. *)
Definition records_frame (records : list RecordData) : DataFrame HealthRecord :=
  match records with
  | [] => mkFrame [] []
  | _ =>
      mkFrame record_keys
              (map (fun d =>
                      mkHealthRecord
                        (d_type d) (d_sourceName d) (to_numeric (d_value d))
                        (d_unit d)
                        (to_datetime (map d_creationDate records) (d_creationDate d))
                        (to_datetime (map d_startDate records) (d_startDate d))
                        (to_datetime (map d_endDate records) (d_endDate d)))
                   records)
  end.

(** [extract_health_records] *)
Definition extract_health_records (self : Self)
           (record_types : option (list string))
  : result (DataFrame HealthRecord) :=
  match root self with
  | None => Raise (ValueError "XML file not loaded. Call load_xml() first.")
  | Some e =>
      let records :=
        map record_data
            (filter (fun record => negb (skipped record_types (get record "type")))
                    (findall e "Record")) in
      Ok (records_frame records)
  end.

(** [get_glucose_data], [get_activity_data], [get_sleep_data] *)
Definition glucose_types : list string :=
  ["HKQuantityTypeIdentifierBloodGlucose";
   "HKCategoryTypeIdentifierInsulinDelivery"].

Definition activity_types : list string :=
  ["HKQuantityTypeIdentifierStepCount";
   "HKQuantityTypeIdentifierDistanceWalkingRunning";
   "HKQuantityTypeIdentifierActiveEnergyBurned";
   "HKQuantityTypeIdentifierBasalEnergyBurned";
   "HKQuantityTypeIdentifierFlightsClimbed"].

Definition sleep_types : list string :=
  ["HKCategoryTypeIdentifierSleepAnalysis"].

Definition get_glucose_data (self : Self) : result (DataFrame HealthRecord) :=
  extract_health_records self (Some glucose_types).

Definition get_activity_data (self : Self) : result (DataFrame HealthRecord) :=
  extract_health_records self (Some activity_types).

Definition get_sleep_data (self : Self) : result (DataFrame HealthRecord) :=
  extract_health_records self (Some sleep_types).

End Conversions.

(** The frame of the parser as [HealthDataMerger] holds it: the merger
    reads neither [creationDate] nor [endDate], and its rows do not carry
    them. *)
Definition as_health_row (r : HealthRecord) : HealthDataMerger.HealthRow :=
  HealthDataMerger.mkHealth (type r) (sourceName r) (value r) (unit_ r)
                            (startDate r).

Definition as_health_frame (df : DataFrame HealthRecord)
  : DataFrame HealthDataMerger.HealthRow :=
  mkFrame (columns df) (map as_health_row (rows df)).

End AppleHealthParser.


(** ** [glucose_processor.py]: [resample_data] *)

Module Resampling.

Import LibreGlucoseProcessor.

(** [fillna(method="ffill", limit=n)] on one column: a cell that is NaN
    takes the last value before it when fewer than [n] NaN cells have
    been filled since that value. *)
Fixpoint ffill_from (limit : nat) (last : option Q) (filled : nat)
         (l : list (option Q)) : list (option Q) :=
  match l with
  | [] => []
  | Some v :: rest => Some v :: ffill_from limit (Some v) O rest
  | None :: rest =>
      (if Nat.ltb filled limit then last else None)
        :: ffill_from limit last (S filled) rest
  end.

Definition ffill (limit : nat) (l : list (option Q)) : list (option Q) :=
  ffill_from limit None O l.

(** A row of the resampled frame. *)
Record Resampled : Type := mkResampled {
  bin_start : Z;
  glucose_value : option Q;
  glucose_rate_change : option Q
}.

(** The rows of the processed frame under their timestamp (a NaT index is
    not binned), in the order of the index. *)
Definition indexed (rs : list Reading) : list (Z * Reading) :=
  sort_values (fun tr => Some (fst tr))
    (flat_map (fun r => match timestamp (raw r) with
                        | Some t => [(t, r)]
                        | None => []
                        end) rs).

(** The bins of [resample]: as many nanoseconds wide as the frequency,
    anchored at midnight of the day of the first timestamp, from the bin of
    the first timestamp to the bin of the last. *)
Definition bins (width : Z) (index : list (Z * Reading))
  : list (Z * list Reading) :=
  match index with
  | [] => []
  | (first, _) :: _ =>
      let last := List.last (map fst index) first in
      let origin := (first / ns_per_day) * ns_per_day in
      map (fun k => (origin + k * width,
                     map snd (filter (fun tr => HealthDataMerger.bin_of origin width (fst tr) =? k)
                                     index)))
          (HealthDataMerger.bins_between (HealthDataMerger.bin_of origin width first)
                                         (HealthDataMerger.bin_of origin width last))
  end.

(** [df[numeric_columns].resample(frequency).mean()], for a frequency of
    [minutes] minutes (the form of the default, ["15T"]). *)
Definition resampled (df : DataFrame Reading) (minutes : Z) : list Resampled :=
  map (fun bin =>
         mkResampled (fst bin)
                     (mean (map LibreGlucoseProcessor.glucose_value (snd bin)))
                     (mean (map LibreGlucoseProcessor.glucose_rate_change (snd bin))))
      (bins (minutes * ns_per_minute) (indexed (rows df))).

(** [resample_data], for a frequency of [minutes] minutes.  The edges of the
    bins are computed from the least and the greatest timestamp of the
    index: when the frame has rows and none of them has a timestamp, both
    are NaT and the computation fails inside pandas with an
    [AttributeError]. *)
Definition resample_data (self : LibreGlucoseProcessor.Self) (minutes : Z)
  : result (DataFrame Resampled) :=
  match processed_data self with
  | None => Raise (ValueError "Data not processed. Call clean_and_process() first.")
  | Some df =>
      (* df.set_index("timestamp") *)
      _ <- select_columns (columns df) ["timestamp"] ;;
      (* df[numeric_columns] *)
      _ <- select_columns (columns df) ["glucose_value"; "glucose_rate_change"] ;;
      (* resample does not bin at a frequency of zero minutes or less, nor
         at one whose nanoseconds do not fit 64 bits *)
      _ <- (if minutes <=? 0 then Raise (ValueError "invalid frequency")
            else if 2 ^ 63 <=? minutes * ns_per_minute then Raise OverflowError
            else Ok tt) ;;
      _ <- (match rows df, indexed (rows df) with
            | _ :: _, [] => Raise AttributeError
            | _, _ => Ok tt
            end) ;;
      let means := resampled df minutes in
      (* resampled.fillna(method="ffill", limit=2), column by column *)
      let values := ffill 2 (map glucose_value means) in
      let rates := ffill 2 (map glucose_rate_change means) in
      Ok (mkFrame ["timestamp"; "glucose_value"; "glucose_rate_change"]
                  (map (fun mvr => mkResampled (bin_start (fst (fst mvr)))
                                               (snd (fst mvr)) (snd mvr))
                       (combine (combine means values) rates)))
  end.

End Resampling.


(** ** Notions the properties of the parser and of the resampling are stated with *)

Module FurtherShape.

Import AppleHealthParser.

(** [d] is an element below [e]: a child of [e], or below a child. *)
Inductive below (e : Element) : Element -> Prop :=
| below_child (c : Element) : In c (children e) -> below e c
| below_deeper (c d : Element) : In c (children e) -> below c d -> below e d.

(** One timestamp cell is there and does not come after another. *)
Definition not_after (a b : option Z) : Prop :=
  match a, b with
  | Some x, Some y => x <= y
  | _, _ => False
  end.

(** Midnight of the day of a timestamp. *)
Definition midnight (t : Z) : Z := t / ns_per_day * ns_per_day.

(** [t0] is the earliest timestamp of a column. *)
Definition earliest (column : list (option Z)) (t0 : Z) : Prop :=
  In (Some t0) column /\ forall t, In (Some t) column -> t0 <= t.

(** The cell [i] of a column, or else the cell before it, or else the cell
    two before it: the first of the three that is not NaN. *)
Definition latest_of_three (col : list (option Q)) (i : nat) : option Q :=
  match nth i col None with
  | Some v => Some v
  | None =>
      match i with
      | O => None
      | S j =>
          match nth j col None with
          | Some v => Some v
          | None => match j with O => None | S k => nth k col None end
          end
      end
  end.

End FurtherShape.


(** ** Sample inputs of the parser, of the resampling and of the features *)

Module FurtherSamples.

Import LibreGlucoseProcessor Samples.

(** A reading at noon and a health record a minute later. *)
Definition noon_merger : HealthDataMerger.Self :=
  merger [steps (721 * minute)]
         match snd (clean_and_process
                      (loaded libre_header [historic (720 * minute) 100])) with
         | Ok out => out
         | Raise _ => mkFrame [] []
         end.

Definition noon_aligned : DataFrame HealthDataMerger.MergedRow :=
  Eval vm_compute in
    match snd (HealthDataMerger.align_timestamps noon_merger 15) with
    | Ok out => out
    | Raise _ => mkFrame [] []
    end.

Definition noon_row : HealthDataMerger.MergedRow :=
  Eval vm_compute in
    nth 0 (rows noon_aligned)
        (HealthDataMerger.mkMerged
           (HealthDataMerger.mkHealth None None None None None) None None).

Definition noon_features : HealthDataMerger.Features :=
  Eval vm_compute in
    HealthDataMerger.features_of (HealthDataMerger.glucose_timestamp noon_row).

(** A merger that holds the merged frame of an earlier alignment and, as
    its health data, a frame without columns. *)
Definition stale_merger : HealthDataMerger.Self :=
  HealthDataMerger.load_apple_health_data day_merged (mkFrame [] []).

Import AppleHealthParser.

(** A blood glucose record, a record without a type and without dates, and
    an export with a step count, a workout, the blood glucose record inside
    a correlation, the record without a type, and a sleep record. *)
Definition export_glucose_record : Element :=
  Elem "Record" [("type", "HKQuantityTypeIdentifierBloodGlucose");
                 ("sourceName", "Libre"); ("value", "5.4");
                 ("unit", "mmol/L"); ("startDate", "2024-01-01 08:05:00")] [].

Definition export_untyped_record : Element :=
  Elem "Record" [("sourceName", "Phone"); ("value", "1")] [].

Definition export_correlation : Element :=
  Elem "Correlation" [("type", "HKCorrelationTypeIdentifierFood")]
       [export_glucose_record].

Definition export_root : Element :=
  Elem "HealthData" [("locale", "en_GB")]
    [Elem "Record" [("type", "HKQuantityTypeIdentifierStepCount");
                    ("sourceName", "Watch"); ("value", "12");
                    ("unit", "count"); ("startDate", "2024-01-01 08:00:00")] [];
     Elem "Workout" [("workoutActivityType", "HKWorkoutActivityTypeRunning")] [];
     export_correlation;
     export_untyped_record;
     Elem "Record" [("type", "HKCategoryTypeIdentifierSleepAnalysis");
                    ("sourceName", "Watch"); ("value", "asleep");
                    ("startDate", "2024-01-01 23:00:00")] []].

Definition export_parser : AppleHealthParser.Self :=
  AppleHealthParser.mkSelf "export.xml" (Some export_root).

(** An export without a record. *)
Definition bare_root : Element :=
  Elem "HealthData" [] [Elem "Workout" [] []].

Definition bare_parser : AppleHealthParser.Self :=
  AppleHealthParser.mkSelf "export.xml" (Some bare_root).


(** Conversions that read the cells of [export_root]. *)
Definition read_date (column : list (option string)) (cell : option string)
  : option Z :=
  match cell with
  | Some "2024-01-01 08:00:00" => Some (1704096000 * ns_per_second)
  | Some "2024-01-01 08:05:00" => Some (1704096300 * ns_per_second)
  | Some "2024-01-01 23:00:00" => Some (1704150000 * ns_per_second)
  | _ => None
  end.

Definition read_number (cell : option string) : option Q :=
  match cell with
  | Some "12" => Some 12%Q
  | Some "5.4" => Some 5.4%Q
  | Some "1" => Some 1%Q
  | _ => None
  end.

Definition export_frame : DataFrame HealthRecord :=
  Eval vm_compute in
    match extract_health_records read_date read_number export_parser None with
    | Ok out => out
    | Raise _ => mkFrame [] []
    end.

Definition bare_frame : DataFrame HealthRecord :=
  Eval vm_compute in
    match extract_health_records read_date read_number bare_parser None with
    | Ok out => out
    | Raise _ => mkFrame [] []
    end.

(** A merger loaded with a frame of the parser and the falling series. *)
Definition loaded_with (df : DataFrame HealthRecord) : HealthDataMerger.Self :=
  HealthDataMerger.load_glucose_data
    (HealthDataMerger.load_apple_health_data
       (HealthDataMerger.mkSelf None None None) (as_health_frame df))
    falling_frame.

Definition export_glucose : DataFrame HealthRecord :=
  Eval vm_compute in
    match get_glucose_data read_date read_number export_parser with
    | Ok out => out
    | Raise _ => mkFrame [] []
    end.

Definition export_activity : DataFrame HealthRecord :=
  Eval vm_compute in
    match get_activity_data read_date read_number export_parser with
    | Ok out => out
    | Raise _ => mkFrame [] []
    end.

Definition export_glucose_row : HealthRecord :=
  Eval vm_compute in
    nth 0 (rows export_glucose)
        (mkHealthRecord None None None None None None None).

Definition export_activity_row : HealthRecord :=
  Eval vm_compute in
    nth 0 (rows export_activity)
        (mkHealthRecord None None None None None None None).

(** Readings at minutes 0, 5 and 65: at a frequency of a quarter of an hour,
    three bins between them are empty. *)
Definition gap_series : LibreGlucoseProcessor.Self :=
  loaded libre_header
         [historic 0 100; historic (5 * minute) 90; historic (65 * minute) 120].

(** An export in which two columns are mapped to the label [timestamp]. *)
Definition two_timestamps_series : LibreGlucoseProcessor.Self :=
  loaded ["Device Timestamp"; "Time"; "Historic Glucose mg/dL";
          "Scan Glucose mg/dL"; "Strip Glucose mg/dL"]
         [historic 0 100].

(** An export whose only reading has no timestamp. *)
Definition undated_series : LibreGlucoseProcessor.Self :=
  loaded libre_header [mkRaw None (Some 100%Q) None None None].

Definition gap_processed : LibreGlucoseProcessor.Self :=
  Eval vm_compute in fst (clean_and_process gap_series).

Definition gap_frame : DataFrame Reading :=
  Eval vm_compute in
    match processed_data gap_processed with
    | Some d => d
    | None => mkFrame [] []
    end.

Definition gap_resampled : DataFrame Resampling.Resampled :=
  Eval vm_compute in
    match Resampling.resample_data gap_processed 15 with
    | Ok out => out
    | Raise _ => mkFrame [] []
    end.

End FurtherSamples.


(** * Properties *)

Unset Implicit Arguments.

#[local] Arguments String.eqb : simpl never.
#[local] Arguments LibreGlucoseProcessor.to_datetime : simpl never.

(** ** Comparisons and lists *)

Section Comparisons.

Local Open Scope Q_scope.

Lemma Qltb_true (x y : Q) : Qltb x y = true <-> x < y.
Proof.
  unfold Qltb. rewrite negb_true_iff. split.
  - intros H. apply Qnot_le_lt. intros L.
    apply Qle_bool_iff in L. congruence.
  - intros H. destruct (Qle_bool y x) eqn:E; [|reflexivity].
    apply Qle_bool_iff in E. exfalso. exact (Qlt_not_le _ _ H E).
Qed.

Lemma Qltb_false (x y : Q) : Qltb x y = false <-> y <= x.
Proof.
  unfold Qltb. rewrite negb_false_iff. apply Qle_bool_iff.
Qed.

Lemma Qle_bool_false (x y : Q) : Qle_bool x y = false <-> y < x.
Proof.
  rewrite <- Qltb_true. unfold Qltb. now rewrite negb_true_iff.
Qed.

Lemma between_true (x : option Q) (a b : Q) :
  between x a b = true <-> exists v, x = Some v /\ a <= v /\ v <= b.
Proof.
  destruct x as [v|]; simpl.
  - rewrite andb_true_iff, !Qle_bool_iff. split.
    + intros H. now exists v.
    + intros (w & E & H). now inversion E; subst.
  - split; [discriminate|]. now intros (w & E & _).
Qed.

End Comparisons.

(** Case analysis on every comparison of a goal, each turned into the
    inequality it decides. *)
Ltac split_comparisons :=
  repeat match goal with
    | |- context [Qltb ?a ?b] =>
        let E := fresh "E" in
        destruct (Qltb a b) eqn:E;
        [apply Qltb_true in E | apply Qltb_false in E]
    | |- context [Qle_bool ?a ?b] =>
        let E := fresh "E" in
        destruct (Qle_bool a b) eqn:E;
        [apply Qle_bool_iff in E | apply Qle_bool_false in E]
    end.

Section Lists.

Context {R : Type} (key : R -> option Z).

Lemma insert_by_perm (r : R) (l : list R) :
  Permutation (insert_by key r l) (r :: l).
Proof.
  induction l as [|x l IH]; simpl.
  - reflexivity.
  - destruct (time_leb (key r) (key x) && negb (time_eqb (key r) (key x))).
    + reflexivity.
    + rewrite IH. apply perm_swap.
Qed.

Lemma sort_values_from_perm (l acc : list R) :
  Permutation (fold_left (fun a r => insert_by key r a) l acc) (l ++ acc).
Proof.
  revert acc. induction l as [|x l IH]; intros acc; simpl.
  - reflexivity.
  - rewrite IH, insert_by_perm. symmetry. apply Permutation_middle.
Qed.

Lemma sort_values_perm (l : list R) : Permutation (sort_values key l) l.
Proof.
  unfold sort_values. rewrite sort_values_from_perm. now rewrite app_nil_r.
Qed.

Lemma sort_values_In (l : list R) (x : R) : In x (sort_values key l) <-> In x l.
Proof.
  split; apply Permutation_in; [|symmetry]; apply sort_values_perm.
Qed.

Lemma drop_duplicates_from_In (seen : list (option Z)) (l : list R) (x : R) :
  In x (drop_duplicates_from key seen l) -> In x l.
Proof.
  revert seen. induction l as [|y l IH]; intros seen; simpl; [tauto|].
  destruct (existsb (time_eqb (key y)) seen).
  - intros H. right. eapply IH, H.
  - intros [H|H]; [now left | right; eapply IH, H].
Qed.

Lemma drop_duplicates_In (l : list R) (x : R) :
  In x (drop_duplicates key l) -> In x l.
Proof. apply drop_duplicates_from_In. Qed.

Lemma drop_duplicates_from_NoDup (seen : list (option Z)) (l : list R) :
  NoDup (map key (drop_duplicates_from key seen l)) /\
  forall x, In x (drop_duplicates_from key seen l) -> ~ In (key x) seen.
Proof.
  revert seen. induction l as [|y l IH]; intros seen; simpl.
  - split; [constructor | tauto].
  - destruct (existsb (time_eqb (key y)) seen) eqn:E; [apply IH|].
    destruct (IH (key y :: seen)) as (ND & Fresh). simpl. split.
    + constructor; [|exact ND].
      intros Hin. apply in_map_iff in Hin. destruct Hin as (x & Ex & Hx).
      apply (Fresh x Hx). left. now symmetry.
    + intros x [<-|Hx] Hin.
      * assert (existsb (time_eqb (key y)) seen = true); [|congruence].
        apply existsb_exists. exists (key y). split; [exact Hin|].
        destruct (key y); simpl; [apply Z.eqb_refl | reflexivity].
      * apply (Fresh x Hx). now right.
Qed.

Lemma drop_duplicates_NoDup (l : list R) :
  NoDup (map key (drop_duplicates key l)).
Proof. apply drop_duplicates_from_NoDup. Qed.

Lemma sort_values_NoDup (l : list R) :
  NoDup (map key l) -> NoDup (map key (sort_values key l)).
Proof.
  apply Permutation_NoDup, Permutation_map. symmetry. apply sort_values_perm.
Qed.

(** [sort_values] sorts. *)
Lemma time_leb_total (a b : option Z) :
  time_leb a b = true \/ time_leb b a = true.
Proof.
  destruct a, b; simpl; try tauto.
  destruct (Z.leb_spec z z0), (Z.leb_spec z0 z); try tauto. lia.
Qed.

Lemma time_eqb_leb (a b : option Z) :
  time_eqb a b = true -> time_leb b a = true.
Proof.
  destruct a, b; simpl; try congruence.
  intros E. apply Z.eqb_eq in E. subst. apply Z.leb_refl.
Qed.

Lemma insert_by_HdRel (x r : R) (l : list R) :
  HdRel (fun a b => time_leb (key a) (key b) = true) x l ->
  time_leb (key x) (key r) = true ->
  HdRel (fun a b => time_leb (key a) (key b) = true) x (insert_by key r l).
Proof.
  intros H L. destruct l as [|y l]; simpl.
  - now constructor.
  - destruct (time_leb (key r) (key y) && negb (time_eqb (key r) (key y)));
      constructor; [exact L | now inversion H].
Qed.

Lemma insert_by_sorted (r : R) (l : list R) :
  Sorted (fun a b => time_leb (key a) (key b) = true) l ->
  Sorted (fun a b => time_leb (key a) (key b) = true) (insert_by key r l).
Proof.
  induction l as [|x l IH]; intros S; simpl.
  - repeat constructor.
  - inversion S as [|? ? S' H]; subst.
    destruct (time_leb (key r) (key x) && negb (time_eqb (key r) (key x))) eqn:C.
    + apply andb_true_iff in C. destruct C as (L & _).
      constructor; [exact S | now constructor].
    + constructor; [apply IH, S'|].
      apply insert_by_HdRel; [exact H|].
      apply andb_false_iff in C. destruct C as [C|C].
      * destruct (time_leb_total (key r) (key x)); [congruence | assumption].
      * apply negb_false_iff in C. apply time_eqb_leb, C.
Qed.

Lemma sort_values_sorted (l : list R) :
  Sorted (fun a b => time_leb (key a) (key b) = true) (sort_values key l).
Proof.
  unfold sort_values.
  assert (G : forall acc,
             Sorted (fun a b => time_leb (key a) (key b) = true) acc ->
             Sorted (fun a b => time_leb (key a) (key b) = true)
                    (fold_left (fun a r => insert_by key r a) l acc)).
  { induction l as [|x l IH]; intros acc S; simpl; [exact S|].
    apply IH, insert_by_sorted, S. }
  apply G. constructor.
Qed.

End Lists.

(** ** Rounding to binary64 *)

Section Rounding.

Import Binary64.
Local Open Scope Q_scope.

Lemma pow2_pos (k : Z) : 0 < pow2 k.
Proof. apply Qpower_0_lt. reflexivity. Qed.

Lemma pow2_plus (a b : Z) : pow2 (a + b) == pow2 a * pow2 b.
Proof. apply Qpower_plus. discriminate. Qed.

Lemma pow2_le (a b : Z) : (a <= b)%Z -> pow2 a <= pow2 b.
Proof. intros H. apply Qpower_le_compat_l; [exact H|]. discriminate. Qed.

Lemma pow2_Z (k : Z) : (0 <= k)%Z -> pow2 k == inject_Z (2 ^ k).
Proof. intros H. unfold pow2. now rewrite Zpower_Qpower. Qed.


Lemma nearest_even_floor (x : Q) :
  (Qfloor x <= nearest_even x <= Qfloor x + 1)%Z.
Proof.
  unfold nearest_even.
  destruct (Qcompare (x - inject_Z (Qfloor x)) (1 # 2)); [destruct (Z.even _)| |]; lia.
Qed.

Lemma nearest_even_Z (n : Z) : nearest_even (inject_Z n) = n.
Proof.
  unfold nearest_even. rewrite Qfloor_Z.
  destruct (Qcompare_spec (inject_Z n - inject_Z n) (1 # 2)) as [E|E|E];
    [exfalso; lra|reflexivity|exfalso; lra].
Qed.

Lemma nearest_even_mono (x y : Q) : x <= y -> (nearest_even x <= nearest_even y)%Z.
Proof.
  intros H. pose proof (Qfloor_resp_le x y H) as F.
  destruct (Z.eq_dec (Qfloor x) (Qfloor y)) as [E|N].
  - unfold nearest_even. rewrite <- E.
    destruct (Qcompare_spec (x - inject_Z (Qfloor x)) (1 # 2)) as [Ex|Ex|Ex];
      destruct (Qcompare_spec (y - inject_Z (Qfloor x)) (1 # 2)) as [Ey|Ey|Ey];
      try (destruct (Z.even (Qfloor x))); try lia; exfalso; lra.
  - pose proof (nearest_even_floor x). pose proof (nearest_even_floor y). lia.
Qed.

Lemma ulp_exponent_spec (x : Q) :
  0 < x ->
  pow2 (ulp_exponent x + 52) <= x /\ x < pow2 (ulp_exponent x + 53).
Proof.
  intros Pos. destruct x as [n d]. unfold ulp_exponent. cbn [Qnum Qden].
  assert (Hn : (0 < n)%Z) by (unfold Qlt in Pos; cbn in Pos; lia).
  set (ln := Z.log2 n). set (ld := Z.log2 (Z.pos d)).
  destruct (Z.log2_spec n Hn) as (N1 & N2). fold ln in N1, N2.
  rewrite <- Z.add_1_r in N2.
  destruct (Z.log2_spec (Z.pos d) ltac:(lia)) as (D1 & D2). fold ld in D1, D2.
  rewrite <- Z.add_1_r in D2.
  assert (Ln : (0 <= ln)%Z) by apply Z.log2_nonneg.
  assert (Ld : (0 <= ld)%Z) by apply Z.log2_nonneg.
  assert (Up : n # d < pow2 (ln - ld + 1)).
  { replace (ln - ld + 1)%Z with ((ln + 1) + - ld)%Z by lia.
    rewrite pow2_plus. unfold pow2 at 2. rewrite Qpower_opp.
    fold (pow2 ld). rewrite (pow2_Z (ln + 1)), (pow2_Z ld) by lia.
    apply Qlt_shift_div_l.
    - change 0 with (inject_Z 0). rewrite <- Zlt_Qlt. lia.
    - unfold Qlt, Qmult, inject_Z. cbn [Qnum Qden]. rewrite ?Pos.mul_1_r, ?Z.mul_1_r.
      clearbody ln ld. generalize dependent (2 ^ ld)%Z. generalize dependent (2 ^ (ln + 1))%Z. intros. nia. }
  assert (Low : pow2 (ln - ld - 1) < n # d).
  { replace (ln - ld - 1)%Z with (ln + - (ld + 1))%Z by lia.
    rewrite pow2_plus. unfold pow2 at 2. rewrite Qpower_opp.
    fold (pow2 (ld + 1)). rewrite (pow2_Z ln), (pow2_Z (ld + 1)) by lia.
    apply Qlt_shift_div_r.
    - change 0 with (inject_Z 0). rewrite <- Zlt_Qlt. lia.
    - unfold Qlt, Qmult, inject_Z. cbn [Qnum Qden]. rewrite ?Pos.mul_1_r, ?Z.mul_1_r.
      clearbody ln ld. generalize dependent (2 ^ (ld + 1))%Z. generalize dependent (2 ^ ln)%Z. intros. nia. }
  destruct (Qle_bool (pow2 (ln - ld - 52 + 52)) (n # d)) eqn:B.
  - apply Qle_bool_iff in B. split; [exact B|].
    replace (ln - ld - 52 + 53)%Z with (ln - ld + 1)%Z by lia. exact Up.
  - apply Qle_bool_false in B. split.
    + replace (ln - ld - 52 - 1 + 52)%Z with (ln - ld - 1)%Z by lia. lra.
    + replace (ln - ld - 52 - 1 + 53)%Z with (ln - ld - 52 + 52)%Z by lia. exact B.
Qed.


Lemma scaled_bounds (x : Q) :
  0 < x ->
  pow2 52 <= x / pow2 (ulp_exponent x) /\ x / pow2 (ulp_exponent x) < pow2 53.
Proof.
  intros P. destruct (ulp_exponent_spec x P) as (L & U).
  rewrite pow2_plus in L, U. pose proof (pow2_pos (ulp_exponent x)) as E. split.
  - apply Qle_shift_div_l; [exact E|]. lra.
  - apply Qlt_shift_div_r; [exact E|]. lra.
Qed.

Lemma significand_bounds (x : Q) :
  0 < x ->
  (2 ^ 52 <= nearest_even (x / pow2 (ulp_exponent x)) <= 2 ^ 53)%Z.
Proof.
  intros P. destruct (scaled_bounds x P) as (L & U).
  rewrite (pow2_Z 52) in L by lia. rewrite (pow2_Z 53) in U by lia.
  apply nearest_even_mono in L. apply Qlt_le_weak, nearest_even_mono in U.
  rewrite nearest_even_Z in L, U. lia.
Qed.

Lemma round_positive_bounds (x : Q) :
  0 < x ->
  pow2 (ulp_exponent x + 52) <= round_positive x <= pow2 (ulp_exponent x + 53).
Proof.
  intros P. destruct (significand_bounds x P) as (L & U). unfold round_positive.
  rewrite !pow2_plus, (pow2_Z 52), (pow2_Z 53) by lia.
  pose proof (pow2_pos (ulp_exponent x)) as E.
  rewrite Zle_Qle in L, U. split; [rewrite (Qmult_comm (pow2 _))|rewrite (Qmult_comm (pow2 _))];
    apply Qmult_le_compat_r; (exact L || exact U || lra).
Qed.

Lemma ulp_exponent_mono (x y : Q) :
  0 < x -> x <= y -> (ulp_exponent x <= ulp_exponent y)%Z.
Proof.
  intros P L. assert (Py : 0 < y) by lra.
  destruct (ulp_exponent_spec x P) as (Lx & _).
  destruct (ulp_exponent_spec y Py) as (_ & Uy).
  assert (H : pow2 (ulp_exponent x + 52) < pow2 (ulp_exponent y + 53)) by lra.
  apply Qpower_lt_compat_l_inv in H; [lia|reflexivity].
Qed.

Lemma round_positive_mono (x y : Q) :
  0 < x -> x <= y -> round_positive x <= round_positive y.
Proof.
  intros P L. assert (Py : 0 < y) by lra.
  pose proof (ulp_exponent_mono x y P L) as E.
  destruct (Z.eq_dec (ulp_exponent x) (ulp_exponent y)) as [Eq|Ne].
  - unfold round_positive. rewrite <- Eq.
    pose proof (pow2_pos (ulp_exponent x)) as Pe.
    apply Qmult_le_compat_r; [|lra]. rewrite <- Zle_Qle. apply nearest_even_mono.
    apply Qle_shift_div_l; [exact Pe|].
    unfold Qdiv. rewrite <- Qmult_assoc, (Qmult_comm (/ _)), Qmult_inv_r, Qmult_1_r; lra.
  - destruct (round_positive_bounds x P) as (_ & Ux).
    destruct (round_positive_bounds y Py) as (Ly & _).
    pose proof (pow2_le (ulp_exponent x + 53) (ulp_exponent y + 52) ltac:(lia)). lra.
Qed.


Lemma round_zero (x : Q) : x == 0 -> round x = 0.
Proof.
  intros E. unfold round. destruct x as [n d]. unfold Qeq in E. cbn in E.
  cbn [Qnum]. now replace n with 0%Z by lia.
Qed.

Lemma round_of_positive (x : Q) : 0 < x -> round x = round_positive x.
Proof.
  intros P. unfold round. destruct x as [[|n|n] d]; [| reflexivity |];
    unfold Qlt in P; cbn in P; lia.
Qed.

Lemma round_nonneg (x : Q) : 0 <= x -> 0 <= round x.
Proof.
  intros H. destruct (Qlt_le_dec 0 x) as [P|N].
  - rewrite (round_of_positive x P).
    destruct (round_positive_bounds x P) as (L & _).
    pose proof (pow2_pos (ulp_exponent x + 52)). lra.
  - rewrite (round_zero x) by lra. lra.
Qed.

Lemma round_mono (x y : Q) : 0 <= x -> x <= y -> round x <= round y.
Proof.
  intros H L. destruct (Qlt_le_dec 0 x) as [P|N].
  - rewrite (round_of_positive x P), (round_of_positive y) by lra.
    now apply round_positive_mono.
  - rewrite (round_zero x) by lra. apply round_nonneg. lra.
Qed.





Lemma round_compat (x y : Q) : 0 <= x -> x == y -> round x == round y.
Proof.
  intros P E. apply Qle_antisym; apply round_mono; lra.
Qed.

End Rounding.

(** ** The glucose processor *)

Section Processor.

Import LibreGlucoseProcessor.
Local Open Scope Q_scope.

(** The range label, as a function of the value. *)
Lemma range_label_spec (v : Q) :
  (v < 54 -> range_label (Some v) = "very_low") /\
  (54 <= v -> v < 70 -> range_label (Some v) = "low") /\
  (70 <= v -> v <= 180 -> range_label (Some v) = "normal") /\
  (180 < v -> v <= 250 -> range_label (Some v) = "high") /\
  (250 < v -> range_label (Some v) = "very_high").
Proof.
  unfold range_label, lt, gt.
  repeat split; intros; split_comparisons; try reflexivity; exfalso; lra.
Qed.


(** The trend label, as a function of the rate of change: no rate is
    labelled "falling". *)
Lemma trend_label_spec (rate : option Q) :
  trend_label rate =
    match rate with
    | None => "stable"
    | Some v =>
        if Qltb v (-2) then "falling_fast"
        else if Qltb 2 v then "rising_fast"
        else if Qle_bool 1 v then "rising"
        else "stable"
    end.
Proof.
  unfold trend_label, lt, gt, between. destruct rate as [v|]; [|reflexivity].
  split_comparisons; simpl; try reflexivity; exfalso; lra.
Qed.

Lemma trend_label_never_falling (rate : option Q) :
  trend_label rate <> "falling".
Proof.
  rewrite trend_label_spec. destruct rate as [v|]; [|discriminate].
  split_comparisons; discriminate.
Qed.

(** Where a row of the processed frame comes from. *)
Lemma add_metrics_rows_In (prev : option Consolidated) (l : list Consolidated)
      (r : Reading) :
  In r (add_metrics_rows prev l) ->
  exists p c, In c l /\ r = add_metrics_row p c.
Proof.
  revert prev. induction l as [|x l IH]; intros prev; simpl; [tauto|].
  intros [H|H].
  - exists prev, x. split; [now left | now symmetry].
  - destruct (IH _ H) as (p & c & Hc & E). exists p, c. split; [now right | exact E].
Qed.

Lemma select_columns_ok (cols labels : list string) (u : unit) :
  select_columns cols labels = Ok u ->
  forall l, In l labels -> existsb (String.eqb l) cols = true.
Proof.
  unfold select_columns, missing_labels.
  destruct (filter _ labels) as [|m ms] eqn:F; [|discriminate].
  intros _ l Hl. destruct (existsb (String.eqb l) cols) eqn:E; [reflexivity|].
  assert (In l (filter (fun l => negb (existsb (String.eqb l) cols)) labels)).
  { apply filter_In. split; [exact Hl | now rewrite E]. }
  rewrite F in H. destruct H.
Qed.

Lemma add_column_keeps (c c' : string) (cols : list string) :
  existsb (String.eqb c) cols = true ->
  existsb (String.eqb c) (add_column c' cols) = true.
Proof.
  intros H. unfold add_column.
  destruct (existsb (String.eqb c') cols); [exact H|].
  rewrite existsb_app, H. reflexivity.
Qed.

Lemma process_rows (df : DataFrame RawRow) (out : DataFrame Reading) (r : Reading) :
  process df = Ok out -> In r (rows out) ->
  exists p rr cols,
    r = add_metrics_row p (mkConsolidated rr (combined_value rr) (source_label cols rr))
    /\ between (combined_value rr) 20 600 = true
    /\ existsb (String.eqb "scan_glucose_mg_dl") cols = true
    /\ existsb (String.eqb "strip_glucose_mg_dl") cols = true.
Proof.
  unfold process.
  destruct (existsb (String.eqb "glucose_mmol_l") (columns df)
            && negb (existsb (String.eqb "glucose_mg_dl") (columns df)));
    (destruct (select_columns _ glucose_columns) eqn:Sel; simpl; [|discriminate];
     destruct (to_datetime _); simpl; [|discriminate];
     destruct (select_columns _ ["timestamp"%string]); simpl; [|discriminate];
     intros E; inversion E; subst out; clear E; simpl;
     intros H; apply add_metrics_rows_In in H; destruct H as (p & c & Hc & ->);
     apply sort_values_In, drop_duplicates_In, filter_In in Hc;
     destruct Hc as (Hc & Hb); apply in_map_iff in Hc;
     destruct Hc as (rr & <- & _);
     exists p, rr; eexists; split; [reflexivity|]; split; [exact Hb|];
     split; apply add_column_keeps, (select_columns_ok _ _ _ Sel);
     unfold glucose_columns; simpl; tauto).
Qed.

Lemma clean_and_process_rows (self : Self) (out : DataFrame Reading) (r : Reading) :
  snd (clean_and_process self) = Ok out -> In r (rows out) ->
  exists p rr cols,
    r = add_metrics_row p (mkConsolidated rr (combined_value rr) (source_label cols rr))
    /\ between (combined_value rr) 20 600 = true
    /\ existsb (String.eqb "scan_glucose_mg_dl") cols = true
    /\ existsb (String.eqb "strip_glucose_mg_dl") cols = true.
Proof.
  unfold clean_and_process, standardize_columns.
  destruct (raw_data self) as [df|]; simpl; [|discriminate].
  destruct (process _) as [o|e] eqn:E; simpl; [|discriminate].
  intros H; inversion H; subst o. eapply process_rows, E.
Qed.

Lemma add_metrics_rows_raw (prev : option Consolidated) (l : list Consolidated) :
  map (fun r => timestamp (raw r)) (add_metrics_rows prev l)
  = map (fun c => timestamp (c_raw c)) l.
Proof.
  revert prev. induction l as [|c l IH]; intros prev; simpl; [reflexivity|].
  now rewrite IH.
Qed.

(** No two rows of the processed frame have the same timestamp, so the
    rate of change never divides by a zero interval. *)
Lemma clean_and_process_distinct_timestamps
      (self : Self) (out : DataFrame Reading) :
  snd (clean_and_process self) = Ok out ->
  NoDup (map (fun r => timestamp (raw r)) (rows out)).
Proof.
  unfold clean_and_process, standardize_columns.
  destruct (raw_data self) as [df|]; simpl; [|discriminate].
  destruct (process _) as [o|e] eqn:E; simpl; [|discriminate].
  intros H; inversion H; subst o; clear H. revert E.
  unfold process.
  match goal with
  | |- context [if ?c then _ else _] => destruct c
  end;
    (destruct (select_columns _ glucose_columns); simpl; [|discriminate];
     destruct (to_datetime _); simpl; [|discriminate];
     destruct (select_columns _ ["timestamp"%string]); simpl; [|discriminate];
     intros E; inversion E; subst out; clear E; simpl;
     rewrite add_metrics_rows_raw;
     apply sort_values_NoDup, drop_duplicates_NoDup).
Qed.

Lemma clean_and_process_stored (self : Self) (out : DataFrame Reading) :
  snd (clean_and_process self) = Ok out ->
  processed_data (fst (clean_and_process self)) = Some out.
Proof.
  unfold clean_and_process, standardize_columns.
  destruct (raw_data self) as [df|]; simpl; [|discriminate].
  destruct (process _) as [o|e]; simpl; [|discriminate].
  now intros H; inversion H.
Qed.

Lemma has_label_In (c : string) (cols : list string) :
  existsb (String.eqb c) cols = true <-> In c cols.
Proof.
  rewrite existsb_exists. split.
  - intros (x & Hx & E). apply String.eqb_eq in E. now subst.
  - intros H. exists c. split; [exact H | apply String.eqb_refl].
Qed.

Lemma has_label_false (c : string) (cols : list string) :
  ~ In c cols -> existsb (String.eqb c) cols = false.
Proof.
  intros H. destruct (existsb (String.eqb c) cols) eqn:E; [|reflexivity].
  now apply has_label_In in E.
Qed.

(** C9. Every reading of the processed frame has a value, and its range
    category is very_low when the value is below 54, low from 54 up to but
    not including 70, normal from 70 to 180 inclusive, high above 180 up to
    250 inclusive, and very_high above 250. *)
Theorem range_category_of_reading
        (self : Self) (out : DataFrame Reading) (r : Reading) :
  snd (clean_and_process self) = Ok out ->
  In r (rows out) ->
  exists v,
    glucose_value r = Some v /\
    (v < 54 -> glucose_range r = "very_low") /\
    (54 <= v /\ v < 70 -> glucose_range r = "low") /\
    (70 <= v /\ v <= 180 -> glucose_range r = "normal") /\
    (180 < v /\ v <= 250 -> glucose_range r = "high") /\
    (250 < v -> glucose_range r = "very_high").
Proof.
  intros Hout Hr.
  destruct (clean_and_process_rows _ _ _ Hout Hr) as (p & rr & cols & -> & Hb & _).
  apply between_true in Hb. destruct Hb as (v & Hv & _).
  exists v. simpl. rewrite Hv. split; [reflexivity|].
  destruct (range_label_spec v) as (H1 & H2 & H3 & H4 & H5).
  repeat split; intros; intuition.
Qed.

Lemma range_category_of_reading_witness :
  exists v,
    glucose_value Samples.boundary_low_row = Some v /\
    (v < 54 -> glucose_range Samples.boundary_low_row = "very_low") /\
    (54 <= v /\ v < 70 -> glucose_range Samples.boundary_low_row = "low") /\
    (70 <= v /\ v <= 180 -> glucose_range Samples.boundary_low_row = "normal") /\
    (180 < v /\ v <= 250 -> glucose_range Samples.boundary_low_row = "high") /\
    (250 < v -> glucose_range Samples.boundary_low_row = "very_high").
Proof.
  apply (range_category_of_reading Samples.boundary_series Samples.boundary_frame
                                   Samples.boundary_low_row).
  - vm_compute. reflexivity.
  - simpl. tauto.
Defined.

(** The boundary values named by the specification, through the whole of
    [clean_and_process]: 70 and 180 are normal, 69.999 is low, 180.001 is
    high. *)
Example range_boundaries :
  map (fun r => (glucose_value r, glucose_range r)) (rows Samples.boundary_frame) =
  [ (Some 70, "normal"); (Some 69.999, "low"); (Some 180, "normal");
    (Some 180.001, "high"); (Some 40, "very_low"); (Some 300, "very_high") ].
Proof. reflexivity. Qed.

(** C1 (the code departs from it).  Two readings, 100 mg/dL and 92 mg/dL
    five minutes apart: the second has a rate of change of -1.6 mg/dL per
    minute, inside [-2, -1], and its trend is "stable", not "falling". *)
Theorem falling_rate_labelled_stable :
  exists out r rate,
    snd (clean_and_process Samples.falling_series) = Ok out /\
    In r (rows out) /\
    glucose_rate_change r = Some rate /\
    rate == -1.6 /\ -2 <= rate /\ rate <= -1 /\
    glucose_trend r = "stable".
Proof.
  eexists. eexists. eexists. split; [vm_compute; reflexivity|].
  split; [right; left; reflexivity|]. simpl.
  split; [reflexivity|].
  repeat split; vm_compute; congruence.
Qed.

(** The other cases of the trend are as the specification has them. *)
Lemma trend_label_other_cases (rate : Q) :
  (2 < rate -> trend_label (Some rate) = "rising_fast") /\
  (1 <= rate /\ rate <= 2 -> trend_label (Some rate) = "rising") /\
  (rate < -2 -> trend_label (Some rate) = "falling_fast") /\
  (-2 <= rate /\ rate < 1 -> trend_label (Some rate) = "stable") /\
  trend_label None = "stable".
Proof.
  rewrite trend_label_spec.
  repeat split; intros; split_comparisons; try reflexivity; exfalso; lra.
Qed.

(** The effective value of a processed row is the first value present in
    the order historic, scan, fingerstick. *)
Lemma effective_value_priority
      (self : Self) (out : DataFrame Reading) (r : Reading) :
  snd (clean_and_process self) = Ok out ->
  In r (rows out) ->
  glucose_value r =
    match glucose_mg_dl (raw r), scan_glucose_mg_dl (raw r),
          strip_glucose_mg_dl (raw r) with
    | Some v, _, _ => Some v
    | None, Some v, _ => Some v
    | None, None, v => v
    end.
Proof.
  intros Hout Hr.
  destruct (clean_and_process_rows _ _ _ Hout Hr) as (p & rr & cols & -> & _).
  simpl. unfold combined_value. simpl.
  destruct (glucose_mg_dl rr), (scan_glucose_mg_dl rr), (strip_glucose_mg_dl rr);
    reflexivity.
Qed.

(** The source label names the reading type of the effective value when
    the row carries a single type of reading. *)
Lemma source_of_single_kind
      (self : Self) (out : DataFrame Reading) (r : Reading) :
  snd (clean_and_process self) = Ok out ->
  In r (rows out) ->
  match glucose_mg_dl (raw r), scan_glucose_mg_dl (raw r),
        strip_glucose_mg_dl (raw r) with
  | Some v, None, None => glucose_value r = Some v /\ glucose_source r = "historic"
  | None, Some v, None => glucose_value r = Some v /\ glucose_source r = "scan"
  | None, None, Some v => glucose_value r = Some v /\ glucose_source r = "fingerstick"
  | _, _, _ => True
  end.
Proof.
  intros Hout Hr.
  destruct (clean_and_process_rows _ _ _ Hout Hr)
    as (p & rr & cols & -> & _ & Hscan & Hstrip).
  cbn [raw glucose_value glucose_source add_metrics_row c_raw c_value c_source].
  unfold combined_value, source_label. rewrite Hscan, Hstrip.
  destruct (glucose_mg_dl rr), (scan_glucose_mg_dl rr), (strip_glucose_mg_dl rr);
    simpl; auto.
Qed.

(** C2 (the code departs from it).  A row with a historic value of 100 and
    a scan value of 110 takes the historic value and is labelled "scan". *)
Theorem historic_value_labelled_scan :
  exists out r,
    snd (clean_and_process Samples.two_kinds) = Ok out /\
    rows out = [r] /\
    glucose_mg_dl (raw r) = Some 100 /\
    scan_glucose_mg_dl (raw r) = Some 110 /\
    glucose_value r = Some 100 /\
    glucose_source r = "scan".
Proof.
  eexists. eexists. split; [vm_compute; reflexivity|].
  repeat split.
Qed.

Lemma has_label_add_column (c c' : string) (cols : list string) :
  c <> c' ->
  existsb (String.eqb c) (add_column c' cols) = existsb (String.eqb c) cols.
Proof.
  intros N. unfold add_column.
  destruct (existsb (String.eqb c') cols); [reflexivity|].
  rewrite existsb_app. cbn [existsb].
  apply String.eqb_neq in N. rewrite N. now rewrite !orb_false_r.
Qed.




(** [standardize_columns] itself does not raise on a loaded frame: the
    missing required columns are only logged. *)
Lemma standardize_columns_only_warns (self : Self) (df : DataFrame RawRow) :
  raw_data self = Some df ->
  snd (standardize_columns self) = Ok tt.
Proof.
  intros H. unfold standardize_columns. now rewrite H.
Qed.










(** The series of six readings with one very low, one low, two normal, one
    high and one very high: the five percentages are 16.666666666666664
    four times and 33.33333333333333 once.  Their exact sum is
    [100 - 2 ^ -46]; added in binary64 from left to right they give
    [100 - 2 ^ -45], which prints as 99.99999999999997. *)
Example boundary_percentages :
  exists stats,
    get_time_in_range_stats (fst (clean_and_process Samples.boundary_series))
    = Ok (Some stats) /\
    time_very_low_percent stats == 2345624805922133 # 140737488355328 /\
    time_low_percent stats == 2345624805922133 # 140737488355328 /\
    time_in_range_percent stats == 2345624805922133 # 70368744177664 /\
    time_high_percent stats == 2345624805922133 # 140737488355328 /\
    time_very_high_percent stats == 2345624805922133 # 140737488355328 /\
    time_very_low_percent stats + time_low_percent stats
    + time_in_range_percent stats + time_high_percent stats
    + time_very_high_percent stats == 100 - (1 # 70368744177664) /\
    Binary64.add
      (Binary64.add
         (Binary64.add
            (Binary64.add (time_very_low_percent stats) (time_low_percent stats))
            (time_in_range_percent stats))
         (time_high_percent stats))
      (time_very_high_percent stats)
    == 100 - (1 # 35184372088832).
Proof.
  eexists. split; [vm_compute; reflexivity|].
  repeat split; vm_compute; reflexivity.
Qed.



End Processor.

(** ** The nearest-match join *)

Section Join.

Import MergeAsof.

Context {R : Type}.

Lemma keyed_In (key : R -> option Z) (l : list R) (kl : list (Z * R)) :
  keyed key l = Some kl ->
  forall t x, In (t, x) kl <-> In x l /\ key x = Some t.
Proof.
  revert kl. induction l as [|y l IH]; intros kl; simpl.
  - intros E; inversion E; subst. simpl. tauto.
  - destruct (key y) as [ty|] eqn:Ky; [|discriminate].
    destruct (keyed key l) as [krest|]; [|discriminate].
    intros E; inversion E; subst kl. intros t x. simpl.
    rewrite (IH krest eq_refl t x). split.
    + intros [H|H]; [inversion H; subst; tauto | tauto].
    + intros ([<-|H] & K); [left; congruence | tauto].
Qed.

Lemma is_monotonic_cons (t : Z) (r : R) (rest : list (Z * R)) :
  is_monotonic ((t, r) :: rest) = true ->
  is_monotonic rest = true /\ forall t' r', In (t', r') rest -> t <= t'.
Proof.
  revert t r. induction rest as [|[t1 r1] rest IH]; intros t r H.
  - split; [reflexivity | intros ? ? []].
  - change (((t <=? t1) && is_monotonic ((t1, r1) :: rest)) = true) in H.
    apply andb_true_iff in H. destruct H as (L & M).
    apply Z.leb_le in L. split; [exact M|].
    destruct (IH _ _ M) as (_ & All).
    intros t' r' [E|H]; [inversion E; subst; exact L|].
    specialize (All _ _ H). lia.
Qed.

(** The backward candidate is a right row at or before the left key. *)
Lemma asof_backward_some (t : Z) (right : list (Z * R)) (tb : Z) (b : R) :
  asof_backward t right = Some (tb, b) -> In (tb, b) right /\ tb <= t.
Proof.
  induction right as [|[tr r] rest IH]; simpl; [discriminate|].
  destruct (Z.leb_spec tr t) as [L|L]; [|discriminate].
  destruct (asof_backward t rest) as [m|].
  - intros E; inversion E; subst m. destruct (IH eq_refl). tauto.
  - intros E; inversion E; subst. split; [now left | exact L].
Qed.

(** On sorted keys it is the latest such row. *)
Lemma asof_backward_latest (t : Z) (right : list (Z * R)) (t1 : Z) (g1 : R) :
  is_monotonic right = true ->
  In (t1, g1) right -> t1 <= t ->
  exists tb b, asof_backward t right = Some (tb, b) /\ t1 <= tb.
Proof.
  induction right as [|[tr r] rest IH]; intros M Hin L; [destruct Hin|].
  destruct (is_monotonic_cons _ _ _ M) as (M' & All).
  cbn [asof_backward].
  destruct Hin as [E|Hin].
  - inversion E; subst tr r. destruct (Z.leb_spec t1 t) as [_|N]; [|lia].
    destruct (asof_backward t rest) as [[tb b]|] eqn:B.
    + exists tb, b. split; [reflexivity|].
      apply asof_backward_some in B. destruct B as (Hb & _).
      exact (All _ _ Hb).
    + exists t1, g1. split; [reflexivity | lia].
  - specialize (All _ _ Hin).
    destruct (Z.leb_spec tr t) as [_|N]; [|lia].
    destruct (IH M' Hin L) as (tb & b & -> & Hb).
    exists tb, b. split; [reflexivity | exact Hb].
Qed.

Lemma asof_forward_some (t : Z) (right : list (Z * R)) (tf : Z) (f : R) :
  asof_forward t right = Some (tf, f) -> In (tf, f) right /\ t <= tf.
Proof.
  unfold asof_forward. intros H. apply find_some in H. simpl in H.
  destruct H as (Hin & L). apply Z.leb_le in L. tauto.
Qed.

Lemma backward_match_some (tol t : Z) (right : list (Z * R)) (tb : Z) (b : R) :
  backward_match tol t right = Some (tb, b) ->
  In (tb, b) right /\ tb <= t /\ t - tb <= tol.
Proof.
  unfold backward_match, within.
  destruct (asof_backward t right) as [[t0 r0]|] eqn:B; [|discriminate].
  destruct (Z.ltb_spec tol (t - t0)); [discriminate|].
  intros E; inversion E; subst. apply asof_backward_some in B. intuition.
Qed.

Lemma forward_match_some (tol t : Z) (right : list (Z * R)) (tf : Z) (f : R) :
  forward_match tol t right = Some (tf, f) ->
  In (tf, f) right /\ t <= tf /\ tf - t <= tol.
Proof.
  unfold forward_match, within.
  destruct (asof_forward t right) as [[t0 r0]|] eqn:B; [|discriminate].
  destruct (Z.ltb_spec tol (t0 - t)); [discriminate|].
  intros E; inversion E; subst. apply asof_forward_some in B. intuition.
Qed.

(** A match is a right row no farther than the tolerance. *)
Lemma nearest_match_some (tol t : Z) (right : list (Z * R)) (tg : Z) (g : R) :
  nearest_match tol t right = Some (tg, g) ->
  In (tg, g) right /\ Z.abs (t - tg) <= tol.
Proof.
  unfold nearest_match.
  destruct (backward_match tol t right) as [[tb b]|] eqn:B;
    destruct (forward_match tol t right) as [[tf f]|] eqn:F;
    try discriminate;
    try (apply backward_match_some in B); try (apply forward_match_some in F).
  - destruct ((t - tb) - (tf - t) <=? 0); intros E; inversion E; subst;
      split; try tauto; lia.
  - intros E; inversion E; subst. split; try tauto; lia.
  - intros E; inversion E; subst. split; try tauto; lia.
Qed.




End Join.

(** ** The merger *)

Section Merger.

Import LibreGlucoseProcessor MergeAsof HealthDataMerger.

(** The rows [align_timestamps] returns: one for every health row with a
    match, made of the health row, its match and their distance. *)
Lemma align_timestamps_rows (self : Self) (T : Z) (out : DataFrame MergedRow) :
  snd (align_timestamps self T) = Ok out ->
  exists hdf gdf kl kr,
    apple_health_data self = Some hdf /\
    glucose_data self = Some gdf /\
    keyed startDate (sort_values startDate (rows hdf)) = Some kl /\
    keyed (fun g => timestamp (raw g))
          (sort_values (fun g => timestamp (raw g)) (rows gdf)) = Some kr /\
    is_monotonic kr = true /\
    forall r, In r (rows out) <->
      exists th h tg g,
        In (th, h) kl /\
        nearest_match (T * ns_per_minute) th kr = Some (tg, g) /\
        r = mkMerged h (Some g) (Some (total_seconds (th - tg) / 60)%Q).
Proof.
  unfold align_timestamps.
  destruct (apple_health_data self) as [hdf|]; [|discriminate].
  destruct (glucose_data self) as [gdf|]; [|discriminate].
  match goal with
  | |- snd (match ?r with _ => _ end) = _ -> _ => destruct r as [o|e] eqn:E
  end; cbn [snd]; [|discriminate].
  intros H; inversion H; subst o; clear H.
  destruct (has_column hdf "startDate"); cbn [bind] in E; [|discriminate].
  destruct (select_columns _ ["glucose_timestamp"%string]); cbn [bind] in E;
    [|discriminate].
  unfold merge_asof in E.
  destruct (T * ns_per_minute <? 0); [discriminate|].
  destruct (keyed startDate _) as [kl|] eqn:Kl; [|discriminate].
  destruct (is_monotonic kl); cbn [negb] in E; [|discriminate].
  destruct (keyed (fun g => timestamp (raw g)) _) as [kr|] eqn:Kr; [|discriminate].
  destruct (is_monotonic kr) eqn:Mr; cbn [negb bind] in E; [|discriminate].
  inversion E; subst out; clear E. cbn [rows].
  exists hdf, gdf, kl, kr. repeat (split; [first [reflexivity | assumption]|]).
  intros r. rewrite in_map_iff. split.
  - intros ([h og] & <- & Hin). apply filter_In in Hin. destruct Hin as (Hin & Keep).
    apply in_map_iff in Hin. destruct Hin as ([th h'] & E & Hkl).
    cbn [fst snd] in E. inversion E; subst h'; clear E.
    destruct (nearest_match (T * ns_per_minute) th kr) as [[tg g]|] eqn:N;
      cbn [option_map snd] in *; subst og; [|discriminate Keep].
    exists th, h, tg, g. repeat (split; [assumption|]).
    cbn [fst snd]. unfold health_timestamp, glucose_timestamp. cbn [health glucose].
    apply nearest_match_some in N. destruct N as (Hg & _).
    apply (keyed_In _ _ _ Kr) in Hg. destruct Hg as (_ & ->).
    apply (keyed_In _ _ _ Kl) in Hkl. destruct Hkl as (_ & ->).
    reflexivity.
  - intros (th & h & tg & g & Hkl & N & ->).
    exists (h, Some g).
    unfold health_timestamp, glucose_timestamp. cbn [fst snd health glucose].
    pose proof (nearest_match_some _ _ _ _ _ N) as (Hg & _).
    apply (keyed_In _ _ _ Kr) in Hg. destruct Hg as (_ & Eg).
    pose proof (proj1 (keyed_In _ _ _ Kl th h) Hkl) as (_ & Eh).
    cbv beta in Eg. rewrite Eg, Eh. split; [reflexivity|].
    apply filter_In. split.
    + apply in_map_iff. exists (th, h). cbn [fst snd]. rewrite N. now split.
    + cbv beta. cbn [snd]. now rewrite Eg.
Qed.

Lemma minutes_within (d T : Z) :
  Z.abs d <= T * ns_per_minute ->
  (Qabs (total_seconds d / 60) <= inject_Z T)%Q.
Proof.
  intros H. apply Qabs_Qle_condition.
  unfold total_seconds, ns_per_minute, ns_per_second in *.
  unfold Qle, Qdiv, Qmult, Qinv, Qopp, inject_Z. simpl. lia.
Qed.


(** C4. Every row the aligner returns carries a glucose reading and a
    time difference of at most the tolerance, in absolute value; a health
    record with no glucose reading within the tolerance has no row in the
    output. *)
Theorem aligned_within_tolerance
        (self : Self) (T : Z) (out : DataFrame MergedRow) :
  snd (align_timestamps self T) = Ok out ->
  (forall r, In r (rows out) ->
     exists g d,
       glucose r = Some g /\ glucose_timestamp r <> None /\
       time_diff_minutes r = Some d /\ (Qabs d <= inject_Z T)%Q) /\
  (forall hdf gdf h th,
     apple_health_data self = Some hdf ->
     glucose_data self = Some gdf ->
     In h (rows hdf) -> startDate h = Some th ->
     (forall g tg, In g (rows gdf) -> timestamp (raw g) = Some tg ->
                   T * ns_per_minute < Z.abs (th - tg)) ->
     forall r, In r (rows out) -> health r <> h).
Proof.
  intros Hout.
  destruct (align_timestamps_rows _ _ _ Hout)
    as (hdf & gdf & kl & kr & Eh & Eg & Kl & Kr & _ & Rows).
  split.
  - intros r Hr. apply Rows in Hr. destruct Hr as (th & h & tg & g & _ & N & ->).
    apply nearest_match_some in N. destruct N as (Hg & Near).
    apply (keyed_In _ _ _ Kr) in Hg. destruct Hg as (_ & Tg). cbv beta in Tg.
    eexists. eexists. cbn [glucose time_diff_minutes].
    split; [reflexivity|]. split.
    + unfold glucose_timestamp. cbn [glucose]. rewrite Tg. discriminate.
    + split; [reflexivity | apply minutes_within, Near].
  - intros hdf' gdf' h th Eh' Eg' _ Hth Far r Hr Same.
    rewrite Eh in Eh'. rewrite Eg in Eg'. inversion Eh'; inversion Eg'; subst hdf' gdf'.
    apply Rows in Hr. destruct Hr as (th' & h' & tg & g & Hkl & N & ->).
    cbn [health] in Same. subst h'.
    apply (keyed_In _ _ _ Kl) in Hkl. destruct Hkl as (_ & Hth').
    rewrite Hth in Hth'. inversion Hth'; subst th'.
    apply nearest_match_some in N. destruct N as (Hg & Near).
    apply (keyed_In _ _ _ Kr) in Hg. destruct Hg as (Hg & Tg). cbv beta in Tg.
    apply sort_values_In in Hg. specialize (Far _ _ Hg Tg). lia.
Qed.

Lemma aligned_within_tolerance_witness :
  (forall r, In r (rows Samples.day_aligned) ->
     exists g d,
       glucose r = Some g /\ glucose_timestamp r <> None /\
       time_diff_minutes r = Some d /\ (Qabs d <= inject_Z 15)%Q) /\
  (forall hdf gdf h th,
     apple_health_data Samples.day_merger = Some hdf ->
     glucose_data Samples.day_merger = Some gdf ->
     In h (rows hdf) -> startDate h = Some th ->
     (forall g tg, In g (rows gdf) -> timestamp (raw g) = Some tg ->
                   15 * ns_per_minute < Z.abs (th - tg)) ->
     forall r, In r (rows Samples.day_aligned) -> health r <> h).
Proof.
  apply (aligned_within_tolerance Samples.day_merger 15 Samples.day_aligned).
  vm_compute. reflexivity.
Defined.

(** The health record at minute 40 of the sample, 35 minutes from the
    nearest reading, is not in the output; the two others are. *)
Example day_aligned_rows :
  map (fun r => (startDate (health r), glucose_timestamp r, time_diff_minutes r))
      (rows Samples.day_aligned)
  = [ (Some (1 * Samples.minute), Some 0, Some (60000000000 # 60000000000));
      (Some (2 * Samples.minute), Some 0, Some (120000000000 # 60000000000)) ].
Proof. reflexivity. Qed.




(** The row of the sample: the record at 2 min 30 s is matched to the
    reading at minute 0, not to the one at minute 5. *)
Example tie_aligned_rows :
  map (fun r => (startDate (health r), glucose_timestamp r))
      (rows Samples.tie_aligned)
  = [ (Some (150 * ns_per_second), Some 0) ].
Proof. reflexivity. Qed.

(** C6, as the specification states it, fails: with health records loaded
    and a loaded glucose frame that has no row, the aligner returns (a
    frame with no row) and raises nothing. *)
Lemma empty_input_does_not_raise :
  ~ (forall (self : Self) (T : Z),
       Spec.empty_or_unset (apple_health_data self)
       \/ Spec.empty_or_unset (glucose_data self) ->
       raises (snd (align_timestamps self T))).
Proof.
  intros H.
  destruct (H Samples.empty_glucose_merger 15 (or_intror eq_refl)) as (e & E).
  vm_compute in E. discriminate E.
Qed.

(** C6, amended.  The aligner raises, whatever the tolerance, when the
    health records or the glucose readings have not been loaded. *)
Theorem unloaded_input_raises (self : Self) (T : Z) :
  apple_health_data self = None \/ glucose_data self = None ->
  snd (align_timestamps self T)
  = Raise (ValueError "Both datasets must be loaded before merging").
Proof.
  unfold align_timestamps. intros [H|H]; rewrite H.
  - reflexivity.
  - destruct (apple_health_data self); reflexivity.
Qed.

Lemma unloaded_input_raises_witness :
  snd (align_timestamps Samples.unloaded_merger 15)
  = Raise (ValueError "Both datasets must be loaded before merging").
Proof.
  apply (unloaded_input_raises Samples.unloaded_merger 15).
  right. reflexivity.
Defined.

(** *** Contextual features *)

Lemma is_night_never_true (t : option Z) : is_night (features_of t) = false.
Proof.
  unfold features_of. cbn [is_night]. unfold between_int.
  destruct (dt_hour t) as [h|]; [|reflexivity].
  destruct (Z.leb_spec 22 h), (Z.leb_spec h 6); try reflexivity. lia.
Qed.

(** C8 (the code departs from it).  Two aligned rows, one at 23:30 and one
    at 03:00: their hours are 23 and 3, and [is_night] is false on both. *)
Theorem night_hours_not_flagged :
  exists aligned,
    snd (align_timestamps Samples.night_merger 15) = Ok aligned /\
    map (fun rf => option_map (fun f => (hour f, is_night f)) (snd rf))
        (rows (add_contextual_features glucose_timestamp health_timestamp aligned))
    = [Some (Some 23, false); Some (Some 3, false)].
Proof.
  eexists. split; [vm_compute; reflexivity|]. vm_compute. reflexivity.
Qed.

(** No row of any frame is flagged as night. *)
Lemma is_night_false_everywhere {R : Type} (gt ht : R -> option Z)
      (df : DataFrame R) (r : R) (f : Features) :
  In (r, Some f) (rows (add_contextual_features gt ht df)) ->
  is_night f = false.
Proof.
  unfold add_contextual_features.
  destruct (has_column df "glucose_timestamp");
    [|destruct (has_column df "health_timestamp")];
    cbn [rows]; intros H; apply in_map_iff in H; destruct H as (x & E & _);
    inversion E; subst; try apply is_night_never_true.
Qed.

(** *** The mode of a window *)

Lemma string_compare_le_trans (a b c : string) :
  String.compare a b <> Gt -> String.compare b c <> Gt ->
  String.compare a c <> Gt.
Proof.
  revert b c. induction a as [|x a IH]; intros [|y b] [|z c]; simpl;
    try congruence.
  unfold Ascii.compare.
  destruct (N.compare_spec (Ascii.N_of_ascii x) (Ascii.N_of_ascii y)) as [E1|L1|G1];
    destruct (N.compare_spec (Ascii.N_of_ascii y) (Ascii.N_of_ascii z)) as [E2|L2|G2];
    destruct (N.compare_spec (Ascii.N_of_ascii x) (Ascii.N_of_ascii z)) as [E3|L3|G3];
    try congruence; try lia.
  apply IH.
Qed.

Lemma string_leb_trans (a b c : string) :
  String.leb a b = true -> String.leb b c = true -> String.leb a c = true.
Proof.
  unfold String.leb. intros H1 H2.
  pose proof (string_compare_le_trans a b c) as T.
  destruct (String.compare a b), (String.compare b c), (String.compare a c);
    try reflexivity; try discriminate; exfalso; apply T; congruence.
Qed.

Lemma string_leb_refl (a : string) : String.leb a a = true.
Proof.
  destruct (String.leb_total a a); assumption.
Qed.

Lemma insert_str_In (s x : string) (l : list string) :
  In x (insert_str s l) <-> x = s \/ In x l.
Proof.
  induction l as [|y l IH]; simpl.
  - intuition.
  - destruct (String.leb s y); simpl; [intuition | rewrite IH; intuition].
Qed.

Lemma sort_str_In (x : string) (l : list string) :
  In x (sort_str l) <-> In x l.
Proof.
  induction l as [|y l IH]; simpl; [tauto|].
  rewrite insert_str_In, IH. intuition.
Qed.

Lemma insert_str_head_least (s : string) (l : list string) :
  Spec.head_least l -> Spec.head_least (insert_str s l).
Proof.
  destruct l as [|y l]; simpl.
  - intros _ x [<-|[]]. apply string_leb_refl.
  - intros H. destruct (String.leb s y) eqn:E; simpl.
    + intros x [<-|Hx]; [apply string_leb_refl|].
      eapply string_leb_trans; [exact E | apply H, Hx].
    + intros x [<-|Hx]; [apply string_leb_refl|].
      apply insert_str_In in Hx. destruct Hx as [->|Hx].
      * destruct (String.leb_total s y) as [C|C]; [congruence | exact C].
      * apply H. now right.
Qed.

Lemma sort_str_head_least (l : list string) : Spec.head_least (sort_str l).
Proof.
  induction l as [|y l IH]; simpl; [exact I|].
  apply insert_str_head_least, IH.
Qed.

Lemma dropna_str_In (x : list (option string)) (v : string) :
  In v (dropna_str x) <-> In (Some v) x.
Proof.
  induction x as [|[s|] x IH]; simpl; [tauto| |].
  - rewrite IH. split; intros [H|H]; try tauto; left; congruence.
  - rewrite IH. split; [tauto | intros [H|H]; [discriminate | exact H]].
Qed.

Lemma occurrences_pos (s : string) (l : list string) :
  (0 < occurrences s l)%nat <-> In s l.
Proof.
  unfold occurrences. induction l as [|y l IH]; simpl; [split; [lia | tauto]|].
  destruct (String.eqb_spec s y) as [->|N]; simpl.
  - split; [tauto | lia].
  - rewrite IH. split; [tauto | intros [H|H]; [congruence | exact H]].
Qed.

Lemma max_occurrences_from (l vals : list string) (u : string) :
  In u l ->
  (occurrences u vals
   <= fold_right (fun s m => Nat.max (occurrences s vals) m) O l)%nat.
Proof.
  induction l as [|y l IH]; simpl; [tauto|].
  intros [->|H]; [lia | specialize (IH H); lia].
Qed.

Lemma max_occurrences_ge (vals : list string) (u : string) :
  (occurrences u vals <= max_occurrences vals)%nat.
Proof.
  destruct (in_dec string_dec u vals) as [H|H].
  - apply max_occurrences_from, H.
  - assert (occurrences u vals = 0)%nat; [|lia].
    destruct (occurrences u vals) eqn:E; [reflexivity|].
    exfalso. apply H, occurrences_pos. lia.
Qed.

Lemma max_occurrences_attained_from (l vals : list string) :
  l <> [] ->
  exists v, In v l /\
    occurrences v vals = fold_right (fun s m => Nat.max (occurrences s vals) m) O l.
Proof.
  induction l as [|y l IH]; [congruence|]. intros _. simpl.
  destruct l as [|z l].
  - exists y. split; [now left | simpl; lia].
  - destruct (IH ltac:(discriminate)) as (v & Hv & E).
    destruct (Nat.max_spec (occurrences y vals)
                (fold_right (fun s m => Nat.max (occurrences s vals) m) O (z :: l)))
      as [(_ & ->)|(_ & ->)].
    + exists v. split; [now right | exact E].
    + exists y. split; [now left | reflexivity].
Qed.

(** What the aggregation of a categorical column returns. *)
Lemma mode_agg_least (x : list (option string)) :
  Spec.least_mode x (mode_agg x).
Proof.
  unfold mode_agg, mode. set (vals := dropna_str x).
  set (cands := nodup string_dec
                  (filter (fun s => Nat.eqb (occurrences s vals) (max_occurrences vals))
                          vals)).
  assert (Hc : forall s, In s cands <->
                         In s vals /\ occurrences s vals = max_occurrences vals).
  { intros s. unfold cands. rewrite nodup_In, filter_In, Nat.eqb_eq. tauto. }
  pose proof (sort_str_head_least cands) as HL.
  destruct (sort_str cands) as [|m rest] eqn:S; unfold Spec.least_mode.
  - intros v Hv. apply dropna_str_In in Hv. fold vals in Hv.
    destruct (max_occurrences_attained_from vals vals) as (w & Hw & E).
    { intros N. rewrite N in Hv. destruct Hv. }
    assert (In w (sort_str cands)) by (apply sort_str_In, Hc; split; assumption).
    rewrite S in H. destruct H.
  - assert (Hm : In m cands) by (apply sort_str_In; rewrite S; now left).
    apply Hc in Hm. destruct Hm as (Hm & Top). fold vals.
    split; [apply dropna_str_In, Hm|]. split.
    + intros u. rewrite Top. apply max_occurrences_ge.
    + intros u Eu. apply HL.
      rewrite <- S. apply sort_str_In, Hc.
      assert (In u vals).
      { apply occurrences_pos. rewrite Eu. apply occurrences_pos, Hm. }
      split; [assumption | congruence].
Qed.

(** C7, as the specification states it, fails: in the window of the
    sample the record types "...StepCount" and "...ActiveEnergyBurned"
    occur once each, in that order, and the aggregated type is the second
    one, not the first met. *)
Lemma mode_tie_not_first_encountered :
  ~ (forall (self : Self) (w : Z) (out : DataFrame WindowRow)
            (df : DataFrame MergedRow),
       merged_data self = Some df ->
       create_time_windows self w = Ok out ->
       forall win rs,
         In win (rows out) ->
         In (window_start win, rs) (windows df w) ->
         type_mode win = Spec.first_encountered_mode (map col_type rs) /\
         glucose_range_mode win
         = Spec.first_encountered_mode (map col_glucose_range rs) /\
         glucose_trend_mode win
         = Spec.first_encountered_mode (map col_glucose_trend rs) /\
         sourceName_mode win
         = Spec.first_encountered_mode (map col_sourceName rs)).
Proof.
  intros H.
  assert (W : exists win rs,
             rows Samples.day_windows = [win] /\
             windows Samples.day_aligned 60 = [(window_start win, rs)] /\
             type_mode win = Some "HKQuantityTypeIdentifierActiveEnergyBurned" /\
             Spec.first_encountered_mode (map col_type rs)
             = Some "HKQuantityTypeIdentifierStepCount").
  { eexists. eexists. split; [reflexivity|]. split; [vm_compute; reflexivity|].
    split; vm_compute; reflexivity. }
  destruct W as (win & rs & Rw & Ww & Code & First).
  destruct (H Samples.day_merged 60 Samples.day_windows Samples.day_aligned
              eq_refl eq_refl win rs) as (E & _).
  - rewrite Rw. now left.
  - rewrite Ww. now left.
  - rewrite Code, First in E. discriminate E.
Qed.

(** C7, amended.  Every row of the windowed frame aggregates one window,
    and for each of the four categorical columns of the merged frame its
    value is a value that occurs most often in the window; when several
    do, it is the one that comes first in the order of strings. *)
Theorem window_mode_least
        (self : Self) (w : Z) (out : DataFrame WindowRow)
        (df : DataFrame MergedRow) :
  merged_data self = Some df ->
  create_time_windows self w = Ok out ->
  forall win, In win (rows out) ->
    exists rs,
      In (window_start win, rs) (windows df w) /\
      (has_column df "type" = true ->
       Spec.least_mode (map col_type rs) (type_mode win)) /\
      (has_column df "glucose_range" = true ->
       Spec.least_mode (map col_glucose_range rs) (glucose_range_mode win)) /\
      (has_column df "glucose_trend" = true ->
       Spec.least_mode (map col_glucose_trend rs) (glucose_trend_mode win)) /\
      (has_column df "sourceName" = true ->
       Spec.least_mode (map col_sourceName rs) (sourceName_mode win)).
Proof.
  intros Hdf. unfold create_time_windows. rewrite Hdf.
  destruct (select_columns (columns df) ["glucose_timestamp"%string]);
    cbn [bind]; [|discriminate].
  destruct (w <=? 0); cbn [bind]; [discriminate|].
  destruct (2 ^ 63 <=? w * ns_per_minute); cbn [bind]; [discriminate|].
  destruct (match rows df, indexed (rows df) with
            | _ :: _, [] => Raise AttributeError
            | _, _ => Ok tt
            end); cbn [bind]; [|discriminate].
  destruct (select_columns (columns df) _); cbn [bind]; [|discriminate].
  intros E; inversion E; subst out; clear E. cbn [rows].
  intros win Hwin. apply filter_In in Hwin. destruct Hwin as (Hwin & _).
  apply in_map_iff in Hwin. destruct Hwin as ([start rs] & <- & Hbin).
  exists rs. unfold aggregate, has_column.
  cbn [fst snd window_start type_mode glucose_range_mode glucose_trend_mode
       sourceName_mode].
  split; [exact Hbin|].
  repeat split; intros ->; apply mode_agg_least.
Qed.

Lemma window_mode_least_witness :
  exists rs,
    In (window_start Samples.day_window, rs) (windows Samples.day_aligned 60) /\
    (has_column Samples.day_aligned "type" = true ->
     Spec.least_mode (map col_type rs) (type_mode Samples.day_window)) /\
    (has_column Samples.day_aligned "glucose_range" = true ->
     Spec.least_mode (map col_glucose_range rs)
                     (glucose_range_mode Samples.day_window)) /\
    (has_column Samples.day_aligned "glucose_trend" = true ->
     Spec.least_mode (map col_glucose_trend rs)
                     (glucose_trend_mode Samples.day_window)) /\
    (has_column Samples.day_aligned "sourceName" = true ->
     Spec.least_mode (map col_sourceName rs)
                     (sourceName_mode Samples.day_window)).
Proof.
  apply (window_mode_least Samples.day_merged 60 Samples.day_windows
                           Samples.day_aligned eq_refl eq_refl
                           Samples.day_window).
  simpl. tauto.
Defined.

End Merger.


(** * Further properties of the code *)

(** ** The processed frame *)

Section ProcessedFrame.

Import LibreGlucoseProcessor.
Local Open Scope Q_scope.

(** The rows of the processed frame, step by step. *)
Lemma clean_and_process_steps (self : Self) (out : DataFrame Reading) :
  snd (clean_and_process self) = Ok out ->
  exists df cols,
    raw_data self = Some df /\
    rows out =
      add_metrics_rows None
        (sort_values (fun c => timestamp (c_raw c))
           (drop_duplicates (fun c => timestamp (c_raw c))
              (filter (fun c => between (c_value c) 20 600)
                 (map (fun r => mkConsolidated r (combined_value r)
                                               (source_label cols r))
                      (if existsb (String.eqb "glucose_mmol_l")
                                  (rename column_mappings (columns df))
                          && negb (existsb (String.eqb "glucose_mg_dl")
                                           (rename column_mappings (columns df)))
                       then map convert_mmol (rows df)
                       else rows df))))).
Proof.
  unfold clean_and_process, standardize_columns.
  destruct (raw_data self) as [df|]; cbn [fst snd raw_data bind]; [|discriminate].
  destruct (process _) as [o|e] eqn:E; cbn [snd]; [|discriminate].
  intros H; inversion H; subst o; clear H. exists df. revert E.
  unfold process. cbv beta zeta. cbn [columns rows].
  destruct (existsb (String.eqb "glucose_mmol_l") (rename column_mappings (columns df))
            && negb (existsb (String.eqb "glucose_mg_dl")
                             (rename column_mappings (columns df))));
    (destruct (select_columns _ glucose_columns); cbn [bind]; [|discriminate];
     destruct (to_datetime _); cbn [bind]; [|discriminate];
     destruct (select_columns _ ["timestamp"%string]); cbn [bind]; [|discriminate];
     intros E; inversion E; subst out; clear E;
     eexists; split; [reflexivity|]; reflexivity).
Qed.

(** X1. Every reading of the processed frame has a value, and the value
    lies between 20 and 600 mg/dL, both included. *)
Theorem processed_value_in_valid_range
        (self : Self) (out : DataFrame Reading) (r : Reading) :
  snd (clean_and_process self) = Ok out ->
  In r (rows out) ->
  exists v, glucose_value r = Some v /\ 20 <= v /\ v <= 600.
Proof.
  intros Hout Hr.
  destruct (clean_and_process_steps _ _ Hout) as (df & cols & _ & Rows).
  rewrite Rows in Hr. apply add_metrics_rows_In in Hr.
  destruct Hr as (p & c & Hc & ->).
  apply sort_values_In, drop_duplicates_In, filter_In in Hc.
  destruct Hc as (_ & Hb). apply between_true in Hb.
  destruct Hb as (v & Hv & L & U). exists v. cbn [glucose_value add_metrics_row].
  tauto.
Qed.

Lemma processed_value_in_valid_range_witness :
  exists v, glucose_value Samples.boundary_low_row = Some v /\ 20 <= v /\ v <= 600.
Proof.
  apply (processed_value_in_valid_range
           Samples.boundary_series Samples.boundary_frame Samples.boundary_low_row).
  - vm_compute. reflexivity.
  - simpl. tauto.
Defined.

Lemma sorted_distinct_before {R : Type} (key : R -> option Z) (l : list R) :
  Sorted (fun a b => time_leb (key a) (key b) = true) l ->
  NoDup (map key l) ->
  Sorted Shape.time_before (map key l).
Proof.
  induction l as [|a l IH]; intros S N; simpl; [constructor|].
  inversion S as [|? ? S' H]; subst. inversion N as [|? ? Na N']; subst.
  constructor; [apply IH; assumption|].
  destruct l as [|b l]; simpl; [constructor|]. constructor.
  inversion H as [|? ? L]; subst.
  assert (D : key a <> key b) by (intros E; apply Na; left; now symmetry).
  unfold Shape.time_before. destruct (key a) as [x|], (key b) as [y|];
    simpl in L; try discriminate; try exact I; try congruence.
  apply Z.leb_le in L. assert (x <> y) by congruence. lia.
Qed.

(** X2. The timestamps of the processed frame strictly increase from one
    row to the next: the frame is sorted, no timestamp occurs twice, and a
    row without a timestamp, if there is one, is the last row. *)
Theorem processed_timestamps_increase (self : Self) (out : DataFrame Reading) :
  snd (clean_and_process self) = Ok out ->
  Sorted Shape.time_before (map (fun r => timestamp (raw r)) (rows out)).
Proof.
  intros Hout.
  destruct (clean_and_process_steps _ _ Hout) as (df & cols & _ & Rows).
  rewrite Rows, add_metrics_rows_raw.
  apply sorted_distinct_before.
  - apply sort_values_sorted.
  - apply sort_values_NoDup, drop_duplicates_NoDup.
Qed.

Lemma processed_timestamps_increase_witness :
  Sorted Shape.time_before
         (map (fun r => timestamp (raw r)) (rows MoreSamples.shuffled_frame)).
Proof.
  apply (processed_timestamps_increase
           MoreSamples.shuffled_series MoreSamples.shuffled_frame).
  vm_compute. reflexivity.
Defined.

(** The rows of the sample, in their order: 100 at minute 0, 110 at minute
    5 (the reading of 700 is left out), 120 at minute 10 (the first of the
    two readings of that minute). *)
Example shuffled_frame_rows :
  map (fun r => (timestamp (raw r), glucose_value r)) (rows MoreSamples.shuffled_frame)
  = [ (Some 0%Z, Some 100); (Some (5 * Samples.minute)%Z, Some 110);
      (Some (10 * Samples.minute)%Z, Some 120) ].
Proof. reflexivity. Qed.

Lemma add_metrics_rows_neighbours
      (prev : option Consolidated) (L : list Consolidated)
      (l1 : list Reading) (p c : Reading) (l2 : list Reading) :
  add_metrics_rows prev L = (l1 ++ p :: c :: l2)%list ->
  exists pp cp cc,
    In cp L /\ In cc L /\
    p = add_metrics_row pp cp /\ c = add_metrics_row (Some cp) cc.
Proof.
  revert prev l1. induction L as [|x L IH]; intros prev l1 E.
  - destruct l1; discriminate E.
  - cbn [add_metrics_rows] in E. destruct l1 as [|a l1].
    + cbn [app] in E. injection E as Ep El.
      destruct L as [|y L]; [discriminate El|].
      cbn [add_metrics_rows] in El. injection El as Ec _.
      exists prev, x, y. simpl. repeat split; auto.
    + cbn [app] in E. injection E as _ El.
      destruct (IH _ _ El) as (pp & cp & cc & H1 & H2 & H3 & H4).
      exists pp, cp, cc. simpl. repeat split; auto.
Qed.

Lemma sorted_neighbours {A : Type} (R : A -> A -> Prop)
      (l1 : list A) (a b : A) (l2 : list A) :
  Sorted R (l1 ++ a :: b :: l2)%list -> R a b.
Proof.
  induction l1 as [|x l1 IH]; simpl; intros S.
  - inversion S as [|? ? _ H]; subst. now inversion H.
  - inversion S; subst. now apply IH.
Qed.

Lemma processed_keys_sorted (self : Self) (out : DataFrame Reading) :
  snd (clean_and_process self) = Ok out ->
  Sorted Shape.time_before (map (fun r => timestamp (raw r)) (rows out)).
Proof.
  intros Hout.
  destruct (clean_and_process_steps _ _ Hout) as (df & cols & _ & Rows).
  rewrite Rows, add_metrics_rows_raw.
  apply sorted_distinct_before.
  - apply sort_values_sorted.
  - apply sort_values_NoDup, drop_duplicates_NoDup.
Qed.

(** X3. The first row of the processed frame has no rate of change and the
    trend "stable".  Every later row that has a timestamp comes strictly
    after the row before it, and its rate of change is the difference of
    the two values over the seconds between them, times 60: the interval
    is never zero. *)
Theorem rate_of_change_from_previous_row (self : Self) (out : DataFrame Reading) :
  snd (clean_and_process self) = Ok out ->
  (forall r0 rest, rows out = r0 :: rest ->
     glucose_rate_change r0 = None /\ glucose_trend r0 = "stable") /\
  (forall l1 p c l2 tc,
     rows out = (l1 ++ p :: c :: l2)%list ->
     timestamp (raw c) = Some tc ->
     exists tp vp vc,
       timestamp (raw p) = Some tp /\ (tp < tc)%Z /\
       glucose_value p = Some vp /\ glucose_value c = Some vc /\
       glucose_rate_change c
       = Some ((vc - vp) / total_seconds (tc - tp) * 60)).
Proof.
  intros Hout.
  destruct (clean_and_process_steps _ _ Hout) as (df & cols & _ & Rows).
  split.
  - intros r0 rest E. rewrite Rows in E.
    destruct (sort_values _ _) as [|x L]; [discriminate E|].
    cbn [add_metrics_rows] in E. injection E as <- _.
    split; reflexivity.
  - intros l1 p c l2 tc E Tc.
    pose proof (processed_keys_sorted _ _ Hout) as S.
    rewrite E, map_app in S. cbn [map] in S.
    apply sorted_neighbours in S. rewrite Tc in S.
    destruct (timestamp (raw p)) as [tp|] eqn:Tp; [|destruct S].
    cbn [Shape.time_before] in S.
    rewrite Rows in E. apply add_metrics_rows_neighbours in E.
    destruct E as (pp & cp & cc & Hp & Hc & -> & ->).
    assert (V : forall x, In x (sort_values (fun c => timestamp (c_raw c))
                 (drop_duplicates (fun c => timestamp (c_raw c))
                    (filter (fun c => between (c_value c) 20 600)
                       (map (fun r => mkConsolidated r (combined_value r)
                                                     (source_label cols r))
                            (if existsb (String.eqb "glucose_mmol_l")
                                        (rename column_mappings (columns df))
                                && negb (existsb (String.eqb "glucose_mg_dl")
                                                 (rename column_mappings (columns df)))
                             then map convert_mmol (rows df)
                             else rows df))))) ->
                exists v, c_value x = Some v).
    { intros x Hx. apply sort_values_In, drop_duplicates_In, filter_In in Hx.
      destruct Hx as (_ & Hb). apply between_true in Hb.
      destruct Hb as (v & Hv & _). now exists v. }
    destruct (V _ Hp) as (vp & Vp). destruct (V _ Hc) as (vc & Vc).
    cbn [raw add_metrics_row] in Tp, Tc.
    exists tp, vp, vc. cbn [raw glucose_value glucose_rate_change add_metrics_row].
    repeat (split; [first [reflexivity | assumption]|]).
    unfold rate_change. rewrite Vp, Vc, Tp, Tc.
    destruct (Z.eqb_spec (tc - tp) 0) as [Z0|_]; [lia | reflexivity].
Qed.

Lemma rate_of_change_from_previous_row_witness :
  (forall r0 rest, rows MoreSamples.shuffled_frame = r0 :: rest ->
     glucose_rate_change r0 = None /\ glucose_trend r0 = "stable") /\
  (forall l1 p c l2 tc,
     rows MoreSamples.shuffled_frame = (l1 ++ p :: c :: l2)%list ->
     timestamp (raw c) = Some tc ->
     exists tp vp vc,
       timestamp (raw p) = Some tp /\ (tp < tc)%Z /\
       glucose_value p = Some vp /\ glucose_value c = Some vc /\
       glucose_rate_change c
       = Some ((vc - vp) / total_seconds (tc - tp) * 60)).
Proof.
  apply (rate_of_change_from_previous_row
           MoreSamples.shuffled_series MoreSamples.shuffled_frame).
  vm_compute. reflexivity.
Defined.

(** *** Running the normalisation again *)

Lemma lookup_value (table : list (string * string)) (c v : string) :
  lookup table c = Some v -> In v (map snd table).
Proof.
  induction table as [|[k w] table IH]; simpl; [discriminate|].
  destruct (String.eqb k c); [intros E; inversion E; now left | auto].
Qed.

Lemma canonical_labels_unmapped (v : string) :
  In v (map snd column_mappings) -> lookup column_mappings v = None.
Proof.
  unfold column_mappings. cbn [map snd].
  intros H. repeat (destruct H as [<-|H]; [reflexivity|]). destruct H.
Qed.

Lemma rename_twice (cols : list string) :
  rename column_mappings (rename column_mappings cols)
  = rename column_mappings cols.
Proof.
  unfold rename. rewrite map_map. apply map_ext. intros c.
  destruct (lookup column_mappings c) as [v|] eqn:E.
  - now rewrite (canonical_labels_unmapped v (lookup_value _ _ _ E)).
  - now rewrite E.
Qed.

(** X4. Running [clean_and_process] a second time on the object the first
    run leaves behind gives the same result and the same object: the
    columns that [standardize_columns] renamed in place are not renamed
    again. *)
Theorem clean_and_process_again (self : Self) :
  clean_and_process (fst (clean_and_process self)) = clean_and_process self.
Proof.
  unfold clean_and_process, standardize_columns.
  destruct (raw_data self) as [df|] eqn:Raw;
    [|cbn [fst]; rewrite Raw; reflexivity].
  cbn [fst snd raw_data bind].
  destruct (process (mkFrame (rename column_mappings (columns df)) (rows df)))
    as [out|e] eqn:E;
    cbn [fst snd raw_data processed_data bind columns rows];
    rewrite rename_twice, E; reflexivity.
Qed.

(** *** Units *)

(** X5. When the mapped columns hold a historic column in mmol/L and none
    in mg/dL, the mg/dL cell of every processed row is its mmol/L cell
    times 18.0182.  When they hold a historic column in mg/dL, every
    processed row carries the cells of a loaded row unchanged, whether or
    not an mmol/L column is there too. *)
Theorem mmol_converted_only_without_mg_dl
        (self : Self) (df : DataFrame RawRow) (out : DataFrame Reading)
        (r : Reading) :
  raw_data self = Some df ->
  snd (clean_and_process self) = Ok out ->
  In r (rows out) ->
  (In "glucose_mmol_l" (rename column_mappings (columns df)) ->
   ~ In "glucose_mg_dl" (rename column_mappings (columns df)) ->
   glucose_mg_dl (raw r)
   = option_map (fun v => v * 18.0182) (glucose_mmol_l (raw r))) /\
  (In "glucose_mg_dl" (rename column_mappings (columns df)) ->
   In (raw r) (rows df)).
Proof.
  intros Raw Hout Hr.
  destruct (clean_and_process_steps _ _ Hout) as (df' & cols & Raw' & Rows).
  rewrite Raw in Raw'. inversion Raw'; subst df'; clear Raw'.
  rewrite Rows in Hr. apply add_metrics_rows_In in Hr.
  destruct Hr as (p & c & Hc & ->).
  apply sort_values_In, drop_duplicates_In, filter_In in Hc.
  destruct Hc as (Hc & _). apply in_map_iff in Hc. destruct Hc as (rr & <- & Hrr).
  cbn [raw add_metrics_row c_raw]. split.
  - intros Hmmol Hmg.
    apply has_label_In in Hmmol. apply has_label_false in Hmg.
    rewrite Hmmol, Hmg in Hrr. cbn [andb negb] in Hrr.
    apply in_map_iff in Hrr. destruct Hrr as (x & <- & _). reflexivity.
  - intros Hmg. apply has_label_In in Hmg.
    rewrite Hmg in Hrr. cbn [negb] in Hrr. rewrite andb_false_r in Hrr. exact Hrr.
Qed.

Lemma mmol_converted_only_without_mg_dl_witness :
  (In "glucose_mmol_l"
      (rename column_mappings
              ["Device Timestamp"; "Historic Glucose mmol/L";
               "Scan Glucose mg/dL"; "Strip Glucose mg/dL"]) ->
   ~ In "glucose_mg_dl"
        (rename column_mappings
                ["Device Timestamp"; "Historic Glucose mmol/L";
                 "Scan Glucose mg/dL"; "Strip Glucose mg/dL"]) ->
   glucose_mg_dl (raw MoreSamples.mmol_first_row)
   = option_map (fun v => v * 18.0182)
                (glucose_mmol_l (raw MoreSamples.mmol_first_row))) /\
  (In "glucose_mg_dl"
      (rename column_mappings
              ["Device Timestamp"; "Historic Glucose mmol/L";
               "Scan Glucose mg/dL"; "Strip Glucose mg/dL"]) ->
   In (raw MoreSamples.mmol_first_row)
      [mkRaw (Some 0%Z) None (Some 5.5) None None;
       mkRaw (Some (5 * Samples.minute)%Z) None (Some 6) None None]).
Proof.
  apply (mmol_converted_only_without_mg_dl
           MoreSamples.mmol_series
           (mkFrame ["Device Timestamp"; "Historic Glucose mmol/L";
                     "Scan Glucose mg/dL"; "Strip Glucose mg/dL"]%string
                    [mkRaw (Some 0%Z) None (Some 5.5) None None;
                     mkRaw (Some (5 * Samples.minute)%Z) None (Some 6) None None])
           MoreSamples.mmol_frame MoreSamples.mmol_first_row).
  - reflexivity.
  - vm_compute. reflexivity.
  - simpl. tauto.
Defined.

(** The reading of 5.5 mmol/L of the sample is 99.1001 mg/dL. *)
Example mmol_sample_value :
  exists v, glucose_value MoreSamples.mmol_first_row = Some v /\ v == 99.1001.
Proof. eexists. split; reflexivity. Qed.

(** *** When the normalisation returns *)

Lemma select_columns_present (cols labels : list string) :
  (forall l, In l labels -> existsb (String.eqb l) cols = true) ->
  select_columns cols labels = Ok tt.
Proof.
  intros H. unfold select_columns, missing_labels.
  replace (filter (fun l => negb (existsb (String.eqb l) cols)) labels)
    with (@nil string); [reflexivity|].
  symmetry. induction labels as [|l labels IH]; [reflexivity|].
  cbn [filter]. rewrite (H l (or_introl eq_refl)). cbn [negb].
  apply IH. intros x Hx. apply H. now right.
Qed.

Lemma one_timestamp_column (cols : list string) :
  NoDup cols -> to_datetime cols = Ok tt.
Proof.
  intros N. unfold to_datetime.
  assert (L : (List.length (filter (String.eqb "timestamp") cols) <= 1)%nat).
  { induction N as [|x l Nx N IH]; [cbn; lia|]. cbn [filter].
    destruct (String.eqb_spec "timestamp" x) as [<-|_]; [|exact IH].
    replace (filter (String.eqb "timestamp") l) with (@nil string); [cbn; lia|].
    symmetry. clear - Nx. induction l as [|y l IH]; [reflexivity|]. cbn [filter].
    destruct (String.eqb_spec "timestamp" y) as [<-|_]; [exfalso; apply Nx; now left|].
    apply IH. intros H. apply Nx. now right. }
  destruct (Nat.ltb_spec 1 (List.length (filter (String.eqb "timestamp") cols)));
    [lia|reflexivity].
Qed.

Lemma to_datetime_add_column (c : string) (cols : list string) :
  c <> "timestamp" -> to_datetime (add_column c cols) = to_datetime cols.
Proof.
  intros N. unfold to_datetime, add_column.
  destruct (existsb (String.eqb c) cols); [reflexivity|].
  rewrite filter_app. cbn [filter].
  destruct (String.eqb_spec "timestamp" c) as [E|_]; [congruence|].
  now rewrite app_nil_r.
Qed.

Lemma process_returns_unconverted (d : DataFrame RawRow) :
  NoDup (columns d) ->
  existsb (String.eqb "glucose_mmol_l") (columns d)
  && negb (existsb (String.eqb "glucose_mg_dl") (columns d)) = false ->
  (exists out, process d = Ok out) <->
  existsb (String.eqb "glucose_mg_dl") (columns d) = true /\
  existsb (String.eqb "scan_glucose_mg_dl") (columns d) = true /\
  existsb (String.eqb "strip_glucose_mg_dl") (columns d) = true /\
  existsb (String.eqb "timestamp") (columns d) = true.
Proof.
  intros N C. unfold process. cbv beta zeta. rewrite C.
  rewrite (one_timestamp_column _ N). split.
  - intros (out & E).
    destruct (select_columns (columns d) glucose_columns) eqn:S1;
      cbn [bind] in E; [|discriminate].
    destruct (select_columns _ ["timestamp"%string]) eqn:S2;
      cbn [bind] in E; [|discriminate].
    pose proof (select_columns_ok _ _ _ S1) as P1.
    pose proof (select_columns_ok _ _ _ S2 "timestamp"%string (or_introl eq_refl)) as P2.
    rewrite !has_label_add_column in P2 by discriminate.
    unfold glucose_columns in P1.
    repeat split; try assumption; apply P1; simpl; tauto.
  - intros (Mg & Scan & Strip & Time).
    rewrite (select_columns_present (columns d) glucose_columns).
    + cbn [bind]. rewrite (select_columns_present _ ["timestamp"%string]).
      * cbn [bind]. eexists. reflexivity.
      * intros l [<-|[]]. rewrite !has_label_add_column by discriminate.
        exact Time.
    + unfold glucose_columns. intros l [<-|[<-|[<-|[]]]]; assumption.
Qed.

Lemma process_returns_converted (d : DataFrame RawRow) :
  NoDup (columns d) ->
  existsb (String.eqb "glucose_mmol_l") (columns d)
  && negb (existsb (String.eqb "glucose_mg_dl") (columns d)) = true ->
  (exists out, process d = Ok out) <->
  existsb (String.eqb "scan_glucose_mg_dl") (columns d) = true /\
  existsb (String.eqb "strip_glucose_mg_dl") (columns d) = true /\
  existsb (String.eqb "timestamp") (columns d) = true.
Proof.
  intros N C. unfold process. cbv beta zeta. rewrite C.
  rewrite to_datetime_add_column by discriminate.
  rewrite (one_timestamp_column _ N).
  apply andb_true_iff in C. destruct C as (_ & Mg). apply negb_true_iff in Mg.
  split.
  - intros (out & E).
    destruct (select_columns _ glucose_columns) eqn:S1;
      cbn [bind] in E; [|discriminate].
    destruct (select_columns _ ["timestamp"%string]) eqn:S2;
      cbn [bind] in E; [|discriminate].
    pose proof (select_columns_ok _ _ _ S1) as P1.
    pose proof (select_columns_ok _ _ _ S2 "timestamp"%string (or_introl eq_refl)) as P2.
    rewrite !has_label_add_column in P2 by discriminate.
    unfold glucose_columns in P1.
    pose proof (P1 "scan_glucose_mg_dl"%string) as Q1.
    pose proof (P1 "strip_glucose_mg_dl"%string) as Q2.
    rewrite has_label_add_column in Q1, Q2 by discriminate.
    repeat split; try assumption; [apply Q1 | apply Q2]; simpl; tauto.
  - intros (Scan & Strip & Time).
    rewrite (select_columns_present _ glucose_columns).
    + cbn [bind]. rewrite (select_columns_present _ ["timestamp"%string]).
      * cbn [bind]. eexists. reflexivity.
      * intros l [<-|[]]. rewrite !has_label_add_column by discriminate.
        exact Time.
    + unfold glucose_columns. intros l [<-|[<-|[<-|[]]]].
      * unfold add_column. rewrite Mg, existsb_app. cbn [existsb].
        rewrite String.eqb_refl. now rewrite orb_true_r.
      * rewrite has_label_add_column by discriminate. exact Scan.
      * rewrite has_label_add_column by discriminate. exact Strip.
Qed.

Lemma clean_and_process_result (self : Self) (df : DataFrame RawRow) :
  raw_data self = Some df ->
  snd (clean_and_process self)
  = process (mkFrame (rename column_mappings (columns df)) (rows df)).
Proof.
  intros Raw. unfold clean_and_process, standardize_columns. rewrite Raw.
  cbn [fst snd raw_data bind]. now destruct (process _).
Qed.

(** The labels of a header are distinct. *)
Ltac distinct_labels :=
  vm_compute;
  repeat (constructor;
          [intros H; repeat (destruct H as [H|H]; [discriminate H|]); exact H|]);
  constructor.

(** X6. With data loaded and no label twice among the mapped columns,
    [clean_and_process] returns a frame exactly when the mapped columns hold
    the timestamp column, the scan and the strip glucose columns, and a
    historic glucose column in mg/dL or in mmol/L; otherwise it raises. *)
Theorem clean_and_process_returns_iff (self : Self) (df : DataFrame RawRow) :
  raw_data self = Some df ->
  NoDup (rename column_mappings (columns df)) ->
  (exists out, snd (clean_and_process self) = Ok out) <->
  (In "glucose_mg_dl" (rename column_mappings (columns df))
   \/ In "glucose_mmol_l" (rename column_mappings (columns df))) /\
  In "scan_glucose_mg_dl" (rename column_mappings (columns df)) /\
  In "strip_glucose_mg_dl" (rename column_mappings (columns df)) /\
  In "timestamp" (rename column_mappings (columns df)).
Proof.
  intros Raw Distinct. rewrite (clean_and_process_result _ _ Raw).
  rewrite <- !has_label_In.
  set (d := mkFrame (rename column_mappings (columns df)) (rows df)).
  change (rename column_mappings (columns df)) with (columns d).
  change (NoDup (columns d)) in Distinct.
  destruct (existsb (String.eqb "glucose_mmol_l") (columns d)
            && negb (existsb (String.eqb "glucose_mg_dl") (columns d))) eqn:C.
  - rewrite (process_returns_converted d Distinct C).
    apply andb_true_iff in C. destruct C as (Mmol & _). tauto.
  - rewrite (process_returns_unconverted d Distinct C).
    apply andb_false_iff in C. split.
    + tauto.
    + intros ([Mg|Mmol] & H); [tauto|].
      destruct C as [C|C]; [congruence|].
      apply negb_false_iff in C. tauto.
Qed.

Lemma clean_and_process_returns_iff_witness :
  (exists out, snd (clean_and_process MoreSamples.mmol_series) = Ok out) <->
  (In "glucose_mg_dl"
      (rename column_mappings
              ["Device Timestamp"; "Historic Glucose mmol/L";
               "Scan Glucose mg/dL"; "Strip Glucose mg/dL"])
   \/ In "glucose_mmol_l"
         (rename column_mappings
                 ["Device Timestamp"; "Historic Glucose mmol/L";
                  "Scan Glucose mg/dL"; "Strip Glucose mg/dL"])) /\
  In "scan_glucose_mg_dl"
     (rename column_mappings
             ["Device Timestamp"; "Historic Glucose mmol/L";
              "Scan Glucose mg/dL"; "Strip Glucose mg/dL"]) /\
  In "strip_glucose_mg_dl"
     (rename column_mappings
             ["Device Timestamp"; "Historic Glucose mmol/L";
              "Scan Glucose mg/dL"; "Strip Glucose mg/dL"]) /\
  In "timestamp"
     (rename column_mappings
             ["Device Timestamp"; "Historic Glucose mmol/L";
              "Scan Glucose mg/dL"; "Strip Glucose mg/dL"]).
Proof.
  apply (clean_and_process_returns_iff
           MoreSamples.mmol_series
           (mkFrame ["Device Timestamp"; "Historic Glucose mmol/L";
                     "Scan Glucose mg/dL"; "Strip Glucose mg/dL"]%string
                    [mkRaw (Some 0%Z) None (Some 5.5) None None;
                     mkRaw (Some (5 * Samples.minute)%Z) None (Some 6) None None])).
  - reflexivity.
  - distinct_labels.
Defined.

(** With two columns mapped to [timestamp] the labels are not distinct, and
    [clean_and_process] raises although the four labels are there. *)
Example two_timestamp_columns_raise :
  snd (clean_and_process FurtherSamples.two_timestamps_series)
  = Raise (ValueError "cannot assemble with duplicate keys").
Proof. vm_compute. reflexivity. Qed.

(** *** Nothing valid, nothing processed *)

Lemma filter_none {A : Type} (f : A -> bool) (l : list A) :
  (forall x, In x l -> f x = false) -> filter f l = [].
Proof.
  induction l as [|x l IH]; intros H; [reflexivity|].
  cbn [filter]. rewrite (H x (or_introl eq_refl)).
  apply IH. intros y Hy. apply H. now right.
Qed.

(** X7. When the loaded export has its four columns, no label twice among
    the mapped columns, and none of its rows has an effective value between
    20 and 600, [clean_and_process] returns a frame without rows, and
    [get_time_in_range_stats] then returns the empty dictionary: it raises
    nothing and divides by nothing. *)
Theorem no_valid_reading_no_statistics (self : Self) (df : DataFrame RawRow) :
  raw_data self = Some df ->
  NoDup (rename column_mappings (columns df)) ->
  In "glucose_mg_dl" (rename column_mappings (columns df)) ->
  In "scan_glucose_mg_dl" (rename column_mappings (columns df)) ->
  In "strip_glucose_mg_dl" (rename column_mappings (columns df)) ->
  In "timestamp" (rename column_mappings (columns df)) ->
  (forall x, In x (rows df) -> between (combined_value x) 20 600 = false) ->
  exists out,
    snd (clean_and_process self) = Ok out /\
    rows out = [] /\
    get_time_in_range_stats (fst (clean_and_process self)) = Ok None.
Proof.
  intros Raw Distinct Mg Scan Strip Time Invalid.
  assert (R : exists out, snd (clean_and_process self) = Ok out).
  { rewrite (clean_and_process_result _ _ Raw).
    set (d := mkFrame (rename column_mappings (columns df)) (rows df)).
    apply has_label_In in Mg, Scan, Strip, Time.
    apply process_returns_unconverted.
    - exact Distinct.
    - change (columns d) with (rename column_mappings (columns df)).
      rewrite Mg. cbn [negb]. apply andb_false_r.
    - change (columns d) with (rename column_mappings (columns df)). tauto. }
  destruct R as (out & Hout). exists out. split; [exact Hout|].
  assert (Empty : rows out = []).
  { destruct (clean_and_process_steps _ _ Hout) as (df' & cols & Raw' & Rows).
    rewrite Raw in Raw'. inversion Raw'; subst df'; clear Raw'.
    apply has_label_In in Mg. rewrite Mg in Rows. cbn [negb] in Rows.
    rewrite andb_false_r in Rows. rewrite Rows.
    rewrite filter_none; [reflexivity|].
    intros c Hc. apply in_map_iff in Hc. destruct Hc as (x & <- & Hx).
    cbn [c_value]. apply Invalid, Hx. }
  split; [exact Empty|].
  unfold get_time_in_range_stats. rewrite (clean_and_process_stored _ _ Hout).
  unfold len. rewrite Empty. reflexivity.
Qed.

Lemma no_valid_reading_no_statistics_witness :
  exists out,
    snd (clean_and_process MoreSamples.invalid_series) = Ok out /\
    rows out = [] /\
    get_time_in_range_stats (fst (clean_and_process MoreSamples.invalid_series))
    = Ok None.
Proof.
  apply (no_valid_reading_no_statistics
           MoreSamples.invalid_series
           (mkFrame Samples.libre_header
                    [Samples.historic 0 10;
                     Samples.historic (5 * Samples.minute) 700;
                     mkRaw (Some (10 * Samples.minute)%Z) None None None None])).
  - reflexivity.
  - distinct_labels.
  - vm_compute. tauto.
  - vm_compute. tauto.
  - vm_compute. tauto.
  - vm_compute. tauto.
  - intros x [<-|[<-|[<-|[]]]]; vm_compute; reflexivity.
Defined.

(** *** After a failure *)

(** X8. When [clean_and_process] raises, the processed frame the object
    held before the call is still there: the statistics computed after the
    failed call are those of the earlier frame. *)
Theorem failed_run_keeps_earlier_frame (self : Self) (e : exn) :
  snd (clean_and_process self) = Raise e ->
  processed_data (fst (clean_and_process self)) = processed_data self /\
  get_time_in_range_stats (fst (clean_and_process self))
  = get_time_in_range_stats self.
Proof.
  intros Fail.
  assert (P : processed_data (fst (clean_and_process self)) = processed_data self).
  { revert Fail. unfold clean_and_process, standardize_columns.
    destruct (raw_data self) as [df|]; cbn [fst snd raw_data bind]; [|reflexivity].
    destruct (process _); cbn [fst snd]; [discriminate | reflexivity]. }
  split; [exact P|]. unfold get_time_in_range_stats. now rewrite P.
Qed.

Lemma failed_run_keeps_earlier_frame_witness :
  processed_data (fst (clean_and_process MoreSamples.reloaded_without_glucose))
  = processed_data MoreSamples.reloaded_without_glucose /\
  get_time_in_range_stats (fst (clean_and_process MoreSamples.reloaded_without_glucose))
  = get_time_in_range_stats MoreSamples.reloaded_without_glucose.
Proof.
  apply (failed_run_keeps_earlier_frame
           MoreSamples.reloaded_without_glucose
           (KeyError ["glucose_mg_dl"; "scan_glucose_mg_dl";
                      "strip_glucose_mg_dl"]%string)).
  vm_compute. reflexivity.
Defined.

(** *** Which of two rows of one timestamp is kept *)

Lemma time_eqb_eq (a b : option Z) : time_eqb a b = true <-> a = b.
Proof.
  destruct a as [x|], b as [y|]; simpl; try (split; congruence).
  rewrite Z.eqb_eq. split; congruence.
Qed.

Lemma drop_duplicates_from_first {R : Type} (key : R -> option Z)
      (seen : list (option Z)) (l1 : list R) (x : R) (l2 : list R) :
  existsb (time_eqb (key x)) seen = false ->
  (forall y, In y l1 -> key y <> key x) ->
  In x (drop_duplicates_from key seen (l1 ++ x :: l2)%list).
Proof.
  revert seen. induction l1 as [|y l1 IH]; intros seen Fresh Diff.
  - cbn [app drop_duplicates_from]. rewrite Fresh. now left.
  - cbn [app drop_duplicates_from].
    destruct (existsb (time_eqb (key y)) seen).
    + apply IH; [exact Fresh | intros z Hz; apply Diff; now right].
    + right. apply IH.
      * cbn [existsb]. rewrite Fresh, orb_false_r.
        destruct (time_eqb (key x) (key y)) eqn:E; [|reflexivity].
        apply time_eqb_eq in E. exfalso. apply (Diff y (or_introl eq_refl)).
        now symmetry.
      * intros z Hz. apply Diff. now right.
Qed.

Lemma add_metrics_rows_holds (prev : option Consolidated) (L : list Consolidated)
      (c : Consolidated) :
  In c L -> exists pp, In (add_metrics_row pp c) (add_metrics_rows prev L).
Proof.
  revert prev. induction L as [|x L IH]; intros prev; [intros []|].
  intros [->|H]; cbn [add_metrics_rows].
  - exists prev. now left.
  - destruct (IH (Some x) H) as (pp & Hpp). exists pp. now right.
Qed.

Lemma NoDup_map_same {A B : Type} (f : A -> B) (l : list A) (a b : A) :
  NoDup (map f l) -> In a l -> In b l -> f a = f b -> a = b.
Proof.
  induction l as [|x l IH]; intros N Ha Hb E; [destruct Ha|].
  cbn [map] in N. inversion N as [|? ? Nx N']; subst.
  destruct Ha as [->|Ha], Hb as [->|Hb]; [reflexivity | | |].
  - exfalso. apply Nx. rewrite E. now apply in_map.
  - exfalso. apply Nx. rewrite <- E. now apply in_map.
  - now apply IH.
Qed.

(** X9. Of the loaded rows that share a timestamp and have a valid value,
    the first in the order of the export is the one the processed frame
    keeps: a row with a valid value that no earlier valid row shares its
    timestamp with is the row of the one processed reading of that
    timestamp.  (Stated for an export with a historic column in mg/dL,
    whose cells are processed as loaded.) *)
Theorem first_row_of_a_timestamp_is_kept
        (self : Self) (df : DataFrame RawRow) (out : DataFrame Reading)
        (l1 : list RawRow) (x : RawRow) (l2 : list RawRow) :
  raw_data self = Some df ->
  In "glucose_mg_dl" (rename column_mappings (columns df)) ->
  snd (clean_and_process self) = Ok out ->
  rows df = (l1 ++ x :: l2)%list ->
  between (combined_value x) 20 600 = true ->
  (forall y, In y l1 -> between (combined_value y) 20 600 = true ->
             timestamp y <> timestamp x) ->
  exists r,
    In r (rows out) /\ raw r = x /\
    forall r', In r' (rows out) -> timestamp (raw r') = timestamp x -> r' = r.
Proof.
  intros Raw Mg Hout Split Valid Earlier.
  destruct (clean_and_process_steps _ _ Hout) as (df' & cols & Raw' & Rows).
  rewrite Raw in Raw'. inversion Raw'; subst df'; clear Raw'.
  apply has_label_In in Mg. rewrite Mg in Rows. cbn [negb] in Rows.
  rewrite andb_false_r, Split, map_app, filter_app in Rows.
  cbn [map filter c_value] in Rows. rewrite Valid in Rows.
  set (cx := mkConsolidated x (combined_value x) (source_label cols x)) in *.
  assert (Kept : In cx (sort_values (fun c => timestamp (c_raw c))
                   (drop_duplicates (fun c => timestamp (c_raw c))
                      (filter (fun c => between (c_value c) 20 600)
                              (map (fun r => mkConsolidated r (combined_value r)
                                                            (source_label cols r)) l1)
                       ++ cx :: filter (fun c => between (c_value c) 20 600)
                                  (map (fun r => mkConsolidated r (combined_value r)
                                                                (source_label cols r))
                                       l2))%list))).
  { apply sort_values_In. apply drop_duplicates_from_first; [reflexivity|].
    intros c Hc. apply filter_In in Hc. destruct Hc as (Hc & Vc).
    apply in_map_iff in Hc. destruct Hc as (y & <- & Hy).
    cbn [c_raw c_value] in *. exact (Earlier y Hy Vc). }
  destruct (add_metrics_rows_holds None _ _ Kept) as (pp & Hr).
  rewrite <- Rows in Hr.
  exists (add_metrics_row pp cx). split; [exact Hr|]. split; [reflexivity|].
  intros r' Hr' Same.
  apply (NoDup_map_same (fun r => timestamp (raw r)) (rows out)).
  - exact (clean_and_process_distinct_timestamps _ _ Hout).
  - exact Hr'.
  - exact Hr.
  - exact Same.
Qed.

Lemma first_row_of_a_timestamp_is_kept_witness :
  exists r,
    In r (rows MoreSamples.shuffled_frame) /\
    raw r = Samples.historic (5 * Samples.minute) 110 /\
    forall r', In r' (rows MoreSamples.shuffled_frame) ->
               timestamp (raw r')
               = timestamp (Samples.historic (5 * Samples.minute) 110) ->
               r' = r.
Proof.
  apply (first_row_of_a_timestamp_is_kept
           MoreSamples.shuffled_series
           (mkFrame Samples.libre_header
                    [Samples.historic (10 * Samples.minute) 120;
                     Samples.historic 0 100;
                     Samples.historic (10 * Samples.minute) 130;
                     Samples.historic (5 * Samples.minute) 700;
                     Samples.historic (5 * Samples.minute) 110])
           MoreSamples.shuffled_frame
           [Samples.historic (10 * Samples.minute) 120;
            Samples.historic 0 100;
            Samples.historic (10 * Samples.minute) 130;
            Samples.historic (5 * Samples.minute) 700]
           (Samples.historic (5 * Samples.minute) 110)
           []).
  - reflexivity.
  - vm_compute. tauto.
  - vm_compute. reflexivity.
  - reflexivity.
  - vm_compute. reflexivity.
  - intros y [<-|[<-|[<-|[<-|[]]]]] V; vm_compute in V; vm_compute;
      congruence.
Defined.

End ProcessedFrame.

(** ** The nearest match *)

Section NearestMatch.

Import MergeAsof.

Context {R : Type}.

(** On sorted keys the forward candidate is the earliest right row at or
    after the left key. *)
Lemma asof_forward_earliest (t : Z) (right : list (Z * R)) (t2 : Z) (g2 : R) :
  is_monotonic right = true ->
  In (t2, g2) right -> t <= t2 ->
  exists tf f, asof_forward t right = Some (tf, f) /\ tf <= t2.
Proof.
  unfold asof_forward.
  induction right as [|[tr r] rest IH]; intros M Hin L; [destruct Hin|].
  destruct (is_monotonic_cons _ _ _ M) as (M' & All).
  cbn [find fst]. destruct (Z.leb_spec t tr) as [Le|Gt].
  - exists tr, r. split; [reflexivity|].
    destruct Hin as [E|Hin]; [inversion E; lia | exact (All _ _ Hin)].
  - destruct Hin as [E|Hin]; [inversion E; lia|].
    exact (IH M' Hin L).
Qed.

Lemma nearest_match_is_nearest (tol t : Z) (right : list (Z * R))
      (tg : Z) (g : R) :
  is_monotonic right = true ->
  nearest_match tol t right = Some (tg, g) ->
  forall t' g', In (t', g') right -> Z.abs (t - tg) <= Z.abs (t - t').
Proof.
  intros M N t' g' Hin.
  assert (Back : t' <= t ->
                 exists tb b, asof_backward t right = Some (tb, b)
                              /\ t' <= tb /\ tb <= t).
  { intros L. destruct (asof_backward_latest t right t' g' M Hin L)
      as (tb & b & B & Hb).
    exists tb, b. split; [exact B|]. split; [exact Hb|].
    now apply asof_backward_some in B. }
  assert (Fwd : t <= t' ->
                exists tf f, asof_forward t right = Some (tf, f)
                             /\ tf <= t' /\ t <= tf).
  { intros L. destruct (asof_forward_earliest t right t' g' M Hin L)
      as (tf & f & F & Hf).
    exists tf, f. split; [exact F|]. split; [exact Hf|].
    now apply asof_forward_some in F. }
  revert N. unfold nearest_match, backward_match, forward_match, within.
  destruct (asof_backward t right) as [[tb b]|] eqn:B;
    destruct (asof_forward t right) as [[tf f]|] eqn:F.
  - pose proof (asof_backward_some _ _ _ _ B) as (_ & Lb).
    pose proof (asof_forward_some _ _ _ _ F) as (_ & Lf).
    destruct (Z.ltb_spec tol (t - tb)); destruct (Z.ltb_spec tol (tf - t));
      try destruct (Z.leb_spec (t - tb - (tf - t)) 0);
      intros N; inversion N; subst; clear N;
      (destruct (Z.le_gt_cases t' t) as [L|L];
       [ destruct (Back L) as (? & ? & E & ? & ?); inversion E; subst; lia
       | destruct (Fwd ltac:(lia)) as (? & ? & E & ? & ?); inversion E; subst; lia ]).
  - pose proof (asof_backward_some _ _ _ _ B) as (_ & Lb).
    destruct (Z.ltb_spec tol (t - tb)); intros N; inversion N; subst; clear N.
    destruct (Z.le_gt_cases t' t) as [L|L].
    + destruct (Back L) as (? & ? & E & ? & ?); inversion E; subst; lia.
    + destruct (Fwd ltac:(lia)) as (? & ? & E & _); discriminate E.
  - pose proof (asof_forward_some _ _ _ _ F) as (_ & Lf).
    destruct (Z.ltb_spec tol (tf - t)); intros N; inversion N; subst; clear N.
    destruct (Z.le_gt_cases t' t) as [L|L].
    + destruct (Back L) as (? & ? & E & _); discriminate E.
    + destruct (Fwd ltac:(lia)) as (? & ? & E & ? & ?); inversion E; subst; lia.
  - discriminate.
Qed.

(** A right row within the tolerance makes a match. *)
Lemma nearest_match_exists (tol t : Z) (right : list (Z * R)) (t' : Z) (g' : R) :
  is_monotonic right = true ->
  In (t', g') right -> Z.abs (t - t') <= tol ->
  exists m, nearest_match tol t right = Some m.
Proof.
  intros M Hin Near.
  unfold nearest_match, backward_match, forward_match, within.
  destruct (Z.le_gt_cases t' t) as [L|L].
  - destruct (asof_backward_latest t right t' g' M Hin L) as (tb & b & B & Hb).
    pose proof (asof_backward_some _ _ _ _ B) as (_ & Lb). rewrite B.
    destruct (Z.ltb_spec tol (t - tb)); [lia|].
    destruct (asof_forward t right) as [[tf f]|]; [|now eexists].
    destruct (tol <? tf - t); [now eexists|].
    destruct (t - tb - (tf - t) <=? 0); now eexists.
  - destruct (asof_forward_earliest t right t' g' M Hin ltac:(lia))
      as (tf & f & F & Hf).
    pose proof (asof_forward_some _ _ _ _ F) as (_ & Lf). rewrite F.
    destruct (Z.ltb_spec tol (tf - t)); [lia|].
    destruct (asof_backward t right) as [[tb b]|]; [|now eexists].
    destruct (tol <? t - tb); [now eexists|].
    destruct (t - tb - (tf - t) <=? 0); now eexists.
Qed.

End NearestMatch.

(** ** The aligned frame *)

Section AlignedFrame.

Import LibreGlucoseProcessor MergeAsof HealthDataMerger.

Lemma keyed_values {R : Type} (key : R -> option Z) (l : list R)
      (kl : list (Z * R)) :
  keyed key l = Some kl -> map snd kl = l.
Proof.
  revert kl. induction l as [|x l IH]; intros kl; simpl.
  - intros E; inversion E. reflexivity.
  - destruct (key x); [|discriminate].
    destruct (keyed key l) as [krest|]; [|discriminate].
    intros E; inversion E; subst kl. simpl. now rewrite (IH krest eq_refl).
Qed.

(** The list [align_timestamps] returns, and the object it leaves. *)
Lemma align_timestamps_list (self : Self) (T : Z) (out : DataFrame MergedRow) :
  snd (align_timestamps self T) = Ok out ->
  exists hdf gdf kl kr,
    apple_health_data self = Some hdf /\
    glucose_data self = Some gdf /\
    keyed startDate (sort_values startDate (rows hdf)) = Some kl /\
    keyed (fun g => timestamp (raw g))
          (sort_values (fun g => timestamp (raw g)) (rows gdf)) = Some kr /\
    is_monotonic kr = true /\
    fst (align_timestamps self T)
    = mkSelf (apple_health_data self) (glucose_data self) (Some out) /\
    map health (rows out)
    = map fst
        (filter (fun hg : HealthRow * option Reading => notna (snd hg))
                (map (fun tl => (snd tl,
                                 option_map snd
                                   (nearest_match (T * ns_per_minute) (fst tl) kr)))
                     kl)).
Proof.
  unfold align_timestamps.
  destruct (apple_health_data self) as [hdf|]; [|discriminate].
  destruct (glucose_data self) as [gdf|]; [|discriminate].
  match goal with
  | |- snd (match ?r with _ => _ end) = _ -> _ => destruct r as [o|e] eqn:E
  end; cbn [fst snd]; [|discriminate].
  intros H; inversion H; subst o; clear H.
  destruct (has_column hdf "startDate"); cbn [bind] in E; [|discriminate].
  destruct (select_columns _ ["glucose_timestamp"%string]); cbn [bind] in E;
    [|discriminate].
  unfold merge_asof in E.
  destruct (T * ns_per_minute <? 0); [discriminate|].
  destruct (keyed startDate _) as [kl|] eqn:Kl; [|discriminate].
  destruct (is_monotonic kl); cbn [negb] in E; [|discriminate].
  destruct (keyed (fun g => timestamp (raw g)) _) as [kr|] eqn:Kr; [|discriminate].
  destruct (is_monotonic kr) eqn:Mr; cbn [negb bind] in E; [|discriminate].
  inversion E; subst out; clear E. cbn [rows].
  exists hdf, gdf, kl, kr. repeat (split; [first [reflexivity | assumption]|]).
  rewrite map_map. cbn [health].
  assert (G : forall l : list (HealthRow * option Reading),
             (forall hg, In hg l ->
                         notna (glucose_timestamp (mkMerged (fst hg) (snd hg) None))
                         = notna (snd hg)) ->
             map fst (filter (fun hg => notna (glucose_timestamp
                                                 (mkMerged (fst hg) (snd hg) None))) l)
             = map fst (filter (fun hg => notna (snd hg)) l)).
  { induction l as [|hg l IH]; intros A; [reflexivity|].
    cbn [filter]. rewrite (A hg (or_introl eq_refl)).
    destruct (notna (snd hg)); cbn [map]; rewrite IH; auto;
      intros x Hx; apply A; now right. }
  apply G. intros [h og] Hin. cbn [fst snd].
  unfold glucose_timestamp. cbn [glucose].
  apply in_map_iff in Hin. destruct Hin as ([th h'] & E & _).
  cbn [fst snd] in E. inversion E; subst h' og; clear E.
  destruct (nearest_match (T * ns_per_minute) th kr) as [[tg g]|] eqn:N;
    cbn [option_map snd notna]; [|reflexivity].
  apply nearest_match_some in N. destruct N as (Hg & _).
  apply (keyed_In _ _ _ Kr) in Hg. destruct Hg as (_ & Tg). cbv beta in Tg.
  now rewrite Tg.
Qed.

(** X10. The glucose reading of an aligned row is a nearest one: no
    loaded glucose reading is closer in time to the health record than the
    reading the row carries. *)
Theorem aligned_reading_is_nearest
        (self : Self) (T : Z) (out : DataFrame MergedRow)
        (gdf : DataFrame Reading)
        (r : MergedRow) (g g' : Reading) (th tg tg' : Z) :
  snd (align_timestamps self T) = Ok out ->
  glucose_data self = Some gdf ->
  In r (rows out) ->
  startDate (health r) = Some th ->
  glucose r = Some g -> timestamp (raw g) = Some tg ->
  In g' (rows gdf) -> timestamp (raw g') = Some tg' ->
  Z.abs (th - tg) <= Z.abs (th - tg').
Proof.
  intros Hout Eg' Hr Hth Hg Htg Hg' Htg'.
  destruct (align_timestamps_rows _ _ _ Hout)
    as (hdf & gdf0 & kl & kr & Eh & Eg & Kl & Kr & Mr & Rows).
  rewrite Eg in Eg'. inversion Eg'; subst gdf0; clear Eg'.
  apply Rows in Hr. destruct Hr as (th0 & h & tg0 & g0 & Hkl & N & ->).
  cbn [health glucose] in Hth, Hg. inversion Hg; subst g0; clear Hg.
  apply (keyed_In _ _ _ Kl) in Hkl. destruct Hkl as (_ & Hth0).
  rewrite Hth in Hth0. inversion Hth0; subst th0; clear Hth0.
  pose proof (nearest_match_some _ _ _ _ _ N) as (Hin & _).
  apply (keyed_In _ _ _ Kr) in Hin. destruct Hin as (_ & Tg0). cbv beta in Tg0.
  rewrite Htg in Tg0. inversion Tg0; subst tg0; clear Tg0.
  apply (nearest_match_is_nearest _ _ _ _ _ Mr N tg' g').
  apply (keyed_In _ _ _ Kr). split; [apply sort_values_In, Hg' | exact Htg'].
Qed.

Lemma aligned_reading_is_nearest_witness :
  Z.abs (2 * Samples.minute - 0) <= Z.abs (2 * Samples.minute - 5 * Samples.minute).
Proof.
  apply (aligned_reading_is_nearest
           Samples.day_merger 15 Samples.day_aligned Samples.falling_frame
           (mkMerged (Samples.energy (2 * Samples.minute))
                     (Some Samples.reading_at_0)
                     (Some (120000000000 # 60000000000)%Q))
           Samples.reading_at_0 Samples.reading_at_5
           (2 * Samples.minute) 0 (5 * Samples.minute)).
  - vm_compute. reflexivity.
  - reflexivity.
  - right. left. reflexivity.
  - reflexivity.
  - reflexivity.
  - reflexivity.
  - right. left. reflexivity.
  - reflexivity.
Defined.

Lemma reach_of_match (T : Z) (gs : list Reading) (kr : list (Z * Reading))
      (h : HealthRow) (th : Z) :
  keyed (fun g => timestamp (raw g))
        (sort_values (fun g => timestamp (raw g)) gs) = Some kr ->
  is_monotonic kr = true ->
  startDate h = Some th ->
  notna (option_map snd (nearest_match (T * ns_per_minute) th kr))
  = Shape.within_reach T gs h.
Proof.
  intros Kr Mr Hth. unfold Shape.within_reach. rewrite Hth.
  destruct (nearest_match (T * ns_per_minute) th kr) as [[tg g]|] eqn:N;
    cbn [option_map notna]; symmetry.
  - apply nearest_match_some in N. destruct N as (Hin & Near).
    apply (keyed_In _ _ _ Kr) in Hin. destruct Hin as (Hg & Tg). cbv beta in Tg.
    apply sort_values_In in Hg.
    apply existsb_exists. exists g. split; [exact Hg|].
    rewrite Tg. now apply Z.leb_le.
  - destruct (existsb _ gs) eqn:E; [|reflexivity].
    apply existsb_exists in E. destruct E as (g' & Hg' & P).
    destruct (timestamp (raw g')) as [tg'|] eqn:Tg'; [|discriminate P].
    apply Z.leb_le in P.
    destruct (nearest_match_exists (T * ns_per_minute) th kr tg' g' Mr) as (m & Hm).
    + apply (keyed_In _ _ _ Kr). split; [apply sort_values_In, Hg' | exact Tg'].
    + exact P.
    + congruence.
Qed.

Lemma aligned_health_list
      (self : Self) (T : Z) (out : DataFrame MergedRow)
      (hdf : DataFrame HealthRow) (gdf : DataFrame Reading) :
  snd (align_timestamps self T) = Ok out ->
  apple_health_data self = Some hdf ->
  glucose_data self = Some gdf ->
  map health (rows out)
  = filter (Shape.within_reach T (rows gdf)) (sort_values startDate (rows hdf)) /\
  forall h, In h (rows hdf) -> startDate h <> None.
Proof.
  intros Hout Eh' Eg'.
  destruct (align_timestamps_list _ _ _ Hout)
    as (hdf0 & gdf0 & kl & kr & Eh & Eg & Kl & Kr & Mr & _ & Rows).
  rewrite Eh in Eh'. rewrite Eg in Eg'. inversion Eh'; inversion Eg'; subst hdf0 gdf0.
  split.
  - rewrite Rows, <- (keyed_values _ _ _ Kl).
    assert (K : forall th h, In (th, h) kl -> startDate h = Some th).
    { intros th h Hin. now apply (keyed_In _ _ _ Kl) in Hin. }
    clear Kl Rows. induction kl as [|[th h] kl IH]; [reflexivity|].
    cbn [map filter fst snd].
    rewrite (reach_of_match T (rows gdf) kr h th Kr Mr (K th h (or_introl eq_refl))).
    destruct (Shape.within_reach T (rows gdf) h); cbn [map fst];
      rewrite IH; auto; intros th' h' Hin; apply K; now right.
  - intros h Hh E.
    assert (Hs : In h (sort_values startDate (rows hdf))) by now apply sort_values_In.
    clear - Kl Hs E. revert kl Kl.
    induction (sort_values startDate (rows hdf)) as [|x l IH]; [destruct Hs|].
    intros kl Kl. cbn [keyed] in Kl.
    destruct (startDate x) as [t|] eqn:Ex; [|discriminate].
    destruct (keyed startDate l) as [krest|]; [|discriminate].
    destruct Hs as [->|Hs]; [congruence|]. now apply (IH Hs krest).
Qed.

Lemma filter_permutation {A : Type} (f : A -> bool) (l l' : list A) :
  Permutation l l' -> Permutation (filter f l) (filter f l').
Proof.
  induction 1 as [|x l l' _ IH|x y l|l l' l'' _ IH1 _ IH2]; cbn [filter].
  - constructor.
  - destruct (f x); [now constructor|exact IH].
  - destruct (f x), (f y); try reflexivity. constructor.
  - now transitivity (filter f l').
Qed.

Lemma time_leb_trans (a b c : option Z) :
  time_leb a b = true -> time_leb b c = true -> time_leb a c = true.
Proof.
  destruct a as [x|], b as [y|], c as [z|]; cbn [time_leb]; try congruence.
  rewrite !Z.leb_le. lia.
Qed.

Lemma sorted_filter {A : Type} (key : A -> option Z) (keep : A -> bool) (l : list A) :
  Sorted (fun a b => time_leb (key a) (key b) = true) l ->
  Sorted (fun a b => time_leb (key a) (key b) = true) (filter keep l).
Proof.
  intros S. apply StronglySorted_Sorted.
  apply Sorted_StronglySorted in S;
    [|intros a b c; apply time_leb_trans].
  induction S as [|x l S IH All]; cbn [filter]; [constructor|].
  destruct (keep x); [|exact IH]. constructor; [exact IH|].
  rewrite Forall_forall in *. intros y Hy. apply All. now apply filter_In in Hy.
Qed.

(** X11. The health records of the aligned frame are the loaded health
    records that have a glucose reading within the tolerance, each as often
    as it was loaded, in ascending order of their start time: a health
    record is left out only when no reading is within the tolerance.  (The
    order among records of the same start time is that of the sort, which
    pandas does not fix.) *)
Theorem aligned_health_records
        (self : Self) (T : Z) (out : DataFrame MergedRow)
        (hdf : DataFrame HealthRow) (gdf : DataFrame Reading) :
  snd (align_timestamps self T) = Ok out ->
  apple_health_data self = Some hdf ->
  glucose_data self = Some gdf ->
  Permutation (map health (rows out))
              (filter (Shape.within_reach T (rows gdf)) (rows hdf)) /\
  Sorted (fun a b => FurtherShape.not_after (startDate a) (startDate b))
         (map health (rows out)).
Proof.
  intros Hout Eh Eg.
  destruct (aligned_health_list self T out hdf gdf Hout Eh Eg) as (List & Dated).
  rewrite List. split.
  - apply filter_permutation, sort_values_perm.
  - pose proof (sorted_filter startDate (Shape.within_reach T (rows gdf)) _
                  (sort_values_sorted startDate (rows hdf))) as S.
    assert (D : forall h, In h (filter (Shape.within_reach T (rows gdf))
                                       (sort_values startDate (rows hdf))) ->
                          startDate h <> None).
    { intros h Hh. apply filter_In in Hh as (Hh & _).
      apply sort_values_In in Hh. now apply Dated. }
    generalize dependent (filter (Shape.within_reach T (rows gdf))
                                 (sort_values startDate (rows hdf))).
    intros L _ S. induction S as [|x l S IH H]; intros D; constructor.
    + apply IH. intros h Hh. apply D. now right.
    + destruct H as [|y l H]; constructor.
      pose proof (D x (or_introl eq_refl)) as Dx.
      pose proof (D y (or_intror (or_introl eq_refl))) as Dy.
      unfold FurtherShape.not_after.
      destruct (startDate x) as [tx|]; [|congruence].
      destruct (startDate y) as [ty|]; [|congruence].
      cbn [time_leb] in H. now apply Z.leb_le.
Qed.

Lemma aligned_health_records_witness :
  Permutation (map health (rows Samples.day_aligned))
              (filter (Shape.within_reach 15 (rows Samples.falling_frame))
                      [Samples.steps (1 * Samples.minute);
                       Samples.energy (2 * Samples.minute);
                       Samples.steps (40 * Samples.minute)]) /\
  Sorted (fun a b => FurtherShape.not_after (startDate a) (startDate b))
         (map health (rows Samples.day_aligned)).
Proof.
  apply (aligned_health_records
           Samples.day_merger 15 Samples.day_aligned
           (mkFrame Samples.health_header
                    [Samples.steps (1 * Samples.minute);
                     Samples.energy (2 * Samples.minute);
                     Samples.steps (40 * Samples.minute)])
           Samples.falling_frame).
  - vm_compute. reflexivity.
  - reflexivity.
  - reflexivity.
Defined.


(** The sample: the health frame loaded after an alignment has no
    [startDate] column; the next alignment raises, and the windows are
    still those of the frame merged before. *)
Example stale_windows :
  snd (align_timestamps FurtherSamples.stale_merger 15)
  = Raise (ValueError "Apple Health data must have startDate column") /\
  create_time_windows (fst (align_timestamps FurtherSamples.stale_merger 15)) 60
  = Ok Samples.day_windows.
Proof. split; vm_compute; reflexivity. Qed.

End AlignedFrame.

(** ** The windows *)

Section Windows.

Import LibreGlucoseProcessor HealthDataMerger.

(** *** Bins *)

Lemma bins_between_In (lo hi k : Z) :
  In k (bins_between lo hi) <-> lo <= k <= hi.
Proof.
  unfold bins_between. rewrite in_map_iff. split.
  - intros (i & <- & Hi). apply in_seq in Hi. lia.
  - intros H. exists (Z.to_nat (k - lo)). split; [lia|]. apply in_seq. lia.
Qed.

Lemma bins_from_increase (lo : Z) (start len : nat) :
  Sorted Z.lt (map (fun i => lo + Z.of_nat i) (seq start len)).
Proof.
  revert start. induction len as [|len IH]; intros start; simpl; [constructor|].
  constructor; [apply IH|].
  destruct len; simpl; constructor. lia.
Qed.

Lemma bins_between_increase (lo hi : Z) : Sorted Z.lt (bins_between lo hi).
Proof. apply bins_from_increase. Qed.

Lemma bins_between_NoDup (lo hi : Z) : NoDup (bins_between lo hi).
Proof.
  unfold bins_between. apply Finite.Injective_map_NoDup; [|apply seq_NoDup].
  intros a b E. lia.
Qed.

Lemma bin_of_bounds (origin width t : Z) :
  0 < width ->
  origin + bin_of origin width t * width <= t
  < origin + bin_of origin width t * width + width.
Proof.
  intros W. unfold bin_of.
  pose proof (Z.mod_pos_bound (t - origin) width W) as B.
  pose proof (Z.div_mod (t - origin) width ltac:(lia)) as D. nia.
Qed.

Lemma bin_of_monotone (origin width a b : Z) :
  0 < width -> a <= b -> bin_of origin width a <= bin_of origin width b.
Proof.
  intros W L. unfold bin_of. apply Z.div_le_mono; lia.
Qed.

(** *** A sorted index lies between its first and its last key *)

Lemma index_sorted (l : list (Z * MergedRow)) :
  StronglySorted (fun a b => fst a <= fst b)
                 (sort_values (fun tr : Z * MergedRow => Some (fst tr)) l).
Proof.
  apply Sorted_StronglySorted.
  - intros a b c H1 H2. lia.
  - pose proof (sort_values_sorted (fun tr : Z * MergedRow => Some (fst tr)) l) as S.
    induction S as [|a l' S' IH H]; constructor; [exact IH|].
    destruct H as [|b l'' H]; constructor. cbn [time_leb] in H.
    now apply Z.leb_le.
Qed.

Lemma sorted_first_least (a : Z * MergedRow) (l : list (Z * MergedRow))
      (x : Z * MergedRow) :
  StronglySorted (fun a b => fst a <= fst b) (a :: l) ->
  In x (a :: l) -> fst a <= fst x.
Proof.
  intros S [<-|H]; [lia|].
  inversion S as [|? ? _ All]; subst.
  rewrite Forall_forall in All. now apply All.
Qed.

Lemma sorted_last_greatest (l : list (Z * MergedRow)) (d x : Z * MergedRow) :
  StronglySorted (fun a b => fst a <= fst b) l ->
  In x l -> fst x <= fst (List.last l d).
Proof.
  induction l as [|a l IH]; intros S Hin; [destruct Hin|].
  inversion S as [|? ? S' All]; subst. rewrite Forall_forall in All.
  destruct l as [|b l].
  - destruct Hin as [<-|[]]. cbn [List.last]. lia.
  - change (List.last (a :: b :: l) d) with (List.last (b :: l) d).
    destruct Hin as [<-|Hin]; [|now apply IH].
    assert (In (List.last (b :: l) d) (b :: l)).
    { clear. revert b. induction l as [|c l IH]; intros b; [now left|].
      change (List.last (b :: c :: l) d) with (List.last (c :: l) d).
      right. apply IH. }
    now apply All.
Qed.

(** *** Sums over bins *)

Lemma no_bin_counts {A : Type} (f : A -> Z) (c : nat) (x : A) (ks : list Z) :
  ~ In (f x) ks ->
  list_sum (map (fun k => if f x =? k then c else O) ks) = O.
Proof.
  induction ks as [|k ks IH]; intros N; [reflexivity|].
  cbn [map]. change (list_sum (?a :: ?l)) with (a + list_sum l)%nat.
  rewrite IH by (intros H; apply N; now right).
  destruct (Z.eqb_spec (f x) k) as [E|_]; [|reflexivity].
  exfalso. apply N. now left.
Qed.

Lemma one_bin_counts {A : Type} (f : A -> Z) (c : nat) (x : A) (ks : list Z) :
  NoDup ks -> In (f x) ks ->
  list_sum (map (fun k => if f x =? k then c else O) ks) = c.
Proof.
  induction ks as [|k ks IH]; intros N Hin; [destruct Hin|].
  inversion N as [|? ? Nk N']; subst.
  cbn [map]. change (list_sum (?a :: ?l)) with (a + list_sum l)%nat.
  destruct (Z.eqb_spec (f x) k) as [E|D].
  - rewrite no_bin_counts by congruence. lia.
  - destruct Hin as [E|Hin]; [congruence|]. now rewrite (IH N' Hin).
Qed.

Lemma sum_of_zeros (ks : list Z) :
  list_sum (map (fun _ : Z => O) ks) = O.
Proof.
  induction ks as [|k ks IH]; [reflexivity|].
  cbn [map]. change (list_sum (?a :: ?l)) with (a + list_sum l)%nat.
  now rewrite IH.
Qed.

Lemma bins_partition {A : Type} (f : A -> Z) (cnt : A -> nat)
      (ks : list Z) (l : list A) :
  NoDup ks -> (forall x, In x l -> In (f x) ks) ->
  list_sum (map (fun k => list_sum (map cnt (filter (fun x => f x =? k) l))) ks)
  = list_sum (map cnt l).
Proof.
  intros N. induction l as [|x l IH]; intros All.
  - cbn [filter map]. apply sum_of_zeros.
  - cbn [map]. change (list_sum (?a :: ?l)) with (a + list_sum l)%nat.
    rewrite <- IH by (intros y Hy; apply All; now right).
    rewrite <- (one_bin_counts f (cnt x) x ks N (All x (or_introl eq_refl))) at 1.
    clear. induction ks as [|k ks IHk]; [reflexivity|].
    cbn [map].
    change (list_sum (?a :: ?l)) with (a + list_sum l)%nat.
    rewrite IHk. cbn [filter]. destruct (f x =? k); cbn [map];
      change (list_sum (?a :: ?l)) with (a + list_sum l)%nat; lia.
Qed.

Lemma sum_after_filter {A : Type} (keep : A -> bool) (c : A -> nat) (l : list A) :
  (forall x, In x l -> keep x = false -> c x = O) ->
  list_sum (map c (filter keep l)) = list_sum (map c l).
Proof.
  induction l as [|x l IH]; intros H; [reflexivity|].
  cbn [filter map]. change (list_sum (?a :: ?l)) with (a + list_sum l)%nat.
  rewrite <- IH by (intros y Hy; apply H; now right).
  destruct (keep x) eqn:K; cbn [map].
  - reflexivity.
  - now rewrite (H x (or_introl eq_refl) K).
Qed.

Lemma length_dropna (l : list (option Q)) :
  List.length (dropna l)
  = list_sum (map (fun c => if notna c then 1%nat else O) l).
Proof.
  induction l as [|[v|] l IH]; cbn [dropna map notna List.length];
    [reflexivity| |];
    change (list_sum (?a :: ?l)) with (a + list_sum l)%nat; lia.
Qed.

Lemma mean_none (l : list (option Q)) : mean l = None <-> dropna l = [].
Proof.
  unfold mean. destruct (dropna l); split; congruence.
Qed.

(** *** The windowed frame *)

Lemma create_time_windows_list
      (self : Self) (w : Z) (out : DataFrame WindowRow) (df : DataFrame MergedRow) :
  merged_data self = Some df ->
  create_time_windows self w = Ok out ->
  0 < w /\
  rows out = filter (fun win => notna (glucose_value_mean win))
                    (map (aggregate (columns df)) (windows df w)).
Proof.
  intros Hdf. unfold create_time_windows. rewrite Hdf.
  destruct (select_columns (columns df) ["glucose_timestamp"%string]);
    cbn [bind]; [|discriminate].
  destruct (Z.leb_spec w 0); cbn [bind]; [discriminate|].
  destruct (2 ^ 63 <=? w * ns_per_minute); cbn [bind]; [discriminate|].
  destruct (match rows df, indexed (rows df) with
            | _ :: _, [] => Raise AttributeError
            | _, _ => Ok tt
            end); cbn [bind]; [|discriminate].
  destruct (select_columns (columns df) _); cbn [bind]; [|discriminate].
  intros E; inversion E; subst out; clear E. cbn [rows]. split; [lia | reflexivity].
Qed.

(** The windows before aggregation: nothing for an empty index, and
    otherwise one bin for every bin number from that of the first key to
    that of the last, each key of the index having its bin number among
    them. *)
Lemma windows_shape (df : DataFrame MergedRow) (w : Z) :
  0 < w ->
  let idx := sort_values (fun tr : Z * MergedRow => Some (fst tr))
                         (indexed (rows df)) in
  (idx = [] /\ windows df w = []) \/
  exists origin ks,
    (ns_per_day | origin) /\ NoDup ks /\ Sorted Z.lt ks /\
    (forall k, In k ks -> 0 <= k) /\
    (forall tr, In tr idx -> In (bin_of origin (w * ns_per_minute) (fst tr)) ks) /\
    windows df w
    = map (fun k => (origin + k * (w * ns_per_minute),
                     map snd (filter (in_bin origin (w * ns_per_minute) k) idx)))
          ks.
Proof.
  intros W idx. unfold windows. fold idx.
  pose proof (index_sorted (indexed (rows df))) as S. fold idx in S.
  destruct idx as [|[first r0] rest] eqn:E; [left; now split|].
  right. cbn [resample].
  set (d := (first, mkMerged (mkHealth None None None None None) None None)).
  set (origin := first / ns_per_day * ns_per_day).
  set (width := w * ns_per_minute).
  assert (Wp : 0 < width) by (unfold width, ns_per_minute, ns_per_second; lia).
  exists origin, (bins_between (bin_of origin width first)
                               (bin_of origin width (fst (List.last ((first, r0) :: rest) d)))).
  split; [exists (first / ns_per_day); reflexivity|].
  split; [apply bins_between_NoDup|].
  split; [apply bins_between_increase|].
  split.
  { intros k Hk. apply bins_between_In in Hk.
    assert (0 <= bin_of origin width first); [|lia].
    unfold bin_of, origin. apply Z.div_pos; [|exact Wp].
    pose proof (Z.mul_div_le first ns_per_day
                  ltac:(unfold ns_per_day, ns_per_hour, ns_per_minute,
                        ns_per_second; lia)).
    lia. }
  split; [|reflexivity].
  intros tr Hin. apply bins_between_In. split.
  - apply (bin_of_monotone origin width first (fst tr) Wp).
    exact (sorted_first_least (first, r0) rest tr S Hin).
  - apply (bin_of_monotone origin width _ _ Wp).
    exact (sorted_last_greatest _ d tr S Hin).
Qed.

Lemma indexed_In (rs : list MergedRow) (t : Z) (r : MergedRow) :
  In (t, r) (indexed rs) <-> In r rs /\ glucose_timestamp r = Some t.
Proof.
  unfold indexed. rewrite in_flat_map. split.
  - intros (x & Hx & Hin). destruct (glucose_timestamp x) eqn:E; [|destruct Hin].
    destruct Hin as [H|[]]. inversion H; subst. now split.
  - intros (Hr & E). exists r. split; [exact Hr|]. rewrite E. now left.
Qed.

Lemma indexed_observations (rs : list MergedRow) :
  list_sum (map (fun tr : Z * MergedRow =>
                   if notna (col_glucose_value (snd tr)) then 1%nat else O)
                (indexed rs))
  = List.length (filter (fun r => notna (glucose_timestamp r)
                                  && notna (col_glucose_value r)) rs).
Proof.
  induction rs as [|r rs IH]; [reflexivity|].
  unfold indexed in *. cbn [flat_map filter].
  rewrite map_app, list_sum_app, IH.
  destruct (glucose_timestamp r); cbn [notna andb map app list_sum fold_right snd].
  - destruct (notna (col_glucose_value r)); cbn [List.length]; lia.
  - reflexivity.
Qed.

(** X13. Windowing loses no observation and counts none twice: the
    [glucose_value_count] of the windows returned add up to the number of
    rows of the merged frame that have a glucose timestamp and a glucose
    value. *)
Theorem windows_count_every_observation
        (self : Self) (w : Z) (out : DataFrame WindowRow)
        (df : DataFrame MergedRow) :
  merged_data self = Some df ->
  create_time_windows self w = Ok out ->
  list_sum (map glucose_value_count (rows out))
  = List.length (filter (fun r => notna (glucose_timestamp r)
                                  && notna (col_glucose_value r))
                        (rows df)).
Proof.
  intros Hdf Hout.
  destruct (create_time_windows_list _ _ _ _ Hdf Hout) as (W & Rows).
  rewrite Rows, sum_after_filter.
  2:{ intros win Hin Drop. apply in_map_iff in Hin. destruct Hin as (bin & <- & _).
      unfold aggregate in *. cbn [glucose_value_mean glucose_value_count] in *.
      destruct (mean (map col_glucose_value (snd bin))) eqn:M; [discriminate Drop|].
      apply mean_none in M. now rewrite M. }
  rewrite map_map. unfold aggregate. cbn [glucose_value_count].
  rewrite <- indexed_observations.
  rewrite <- (Permutation_list_sum
                (Permutation_map _ (sort_values_perm
                                      (fun tr : Z * MergedRow => Some (fst tr))
                                      (indexed (rows df))))).
  destruct (windows_shape df w W) as [(E & ->)|(origin & ks & _ & N & _ & _ & All & ->)].
  - rewrite E. reflexivity.
  - rewrite map_map. cbn [snd].
    rewrite <- (bins_partition
                  (fun tr : Z * MergedRow => bin_of origin (w * ns_per_minute) (fst tr))
                  (fun tr => if notna (col_glucose_value (snd tr)) then 1%nat else O)
                  ks _ N All).
    apply f_equal. apply map_ext. intros k.
    rewrite length_dropna, !map_map. reflexivity.
Qed.

Lemma windows_count_every_observation_witness :
  list_sum (map glucose_value_count (rows MoreSamples.long_windows))
  = List.length (filter (fun r => notna (glucose_timestamp r)
                                  && notna (col_glucose_value r))
                        (rows MoreSamples.long_aligned)).
Proof.
  apply (windows_count_every_observation
           MoreSamples.long_merged 60 MoreSamples.long_windows
           MoreSamples.long_aligned).
  - reflexivity.
  - vm_compute. reflexivity.
Defined.

(** The windows of the sample: two observations in the hour from minute 0,
    one in the hour from minute 180, and no row for the two empty hours
    between them. *)
Example long_windows_rows :
  map (fun win => (window_start win, glucose_value_count win))
      (rows MoreSamples.long_windows)
  = [ (0, 2%nat); (180 * Samples.minute, 1%nat) ].
Proof. reflexivity. Qed.

Lemma dropna_holds (l : list (option Q)) (v : Q) :
  In (Some v) l -> dropna l <> [].
Proof.
  induction l as [|[x|] l IH]; cbn [dropna]; intros H; [destruct H|discriminate|].
  destruct H as [H|H]; [discriminate | now apply IH].
Qed.

(** X14. A row of the merged frame that has a glucose timestamp and a
    glucose value falls in a window that is returned: one whose interval
    of [window_minutes] holds the timestamp of the row, the start included
    and the end excluded, and whose count is at least one. *)
Theorem observation_has_its_window
        (self : Self) (w : Z) (out : DataFrame WindowRow)
        (df : DataFrame MergedRow) (r : MergedRow) (t : Z) (v : Q) :
  merged_data self = Some df ->
  create_time_windows self w = Ok out ->
  In r (rows df) ->
  glucose_timestamp r = Some t ->
  col_glucose_value r = Some v ->
  exists win,
    In win (rows out) /\
    window_start win <= t < window_start win + w * ns_per_minute /\
    (1 <= glucose_value_count win)%nat.
Proof.
  intros Hdf Hout Hr Ht Hv.
  destruct (create_time_windows_list _ _ _ _ Hdf Hout) as (W & Rows).
  assert (Hidx : In (t, r) (sort_values (fun tr : Z * MergedRow => Some (fst tr))
                                        (indexed (rows df)))).
  { apply sort_values_In, indexed_In. now split. }
  destruct (windows_shape df w W) as [(E & _)|(origin & ks & _ & _ & _ & _ & All & Wins)].
  { rewrite E in Hidx. destruct Hidx. }
  set (width := w * ns_per_minute) in *.
  assert (Wp : 0 < width) by (unfold width, ns_per_minute, ns_per_second; lia).
  set (k := bin_of origin width t).
  set (rs := map snd (filter (in_bin origin width k)
                             (sort_values (fun tr : Z * MergedRow => Some (fst tr))
                                          (indexed (rows df))))).
  assert (Hrs : In r rs).
  { unfold rs. apply in_map_iff. exists (t, r). split; [reflexivity|].
    apply filter_In. split; [exact Hidx|]. unfold in_bin. cbn [fst].
    apply Z.eqb_refl. }
  assert (Some_value : dropna (map col_glucose_value rs) <> []).
  { apply (dropna_holds _ v). rewrite <- Hv. now apply in_map. }
  exists (aggregate (columns df) (origin + k * width, rs)). split; [|split].
  - rewrite Rows. apply filter_In. split.
    + apply in_map. rewrite Wins. apply in_map_iff. exists k. split; [reflexivity|].
      exact (All (t, r) Hidx).
    + unfold aggregate. cbn [glucose_value_mean snd].
      destruct (mean (map col_glucose_value rs)) eqn:M; [reflexivity|].
      apply mean_none in M. contradiction.
  - unfold aggregate. cbn [window_start fst].
    pose proof (bin_of_bounds origin width t Wp). fold k in H. lia.
  - unfold aggregate. cbn [glucose_value_count snd].
    destruct (dropna (map col_glucose_value rs)); [contradiction | simpl; lia].
Qed.

Lemma observation_has_its_window_witness :
  exists win,
    In win (rows MoreSamples.long_windows) /\
    window_start win <= 185 * Samples.minute
    < window_start win + 60 * ns_per_minute /\
    (1 <= glucose_value_count win)%nat.
Proof.
  apply (observation_has_its_window
           MoreSamples.long_merged 60 MoreSamples.long_windows
           MoreSamples.long_aligned MoreSamples.long_last_row
           (185 * Samples.minute) 110%Q).
  - reflexivity.
  - vm_compute. reflexivity.
  - right. right. left. reflexivity.
  - reflexivity.
  - reflexivity.
Defined.

Lemma strongly_sorted_filter {A : Type} (key : A -> Z) (keep : A -> bool)
      (l : list A) :
  StronglySorted Z.lt (map key l) ->
  StronglySorted Z.lt (map key (filter keep l)).
Proof.
  induction l as [|x l IH]; cbn [map filter]; intros S; [constructor|].
  inversion S as [|? ? S' All]; subst.
  destruct (keep x); cbn [map]; [|now apply IH].
  constructor; [now apply IH|].
  rewrite Forall_forall in *. intros y Hy. apply All.
  apply in_map_iff in Hy. destruct Hy as (z & <- & Hz).
  apply in_map. now apply filter_In in Hz.
Qed.

Lemma strongly_sorted_scaled (origin width : Z) (ks : list Z) :
  0 < width ->
  StronglySorted Z.lt ks ->
  StronglySorted Z.lt (map (fun k => origin + k * width) ks).
Proof.
  intros W. induction 1 as [|k ks S IH All]; cbn [map]; constructor; [exact IH|].
  rewrite Forall_forall in *. intros y Hy.
  apply in_map_iff in Hy. destruct Hy as (j & <- & Hj).
  specialize (All j Hj). nia.
Qed.

Lemma earliest_unique (column : list (option Z)) (a b : Z) :
  FurtherShape.earliest column a -> FurtherShape.earliest column b -> a = b.
Proof.
  intros (Ha & La) (Hb & Lb). pose proof (La b Hb). pose proof (Lb a Ha). lia.
Qed.

(** The first key of the sorted index is the earliest glucose timestamp. *)
Lemma first_key_earliest (rs : list MergedRow) (first : Z) (r0 : MergedRow)
      (rest : list (Z * MergedRow)) :
  sort_values (fun tr : Z * MergedRow => Some (fst tr)) (indexed rs)
  = (first, r0) :: rest ->
  FurtherShape.earliest (map glucose_timestamp rs) first.
Proof.
  intros E. pose proof (index_sorted (indexed rs)) as S. rewrite E in S. split.
  - assert (H : In (first, r0) (indexed rs)).
    { apply (sort_values_In (fun tr : Z * MergedRow => Some (fst tr))).
      rewrite E. now left. }
    apply indexed_In in H as (Hr & Ht). rewrite <- Ht. now apply in_map.
  - intros t Ht. apply in_map_iff in Ht as (r & Er & Hr).
    assert (H : In (t, r) ((first, r0) :: rest)).
    { rewrite <- E. apply sort_values_In. apply indexed_In. now split. }
    exact (sorted_first_least (first, r0) rest (t, r) S H).
Qed.

(** Every bin starts a whole number of widths after midnight of the day of
    the earliest glucose timestamp. *)
Lemma windows_anchor (df : DataFrame MergedRow) (w t0 : Z) :
  0 < w ->
  FurtherShape.earliest (map glucose_timestamp (rows df)) t0 ->
  forall bin, In bin (windows df w) ->
    exists k, 0 <= k /\
              fst bin = FurtherShape.midnight t0 + k * (w * ns_per_minute).
Proof.
  intros W Early bin Hbin. unfold windows in Hbin.
  destruct (sort_values (fun tr : Z * MergedRow => Some (fst tr))
                        (indexed (rows df))) as [|[first r0] rest] eqn:E;
    [destruct Hbin|].
  pose proof (first_key_earliest (rows df) first r0 rest E) as First.
  rewrite (earliest_unique _ _ _ Early First).
  cbn [resample] in Hbin. apply in_map_iff in Hbin as (k & <- & Hk).
  apply bins_between_In in Hk. exists k. split; [|reflexivity].
  assert (0 <= bin_of (first / ns_per_day * ns_per_day) (w * ns_per_minute) first);
    [|lia].
  unfold bin_of. apply Z.div_pos.
  - pose proof (Z.mul_div_le first ns_per_day ltac:(reflexivity)). lia.
  - assert (0 < ns_per_minute) by reflexivity. nia.
Qed.

(** X15. The windows returned come in the order of time, no start twice;
    every start lies a whole number of windows after midnight of the day
    of the earliest glucose timestamp of the merged frame; and every window
    returned has a mean glucose value and a count of at least one. *)
Theorem windows_ordered_on_a_grid
        (self : Self) (w : Z) (out : DataFrame WindowRow)
        (df : DataFrame MergedRow) :
  merged_data self = Some df ->
  create_time_windows self w = Ok out ->
  Sorted Z.lt (map window_start (rows out)) /\
  (forall t0,
     FurtherShape.earliest (map glucose_timestamp (rows df)) t0 ->
     forall win, In win (rows out) ->
                 exists k, 0 <= k /\
                           window_start win
                           = FurtherShape.midnight t0 + k * (w * ns_per_minute)) /\
  (forall win, In win (rows out) ->
               glucose_value_mean win <> None /\
               (1 <= glucose_value_count win)%nat).
Proof.
  intros Hdf Hout.
  destruct (create_time_windows_list _ _ _ _ Hdf Hout) as (W & Rows).
  assert (Wp : 0 < w * ns_per_minute)
    by (unfold ns_per_minute, ns_per_second; lia).
  assert (Filled : forall win, In win (rows out) ->
                     glucose_value_mean win <> None /\
                     (1 <= glucose_value_count win)%nat).
  { intros win Hin. rewrite Rows in Hin. apply filter_In in Hin.
    destruct Hin as (Hin & Keep). apply in_map_iff in Hin.
    destruct Hin as (bin & <- & _). unfold aggregate in *.
    cbn [glucose_value_mean glucose_value_count] in *.
    destruct (mean (map col_glucose_value (snd bin))) eqn:M; [|discriminate Keep].
    split; [discriminate|].
    destruct (dropna (map col_glucose_value (snd bin))) eqn:D; [|simpl; lia].
    apply mean_none in D. congruence. }
  assert (Grid : forall t0,
             FurtherShape.earliest (map glucose_timestamp (rows df)) t0 ->
             forall win, In win (rows out) ->
               exists k, 0 <= k /\
                 window_start win
                 = FurtherShape.midnight t0 + k * (w * ns_per_minute)).
  { intros t0 Early win Hin. rewrite Rows in Hin. apply filter_In in Hin.
    destruct Hin as (Hin & _). apply in_map_iff in Hin.
    destruct Hin as (bin & <- & Hbin).
    exact (windows_anchor df w t0 W Early bin Hbin). }
  destruct (windows_shape df w W)
    as [(_ & Wins)|(origin & ks & Day & _ & Inc & Pos & _ & Wins)].
  - rewrite Wins in Rows. cbn [map filter] in Rows.
    split; [rewrite Rows; constructor|]. split; [exact Grid | exact Filled].
  - split; [|split; [exact Grid | exact Filled]].
    apply StronglySorted_Sorted. rewrite Rows. apply strongly_sorted_filter.
    rewrite Wins, !map_map. unfold aggregate. cbn [window_start fst].
    apply strongly_sorted_scaled; [exact Wp|].
    apply Sorted_StronglySorted; [intros a b c; lia | exact Inc].
Qed.

Lemma windows_ordered_on_a_grid_witness :
  Sorted Z.lt (map window_start (rows MoreSamples.long_windows)) /\
  (forall t0,
     FurtherShape.earliest
       (map glucose_timestamp (rows MoreSamples.long_aligned)) t0 ->
     forall win, In win (rows MoreSamples.long_windows) ->
                 exists k, 0 <= k /\
                           window_start win
                           = FurtherShape.midnight t0 + k * (60 * ns_per_minute)) /\
  (forall win, In win (rows MoreSamples.long_windows) ->
               glucose_value_mean win <> None /\
               (1 <= glucose_value_count win)%nat).
Proof.
  apply (windows_ordered_on_a_grid
           MoreSamples.long_merged 60 MoreSamples.long_windows
           MoreSamples.long_aligned).
  - reflexivity.
  - vm_compute. reflexivity.
Defined.

(** In the sample the earliest glucose timestamp is the epoch, a midnight. *)
Example long_aligned_earliest :
  FurtherShape.earliest
    (map glucose_timestamp (rows MoreSamples.long_aligned)) 0.
Proof.
  split; [vm_compute; tauto|].
  intros t H. vm_compute in H.
  repeat (destruct H as [H|H]; [injection H as <-; lia|]). destruct H.
Qed.

End Windows.


(** ** Contextual features *)

Section Features.

Import HealthDataMerger.

Lemma between_int_true (h a b : Z) :
  between_int (Some h) a b = true <-> a <= h <= b.
Proof.
  unfold between_int. rewrite andb_true_iff, !Z.leb_le. reflexivity.
Qed.

Lemma features_of_hour (t : option Z) :
  let f := features_of t in
  (hour f = None ->
   is_weekend f = false /\ is_morning f = false /\ is_afternoon f = false /\
   is_evening f = false /\ likely_meal_time f = false) /\
  (forall h, hour f = Some h ->
     0 <= h <= 23 /\
     (is_morning f = true <-> 6 <= h <= 12) /\
     (is_afternoon f = true <-> 12 <= h <= 18) /\
     (is_evening f = true <-> 18 <= h <= 22) /\
     (likely_meal_time f = true <-> 7 <= h <= 9 \/ 12 <= h <= 14 \/ 18 <= h <= 20)).
Proof.
  destruct t as [ns|]; cbn.
  - split; [discriminate|]. intros h E. injection E as <-.
    pose proof (Z.mod_pos_bound (ns / 3600000000000) 24 ltac:(lia)) as B.
    revert B. generalize ((ns / 3600000000000) mod 24). intros h B.
    split; [lia|].
    repeat (split; [rewrite ?andb_true_iff, ?Z.leb_le; lia|]).
    rewrite !orb_true_iff, !andb_true_iff, !Z.leb_le. lia.
  - split; [now repeat split|discriminate].
Qed.

(** X16. The day-period columns of a row that [add_contextual_features]
    returns.  A row whose timestamp is NaT has no hour and every flag
    False.  A row at hour [h] (0 to 23) is a morning row from 6 to 12, an
    afternoon row from 12 to 18 and an evening row from 18 to 22, ends
    included: hour 12 is both morning and afternoon, hour 18 both afternoon
    and evening, and the hours 0 to 5 and 23 are in none of the three; a
    likely meal time (7 to 9, 12 to 14, 18 to 20) is always within one of
    them. *)
Theorem day_periods_of_a_row {R : Type} (gt ht : R -> option Z)
        (df : DataFrame R) (r : R) (f : Features) :
  In (r, Some f) (rows (add_contextual_features gt ht df)) ->
  (hour f = None ->
   is_weekend f = false /\ is_morning f = false /\ is_afternoon f = false /\
   is_evening f = false /\ likely_meal_time f = false) /\
  (forall h, hour f = Some h ->
     0 <= h <= 23 /\
     (is_morning f = true <-> 6 <= h <= 12) /\
     (is_afternoon f = true <-> 12 <= h <= 18) /\
     (is_evening f = true <-> 18 <= h <= 22) /\
     (is_morning f && is_afternoon f = true <-> h = 12) /\
     (is_afternoon f && is_evening f = true <-> h = 18) /\
     (is_morning f || is_afternoon f || is_evening f = false <-> h <= 5 \/ h = 23) /\
     (likely_meal_time f = true ->
      is_morning f || is_afternoon f || is_evening f = true)).
Proof.
  intros H.
  assert (E : exists t, f = features_of t).
  { revert H. unfold add_contextual_features.
    destruct (has_column df "glucose_timestamp");
      [|destruct (has_column df "health_timestamp")];
      cbn [rows]; intros H; apply in_map_iff in H; destruct H as (x & E & _);
      inversion E; subst; eauto. }
  destruct E as (t & ->).
  destruct (features_of_hour t) as (Nat & Hour). split; [exact Nat|].
  intros h Eh. destruct (Hour h Eh) as (B & M & A & V & L).
  split; [exact B|]. split; [exact M|]. split; [exact A|]. split; [exact V|].
  rewrite !andb_true_iff, M, A, V.
  destruct (is_morning (features_of t)) eqn:Em;
    destruct (is_afternoon (features_of t)) eqn:Ea;
    destruct (is_evening (features_of t)) eqn:Ev;
    cbn [orb]; rewrite ?L; repeat split; intros; try lia; try reflexivity;
    try (assert (true = true) as T by reflexivity;
         try (apply M in T; lia); try (apply A in T; lia); try (apply V in T; lia)).
Qed.

Lemma day_periods_of_a_row_witness :
  In (FurtherSamples.noon_row, Some FurtherSamples.noon_features)
     (rows (add_contextual_features glucose_timestamp health_timestamp
                                    FurtherSamples.noon_aligned)) /\
  hour FurtherSamples.noon_features = Some 12 /\
  is_morning FurtherSamples.noon_features = true /\
  is_afternoon FurtherSamples.noon_features = true /\
  is_evening FurtherSamples.noon_features = false.
Proof.
  assert (H : In (FurtherSamples.noon_row, Some FurtherSamples.noon_features)
                 (rows (add_contextual_features glucose_timestamp health_timestamp
                                                FurtherSamples.noon_aligned))).
  { vm_compute. left. reflexivity. }
  split; [exact H|]. split; [reflexivity|].
  destruct (day_periods_of_a_row glucose_timestamp health_timestamp
              FurtherSamples.noon_aligned FurtherSamples.noon_row
              FurtherSamples.noon_features H) as (_ & Hour).
  destruct (Hour 12 eq_refl) as (_ & M & A & V & _).
  split; [apply M; lia|]. split; [apply A; lia|].
  destruct (is_evening FurtherSamples.noon_features); [|reflexivity].
  pose proof (proj1 V eq_refl). lia.
Defined.

End Features.


(** ** The parser of the Apple Health export *)

Section Parser.

Import AppleHealthParser FurtherShape.

(** *** The elements below the root *)

Lemma below_list_In (cs : list Element) (d : Element) :
  In d ((fix below (l : list Element) : list Element :=
           match l with
           | [] => []
           | c :: rest => c :: descendants c ++ below rest
           end) cs) <->
  exists c, In c cs /\ (d = c \/ In d (descendants c)).
Proof.
  induction cs as [|c cs IH].
  - split; [intros []|intros (c & [] & _)].
  - cbn [In]. rewrite in_app_iff, IH. split.
    + intros [E|[H|(c' & Hc & H)]].
      * exists c. split; [now left|left; now symmetry].
      * exists c. split; [now left|now right].
      * exists c'. split; [now right|exact H].
    + intros (c' & [E|Hc] & H).
      * subst c'. destruct H as [->|H]; [now left|right; now left].
      * right. right. now exists c'.
Qed.

Lemma descendants_children (e d : Element) :
  In d (descendants e) <->
  exists c, In c (children e) /\ (d = c \/ In d (descendants c)).
Proof. destruct e as [t a cs]. cbn [descendants children]. apply below_list_In. Qed.

Lemma below_descendants (e d : Element) : below e d -> In d (descendants e).
Proof.
  induction 1 as [e c H|e c d H _ IH]; apply descendants_children; exists c;
    split; auto.
Qed.

Lemma descendants_below : forall e d, In d (descendants e) -> below e d.
Proof.
  fix IH 1. intros [t a cs] d. cbn [descendants].
  assert (Sub : forall c, In c cs -> In c (children (Elem t a cs))) by (intros c H; exact H).
  revert Sub. generalize (Elem t a cs) as e. 
  induction cs as [|c cs IHcs]; intros e Sub H; [destruct H|].
  cbn [In] in H. rewrite in_app_iff in H. destruct H as [E|[H|H]].
  - subst d. apply below_child. apply Sub. now left.
  - apply below_deeper with c; [apply Sub; now left|]. apply IH. exact H.
  - apply IHcs; [|exact H]. intros c' Hc. apply Sub. now right.
Qed.

Lemma findall_below (e d : Element) (name : string) :
  In d (findall e name) <-> below e d /\ tag d = name.
Proof.
  unfold findall. rewrite filter_In, String.eqb_eq. split.
  - intros (H & T). split; [now apply descendants_below|exact T].
  - intros (H & T). split; [now apply below_descendants|exact T].
Qed.

(** *** The frame extracted *)

Section AnyConversion.

Variable to_datetime : list (option string) -> option string -> option Z.
Variable to_numeric : option string -> option Q.

Lemma records_frame_types (records : list RecordData) :
  map type (rows (records_frame to_datetime to_numeric records))
  = map d_type records.
Proof.
  destruct records as [|d ds]; [reflexivity|].
  unfold records_frame. cbn [rows]. rewrite map_map. reflexivity.
Qed.

Lemma records_frame_columns (records : list RecordData) :
  columns (records_frame to_datetime to_numeric records)
  = match records with [] => [] | _ => record_keys end.
Proof. now destruct records. Qed.

Lemma extracted_types (self : AppleHealthParser.Self) (e : Element)
      (record_types : option (list string)) :
  root self = Some e ->
  exists out,
    extract_health_records to_datetime to_numeric self record_types = Ok out /\
    map type (rows out)
    = filter (fun t => negb (skipped record_types t))
             (map (fun record => get record "type") (findall e "Record")).
Proof.
  intros E. unfold extract_health_records. rewrite E. eexists. split; [reflexivity|].
  rewrite records_frame_types, map_map. cbn [record_data d_type].
  induction (findall e "Record") as [|x l IH]; [reflexivity|].
  cbn [filter map]. destruct (skipped record_types (get x "type")); cbn [negb map];
    now rewrite IH.
Qed.

Lemma not_skipped_listed (t : string) (ts : list string) (ty : option string) :
  skipped (Some (t :: ts)) ty = false ->
  exists s, ty = Some s /\ In s (t :: ts).
Proof.
  unfold skipped. destruct ty as [s|]; [|discriminate].
  rewrite negb_false_iff, existsb_exists. intros (u & Hu & Eq).
  apply String.eqb_eq in Eq. subst u. now exists s.
Qed.

(** X17. [extract_health_records] on a loaded export returns a frame whose
    rows are the [Record] elements of the tree, at any depth and in
    document order, that pass the filter.  Without a list of types, or with
    an empty list, every [Record] element gives a row, also one without a
    type; with a list that is not empty, every row has a type and that type
    is in the list. *)
Theorem extraction_follows_the_filter
        (self : AppleHealthParser.Self) (e : Element)
        (record_types : option (list string)) :
  root self = Some e ->
  exists out,
    extract_health_records to_datetime to_numeric self record_types = Ok out /\
    map type (rows out)
    = filter (fun t => negb (skipped record_types t))
             (map (fun record => get record "type") (findall e "Record")) /\
    (record_types = None \/ record_types = Some [] ->
     map type (rows out)
     = map (fun record => get record "type") (findall e "Record")) /\
    (forall t ts, record_types = Some (t :: ts) ->
     forall r, In r (rows out) -> exists s, type r = Some s /\ In s (t :: ts)).
Proof.
  intros E. destruct (extracted_types self e record_types E) as (out & Run & T).
  exists out. split; [exact Run|]. split; [exact T|]. split.
  - intros [-> | ->]; rewrite T; clear;
      (induction (map _ _) as [|x l IH]; [reflexivity|]);
      cbn [filter]; unfold skipped at 1; cbn [negb]; now f_equal.
  - intros t ts -> r Hr.
    assert (Ht : In (type r) (map type (rows out))) by now apply in_map.
    rewrite T in Ht. apply filter_In in Ht as (_ & S).
    apply not_skipped_listed. now apply negb_true_iff.
Qed.

Lemma records_frame_In (records : list RecordData) (r : HealthRecord) :
  In r (rows (records_frame to_datetime to_numeric records)) <->
  exists d, In d records /\
    r = mkHealthRecord
          (d_type d) (d_sourceName d) (to_numeric (d_value d)) (d_unit d)
          (to_datetime (map d_creationDate records) (d_creationDate d))
          (to_datetime (map d_startDate records) (d_startDate d))
          (to_datetime (map d_endDate records) (d_endDate d)).
Proof.
  destruct records as [|d0 ds].
  - cbn. split; [intros []|intros (d & [] & _)].
  - unfold records_frame. cbn [rows]. rewrite in_map_iff. split.
    + intros (d & <- & H). now exists d.
    + intros (d & H & ->). now exists d.
Qed.

Lemma extract_health_records_In
      (self : AppleHealthParser.Self) (e : Element)
      (record_types : option (list string)) :
  root self = Some e ->
  exists out dates,
    extract_health_records to_datetime to_numeric self record_types = Ok out /\
    (columns out = [] /\ rows out = [] \/ columns out = record_keys /\ rows out <> []) /\
    forall r, In r (rows out) <->
      exists record,
        below e record /\ tag record = "Record" /\
        skipped record_types (get record "type") = false /\
        r = mkHealthRecord
              (get record "type") (get record "sourceName")
              (to_numeric (get record "value")) (get record "unit")
              (to_datetime (map d_creationDate dates) (get record "creationDate"))
              (to_datetime (map d_startDate dates) (get record "startDate"))
              (to_datetime (map d_endDate dates) (get record "endDate")).
Proof.
  intros E. unfold extract_health_records. rewrite E.
  set (records := map record_data _).
  exists (records_frame to_datetime to_numeric records), records.
  split; [reflexivity|]. split.
  - destruct records; [left; now split|right; split; [reflexivity|]].
    cbn [records_frame rows map]. discriminate.
  - intros r. rewrite records_frame_In. unfold records. split.
    + intros (d & Hd & ->). apply in_map_iff in Hd as (record & <- & Hr).
      apply filter_In in Hr as (Hr & S). apply findall_below in Hr as (B & T).
      exists record. repeat split; auto. now apply negb_true_iff.
    + intros (record & B & T & S & ->). exists (record_data record). split; [|reflexivity].
      apply in_map. apply filter_In. split; [now apply findall_below|].
      now apply negb_true_iff.
Qed.

(** X18. The rows of the frame [extract_health_records] returns are the
    [Record] elements below the root, at any depth, that the filter does
    not skip: each such element has a row with its attributes ([value] as a
    number, the dates as timestamps, an attribute that is absent as an empty
    cell), and every row is that of such an element.  The frame has the
    seven columns when it has a row and no column when it has none. *)
Theorem records_at_any_depth_are_rows
        (self : AppleHealthParser.Self) (e : Element)
        (record_types : option (list string)) :
  root self = Some e ->
  exists out,
    extract_health_records to_datetime to_numeric self record_types = Ok out /\
    (columns out = [] /\ rows out = [] \/
     columns out = ["type"; "sourceName"; "value"; "unit"; "creationDate";
                    "startDate"; "endDate"] /\ rows out <> []) /\
    (forall record,
       below e record -> tag record = "Record" ->
       skipped record_types (get record "type") = false ->
       exists r, In r (rows out) /\
         type r = get record "type" /\ sourceName r = get record "sourceName" /\
         value r = to_numeric (get record "value") /\ unit_ r = get record "unit") /\
    (forall r, In r (rows out) ->
       exists record,
         below e record /\ tag record = "Record" /\
         skipped record_types (get record "type") = false /\
         type r = get record "type" /\ sourceName r = get record "sourceName" /\
         value r = to_numeric (get record "value") /\ unit_ r = get record "unit").
Proof.
  intros E.
  destruct (extract_health_records_In self e record_types E)
    as (out & dates & Run & Cols & Rows).
  exists out. split; [exact Run|]. split; [exact Cols|]. split.
  - intros record B T S. eexists. split.
    + apply Rows. exists record. repeat split; eauto.
    + now repeat split.
  - intros r Hr. apply Rows in Hr as (record & B & T & S & ->).
    exists record. now repeat split.
Qed.

Lemma keyed_null {A : Type} (key : A -> option Z) (l : list A) (x : A) :
  In x l -> key x = None -> MergeAsof.keyed key l = None.
Proof.
  induction l as [|y l IH]; intros H K; [destruct H|].
  cbn [MergeAsof.keyed]. destruct H as [->|H].
  - now rewrite K.
  - rewrite (IH H K). now destruct (key y).
Qed.

(** X19. From the parser to the merger.  When the filter skips every
    [Record] element of the export, the frame extracted has no column, and
    [align_timestamps] on a merger loaded with it raises the ValueError
    about the missing [startDate] column, whatever the glucose frame and the
    tolerance.  When a [Record] element that is not skipped has no
    [startDate] attribute (a missing date reads as NaT), the frame has the
    column and [align_timestamps] raises, whatever the glucose frame and the
    tolerance: one record without a start date stops the alignment.  In both
    cases the merger is left as it was. *)
Theorem extracted_frame_stops_alignment
        (self : AppleHealthParser.Self) (e : Element)
        (record_types : option (list string))
        (merger : HealthDataMerger.Self)
        (glucose : DataFrame LibreGlucoseProcessor.Reading) (T : Z) :
  root self = Some e ->
  (forall column, to_datetime column None = None) ->
  exists df,
    extract_health_records to_datetime to_numeric self record_types = Ok df /\
    let loaded :=
      HealthDataMerger.load_glucose_data
        (HealthDataMerger.load_apple_health_data merger (as_health_frame df))
        glucose in
    ((forall record, below e record -> tag record = "Record" ->
                     skipped record_types (get record "type") = true) ->
     columns df = [] /\
     HealthDataMerger.align_timestamps loaded T
     = (loaded,
        Raise (ValueError "Apple Health data must have startDate column"))) /\
    (forall record, below e record -> tag record = "Record" ->
                    skipped record_types (get record "type") = false ->
                    get record "startDate" = None ->
     has_column df "startDate" = true /\
     raises (snd (HealthDataMerger.align_timestamps loaded T)) /\
     fst (HealthDataMerger.align_timestamps loaded T) = loaded).
Proof.
  intros E Missing.
  destruct (extract_health_records_In self e record_types E)
    as (df & dates & Run & Cols & Rows).
  exists df. split; [exact Run|]. cbv zeta. split.
  - intros Skip.
    assert (C : columns df = []).
    { destruct Cols as [[C _]|[_ N]]; [exact C|]. exfalso.
      destruct (rows df) as [|r rs] eqn:Er; [now apply N|].
      destruct (proj1 (Rows r) (or_introl eq_refl)) as (record & B & Tg & S & _).
      rewrite (Skip record B Tg) in S. discriminate. }
    split; [exact C|].
    unfold HealthDataMerger.align_timestamps, HealthDataMerger.load_glucose_data,
      HealthDataMerger.load_apple_health_data, has_column, as_health_frame.
    cbn [HealthDataMerger.apple_health_data HealthDataMerger.glucose_data columns].
    rewrite C. reflexivity.
  - intros record B Tg S D.
    assert (Hr : exists r, In r (rows df) /\ startDate r = None).
    { eexists. split; [apply Rows; exists record; repeat split; eauto|].
      cbn [startDate]. rewrite D. apply Missing. }
    destruct Hr as (r & Hr & Dr).
    assert (C : columns df = record_keys).
    { destruct Cols as [[_ N]|[C _]]; [|exact C]. rewrite N in Hr. destruct Hr. }
    split; [unfold has_column; rewrite C; reflexivity|].
    unfold HealthDataMerger.align_timestamps, HealthDataMerger.load_glucose_data,
      HealthDataMerger.load_apple_health_data, has_column, as_health_frame.
    cbn [HealthDataMerger.apple_health_data HealthDataMerger.glucose_data columns rows].
    rewrite C.
    replace (existsb (String.eqb "startDate") record_keys) with true by reflexivity.
    cbn [bind].
    destruct (select_columns _ ["glucose_timestamp"]) as [u|err]; cbn [bind fst snd];
      [|split; [eexists; reflexivity|reflexivity]].
    unfold MergeAsof.merge_asof.
    destruct (T * ns_per_minute <? 0); cbn [bind fst snd];
      [split; [eexists; reflexivity|reflexivity]|].
    rewrite (keyed_null HealthDataMerger.startDate
               (sort_values HealthDataMerger.startDate (map as_health_row (rows df)))
               (as_health_row r)).
    + cbn [bind fst snd]. split; [eexists; reflexivity|reflexivity].
    + apply sort_values_In. now apply in_map.
    + exact Dr.
Qed.

Lemma categories_exclusive (ty : option string) :
  negb (skipped (Some glucose_types) ty) && negb (skipped (Some activity_types) ty) = false /\
  negb (skipped (Some glucose_types) ty) && negb (skipped (Some sleep_types) ty) = false /\
  negb (skipped (Some activity_types) ty) && negb (skipped (Some sleep_types) ty) = false.
Proof.
  destruct ty as [s|]; [|now repeat split].
  unfold skipped, glucose_types, activity_types, sleep_types.
  rewrite !negb_involutive. cbn [existsb].
  repeat match goal with
         | |- context [String.eqb s ?lit] =>
             destruct (String.eqb_spec s lit) as [->|_]; [now vm_compute|]
         end.
  now repeat split.
Qed.

Lemma exclusive_filters {A : Type} (p q r : A -> bool) (l : list A) :
  (forall x, p x && q x = false /\ p x && r x = false /\ q x && r x = false) ->
  (List.length (filter p l) + List.length (filter q l) + List.length (filter r l)
   <= List.length l)%nat.
Proof.
  intros X. induction l as [|x l IH]; [reflexivity|].
  cbn [filter]. destruct (X x) as (X1 & X2 & X3).
  destruct (p x), (q x), (r x); try discriminate; cbn [List.length]; lia.
Qed.

Lemma records_frame_length (records : list RecordData) :
  List.length (rows (records_frame to_datetime to_numeric records))
  = List.length records.
Proof.
  destruct records; [reflexivity|]. unfold records_frame. cbn [rows].
  now rewrite length_map.
Qed.

Lemma extracted_length (self : AppleHealthParser.Self) (e : Element)
      (record_types : option (list string)) (out : DataFrame HealthRecord) :
  root self = Some e ->
  extract_health_records to_datetime to_numeric self record_types = Ok out ->
  List.length (rows out)
  = List.length (filter (fun record => negb (skipped record_types (get record "type")))
                        (findall e "Record")).
Proof.
  intros E. unfold extract_health_records. rewrite E. intros H.
  injection H as <-. now rewrite records_frame_length, length_map.
Qed.

(** X20. [get_glucose_data], [get_activity_data] and [get_sleep_data] on a
    loaded export return frames that share no record: a row of one never
    has the type of a row of another, and together the three frames have
    no more rows than the export has [Record] elements. *)
Theorem categories_share_no_record
        (self : AppleHealthParser.Self) (e : Element) :
  root self = Some e ->
  exists g a s,
    get_glucose_data to_datetime to_numeric self = Ok g /\
    get_activity_data to_datetime to_numeric self = Ok a /\
    get_sleep_data to_datetime to_numeric self = Ok s /\
    (forall x y, In x (rows g) -> In y (rows a) -> type x <> type y) /\
    (forall x y, In x (rows g) -> In y (rows s) -> type x <> type y) /\
    (forall x y, In x (rows a) -> In y (rows s) -> type x <> type y) /\
    (List.length (rows g) + List.length (rows a) + List.length (rows s)
     <= List.length (findall e "Record"))%nat.
Proof.
  intros E. unfold get_glucose_data, get_activity_data, get_sleep_data.
  destruct (extract_health_records_In self e (Some glucose_types) E)
    as (g & dg & Okg & _ & Rg).
  destruct (extract_health_records_In self e (Some activity_types) E)
    as (a & da & Oka & _ & Ra).
  destruct (extract_health_records_In self e (Some sleep_types) E)
    as (s & ds & Oks & _ & Rs).
  exists g, a, s. split; [exact Okg|]. split; [exact Oka|]. split; [exact Oks|].
  assert (Apart : forall types1 types2 (f1 f2 : DataFrame HealthRecord),
             (forall ty, negb (skipped types1 ty) && negb (skipped types2 ty) = false) ->
             (forall r, In r (rows f1) -> skipped types1 (type r) = false) ->
             (forall r, In r (rows f2) -> skipped types2 (type r) = false) ->
             forall x y, In x (rows f1) -> In y (rows f2) -> type x <> type y).
  { intros types1 types2 f1 f2 X R1 R2 x y Hx Hy Eq.
    specialize (X (type x)). rewrite (R1 x Hx), Eq, (R2 y Hy) in X. discriminate. }
  assert (Tg : forall r, In r (rows g) -> skipped (Some glucose_types) (type r) = false).
  { intros r Hr. apply Rg in Hr as (record & _ & _ & S & ->). exact S. }
  assert (Ta : forall r, In r (rows a) -> skipped (Some activity_types) (type r) = false).
  { intros r Hr. apply Ra in Hr as (record & _ & _ & S & ->). exact S. }
  assert (Ts : forall r, In r (rows s) -> skipped (Some sleep_types) (type r) = false).
  { intros r Hr. apply Rs in Hr as (record & _ & _ & S & ->). exact S. }
  repeat split.
  - apply (Apart _ _ g a (fun ty => proj1 (categories_exclusive ty)) Tg Ta).
  - apply (Apart _ _ g s (fun ty => proj1 (proj2 (categories_exclusive ty))) Tg Ts).
  - apply (Apart _ _ a s (fun ty => proj2 (proj2 (categories_exclusive ty))) Ta Ts).
  - rewrite (extracted_length self e _ g E Okg), (extracted_length self e _ a E Oka),
      (extracted_length self e _ s E Oks).
    apply exclusive_filters. intros x. apply categories_exclusive.
Qed.

End AnyConversion.

Lemma extraction_follows_the_filter_witness :
  root FurtherSamples.export_parser = Some FurtherSamples.export_root /\
  exists out,
    extract_health_records FurtherSamples.read_date FurtherSamples.read_number
                           FurtherSamples.export_parser (Some glucose_types)
    = Ok out /\
    map type (rows out)
    = filter (fun t => negb (skipped (Some glucose_types) t))
             (map (fun record => get record "type")
                  (findall FurtherSamples.export_root "Record")) /\
    (Some glucose_types = None \/ Some glucose_types = Some [] ->
     map type (rows out)
     = map (fun record => get record "type")
           (findall FurtherSamples.export_root "Record")) /\
    (forall t ts, Some glucose_types = Some (t :: ts) ->
     forall r, In r (rows out) -> exists s, type r = Some s /\ In s (t :: ts)).
Proof.
  split; [reflexivity|].
  apply (extraction_follows_the_filter
           FurtherSamples.read_date FurtherSamples.read_number
           FurtherSamples.export_parser
           FurtherSamples.export_root (Some glucose_types)).
  reflexivity.
Defined.


Lemma records_at_any_depth_are_rows_witness :
  below FurtherSamples.export_root FurtherSamples.export_glucose_record /\
  exists out r,
    extract_health_records FurtherSamples.read_date FurtherSamples.read_number
                           FurtherSamples.export_parser (Some glucose_types)
    = Ok out /\
    In r (rows out) /\
    type r = Some "HKQuantityTypeIdentifierBloodGlucose" /\
    value r = Some 5.4%Q.
Proof.
  assert (B : below FurtherSamples.export_root FurtherSamples.export_glucose_record).
  { apply below_deeper with FurtherSamples.export_correlation.
    - cbn. right. right. left. reflexivity.
    - apply below_child. cbn. left. reflexivity. }
  split; [exact B|].
  destruct (records_at_any_depth_are_rows
              FurtherSamples.read_date FurtherSamples.read_number
              FurtherSamples.export_parser FurtherSamples.export_root
              (Some glucose_types) eq_refl) as (out & Run & _ & Each & _).
  destruct (Each FurtherSamples.export_glucose_record B eq_refl eq_refl)
    as (r & Hr & Ty & _ & Va & _).
  exists out, r. split; [exact Run|]. split; [exact Hr|]. split; [exact Ty|exact Va].
Defined.

Lemma extracted_frame_stops_alignment_witness :
  (snd (HealthDataMerger.align_timestamps
          (FurtherSamples.loaded_with FurtherSamples.bare_frame) 15)
   = Raise (ValueError "Apple Health data must have startDate column")) /\
  (has_column FurtherSamples.export_frame "startDate" = true /\
   raises (snd (HealthDataMerger.align_timestamps
                  (FurtherSamples.loaded_with FurtherSamples.export_frame) 15))).
Proof.
  split.
  - destruct (extracted_frame_stops_alignment
                FurtherSamples.read_date FurtherSamples.read_number
                FurtherSamples.bare_parser FurtherSamples.bare_root None
                (HealthDataMerger.mkSelf None None None) Samples.falling_frame 15
                eq_refl (fun _ => eq_refl)) as (df & Run & Skipped & _).
    vm_compute in Run. injection Run as <-. cbv zeta in Skipped.
    destruct Skipped as (_ & Raised).
    + intros record B T. apply below_descendants in B.
      destruct B as [<-|[]]. discriminate T.
    + unfold FurtherSamples.loaded_with, FurtherSamples.bare_frame.
      rewrite Raised. reflexivity.
  - destruct (extracted_frame_stops_alignment
                FurtherSamples.read_date FurtherSamples.read_number
                FurtherSamples.export_parser FurtherSamples.export_root None
                (HealthDataMerger.mkSelf None None None) Samples.falling_frame 15
                eq_refl (fun _ => eq_refl)) as (df & Run & _ & Null).
    vm_compute in Run. injection Run as <-. cbv zeta in Null.
    destruct (Null FurtherSamples.export_untyped_record) as (Col & Raised & _).
    + apply below_child. cbn. right. right. right. left. reflexivity.
    + reflexivity.
    + reflexivity.
    + reflexivity.
    + split; [exact Col|].
      unfold FurtherSamples.loaded_with, FurtherSamples.export_frame.
      exact Raised.
Defined.

Lemma categories_share_no_record_witness :
  exists g a s,
    get_glucose_data FurtherSamples.read_date FurtherSamples.read_number
                     FurtherSamples.export_parser = Ok g /\
    get_activity_data FurtherSamples.read_date FurtherSamples.read_number
                      FurtherSamples.export_parser = Ok a /\
    get_sleep_data FurtherSamples.read_date FurtherSamples.read_number
                   FurtherSamples.export_parser = Ok s /\
    (forall x y, In x (rows g) -> In y (rows a) -> type x <> type y) /\
    (forall x y, In x (rows g) -> In y (rows s) -> type x <> type y) /\
    (forall x y, In x (rows a) -> In y (rows s) -> type x <> type y) /\
    (List.length (rows g) + List.length (rows a) + List.length (rows s)
     <= List.length (findall FurtherSamples.export_root "Record"))%nat.
Proof.
  apply (categories_share_no_record
           FurtherSamples.read_date FurtherSamples.read_number
           FurtherSamples.export_parser FurtherSamples.export_root).
  reflexivity.
Defined.

End Parser.

(** ** Resampling *)

Section Resample.

Import LibreGlucoseProcessor Resampling.

(** *** Forward filling *)

Lemma ffill_from_length (n : nat) (last : option Q) (f : nat) (l : list (option Q)) :
  List.length (ffill_from n last f l) = List.length l.
Proof.
  revert last f. induction l as [|[v|] l IH]; intros last f; cbn [ffill_from List.length];
    [reflexivity| |]; now rewrite IH.
Qed.

Lemma ffill_from_nth (last : option Q) (f : nat) (l : list (option Q)) (i : nat) :
  (i < List.length l)%nat ->
  nth i (ffill_from 2 last f l) None
  = match nth i l None with
    | Some v => Some v
    | None =>
        match i with
        | O => if Nat.ltb f 2 then last else None
        | S j =>
            match nth j l None with
            | Some v => Some v
            | None =>
                match j with
                | O => if Nat.ltb (S f) 2 then last else None
                | S k => nth k l None
                end
            end
        end
    end.
Proof.
  revert last f i. induction l as [|c l IH]; intros last f i Hi; [cbn in Hi; lia|].
  cbn [List.length] in Hi.
  destruct i as [|i].
  - destruct c as [v|]; reflexivity.
  - assert (Hi' : (i < List.length l)%nat) by lia.
    destruct c as [v|]; cbn [ffill_from nth]; rewrite (IH _ _ i Hi').
    + destruct (nth i l None) as [u|]; [reflexivity|].
      destruct i as [|j]; [reflexivity|]. cbn [nth]. reflexivity.
    + destruct (nth i l None) as [u|]; [reflexivity|].
      destruct i as [|j]; [reflexivity|]. cbn [nth].
      destruct (nth j l None) as [u|]; [reflexivity|].
      destruct j as [|k]; [|reflexivity].
      destruct f as [|[|f]]; reflexivity.
Qed.

Lemma ffill_nth (l : list (option Q)) (i : nat) :
  (i < List.length l)%nat ->
  nth i (ffill 2 l) None = FurtherShape.latest_of_three l i.
Proof.
  intros Hi. unfold FurtherShape.latest_of_three, ffill.
  rewrite (ffill_from_nth None O l i Hi).
  destruct (nth i l None); [reflexivity|].
  destruct i as [|j]; [reflexivity|].
  destruct (nth j l None); [reflexivity|]. now destruct j.
Qed.

(** *** The frame returned *)

Lemma resample_data_rows (self : LibreGlucoseProcessor.Self) (minutes : Z)
      (out : DataFrame Resampled) :
  resample_data self minutes = Ok out ->
  exists df,
    processed_data self = Some df /\ 0 < minutes /\
    columns out = ["timestamp"; "glucose_value"; "glucose_rate_change"] /\
    map bin_start (rows out) = map bin_start (resampled df minutes) /\
    map glucose_value (rows out)
    = ffill 2 (map glucose_value (resampled df minutes)) /\
    map glucose_rate_change (rows out)
    = ffill 2 (map glucose_rate_change (resampled df minutes)) /\
    (rows df = [] \/ indexed (rows df) <> []).
Proof.
  unfold resample_data. destruct (processed_data self) as [df|]; [|discriminate].
  destruct (select_columns (columns df) ["timestamp"]); cbn [bind]; [|discriminate].
  destruct (select_columns (columns df) _); cbn [bind]; [|discriminate].
  destruct (Z.leb_spec minutes 0) as [Le|Pos]; cbn [bind]; [discriminate|].
  destruct (2 ^ 63 <=? minutes * ns_per_minute); cbn [bind]; [discriminate|].
  assert (Index : forall k : result (DataFrame Resampled),
             (_ <- match rows df, indexed (rows df) with
                   | _ :: _, [] => Raise AttributeError
                   | _, _ => Ok tt
                   end ;; k) = Ok out ->
             k = Ok out /\ (rows df = [] \/ indexed (rows df) <> [])).
  { intros k. destruct (rows df) as [|r rs]; [intros H; split; [exact H|now left]|].
    destruct (indexed (r :: rs)); cbn [bind]; [discriminate|].
    intros H. split; [exact H|]. right. discriminate. }
  intros H. apply Index in H as (H & Idx). clear Index.
  injection H as H. subst out. exists df. split; [reflexivity|]. split; [exact Pos|].
  split; [reflexivity|]. cbv zeta. cbn [rows].
  set (means := resampled df minutes).
  assert (Three : forall (ms : list Resampled) (b c : list (option Q)),
             List.length b = List.length ms -> List.length c = List.length ms ->
             let l := map (fun mvr : Resampled * option Q * option Q =>
                             mkResampled (bin_start (fst (fst mvr)))
                                         (snd (fst mvr)) (snd mvr))
                          (combine (combine ms b) c) in
             map bin_start l = map bin_start ms /\
             map glucose_value l = b /\ map glucose_rate_change l = c).
  { intros ms. induction ms as [|x ms IH]; intros [|y b] [|z c] Lb Lc; try discriminate;
      [now repeat split|].
    cbn [combine map fst snd bin_start glucose_value glucose_rate_change].
    injection Lb as Lb. injection Lc as Lc.
    destruct (IH b c Lb Lc) as (E1 & E2 & E3). cbv zeta in E1, E2, E3.
    now rewrite E1, E2, E3. }
  destruct (Three means (ffill 2 (map glucose_value means))
                  (ffill 2 (map glucose_rate_change means)))
    as (E1 & E2 & E3);
    try (unfold ffill; now rewrite ffill_from_length, length_map).
  cbv zeta in E1, E2, E3. repeat split; assumption.
Qed.

(** X21. Forward filling in [resample_data] looks two bins back and no
    further.  The frame returned has one row per bin of the resampling; the
    glucose value of row [i] is the mean of bin [i] when the bin has one,
    else the mean of bin [i-1], else the mean of bin [i-2], else NaN, and
    the rate of change is filled in the same way from its own bin means. *)
Theorem resampled_cell_looks_two_bins_back
        (self : LibreGlucoseProcessor.Self) (minutes : Z)
        (df : DataFrame Reading) (out : DataFrame Resampled) (i : nat) :
  processed_data self = Some df ->
  resample_data self minutes = Ok out ->
  (i < List.length (rows out))%nat ->
  List.length (rows out) = List.length (resampled df minutes) /\
  nth i (map glucose_value (rows out)) None
  = FurtherShape.latest_of_three (map glucose_value (resampled df minutes)) i /\
  nth i (map glucose_rate_change (rows out)) None
  = FurtherShape.latest_of_three (map glucose_rate_change (resampled df minutes)) i.
Proof.
  intros P R Hi.
  destruct (resample_data_rows self minutes out R)
    as (df' & P' & _ & _ & B & V & C & _).
  rewrite P in P'. injection P' as <-.
  assert (L : List.length (rows out) = List.length (resampled df minutes)).
  { rewrite <- (length_map bin_start (rows out)), B. apply length_map. }
  split; [exact L|]. rewrite V, C. split; apply ffill_nth; rewrite length_map; lia.
Qed.

Lemma resampled_cell_looks_two_bins_back_witness :
  List.length (rows FurtherSamples.gap_resampled)
  = List.length (resampled FurtherSamples.gap_frame 15) /\
  nth 3 (map glucose_value (rows FurtherSamples.gap_resampled)) None
  = FurtherShape.latest_of_three
      (map glucose_value (resampled FurtherSamples.gap_frame 15)) 3 /\
  nth 3 (map glucose_rate_change (rows FurtherSamples.gap_resampled)) None
  = FurtherShape.latest_of_three
      (map glucose_rate_change (resampled FurtherSamples.gap_frame 15)) 3.
Proof.
  apply (resampled_cell_looks_two_bins_back
           FurtherSamples.gap_processed 15 FurtherSamples.gap_frame
           FurtherSamples.gap_resampled 3%nat).
  - reflexivity.
  - vm_compute. reflexivity.
  - vm_compute. lia.
Defined.

(** The sample: readings in the first and in the fifth quarter of an hour;
    the second and the third quarter take the mean of the first, the
    fourth stays empty. *)
Example gap_resampled_values :
  map glucose_value (rows FurtherSamples.gap_resampled)
  = [Some (190 # 2); Some (190 # 2); Some (190 # 2); None; Some 120%Q].
Proof. reflexivity. Qed.

(** *** The bins *)

Lemma keys_sorted {A : Type} (l : list (Z * A)) :
  StronglySorted Z.le (map fst (sort_values (fun tr : Z * A => Some (fst tr)) l)).
Proof.
  apply Sorted_StronglySorted; [intros a b c; lia|].
  pose proof (sort_values_sorted (fun tr : Z * A => Some (fst tr)) l) as S.
  induction S as [|a l' S' IH H]; cbn [map]; constructor; [exact IH|].
  destruct H as [|b l'' H]; cbn [map]; constructor. cbn [time_leb] in H.
  now apply Z.leb_le.
Qed.

Lemma last_In (d : Z) (l : list Z) : l <> [] -> In (List.last l d) l.
Proof.
  induction l as [|a l IH]; [congruence|]. intros _.
  destruct l as [|b l]; [now left|].
  change (List.last (a :: b :: l) d) with (List.last (b :: l) d).
  right. apply IH. discriminate.
Qed.

Lemma sorted_keys_bounds (first d : Z) (ks : list Z) (t : Z) :
  StronglySorted Z.le (first :: ks) -> In t (first :: ks) ->
  first <= t <= List.last (first :: ks) d.
Proof.
  revert first t. induction ks as [|k ks IH]; intros first t S H.
  - destruct H as [<-|[]]. cbn. lia.
  - inversion S as [|? ? S' All]; subst. rewrite Forall_forall in All.
    change (List.last (first :: k :: ks) d) with (List.last (k :: ks) d).
    assert (Hl : In (List.last (k :: ks) d) (k :: ks)) by (apply last_In; discriminate).
    destruct H as [<-|H].
    + split; [lia|]. now apply All.
    + destruct (IH k t S' H) as (L1 & L2). split; [|exact L2].
      specialize (All k (or_introl eq_refl)). lia.
Qed.

Lemma reading_index_In (rs : list Reading) (t : Z) (r : Reading) :
  In (t, r) (indexed rs) <-> In r rs /\ timestamp (raw r) = Some t.
Proof.
  unfold indexed. rewrite sort_values_In, in_flat_map. split.
  - intros (x & Hx & H). destruct (timestamp (raw x)) as [tx|] eqn:E; [|destruct H].
    destruct H as [H|[]]. injection H as <- <-. now split.
  - intros (H & E). exists r. split; [exact H|]. rewrite E. now left.
Qed.

Lemma bins_shape (width : Z) (rs : list Reading) :
  0 < width ->
  (indexed rs = [] /\ bins width (indexed rs) = []) \/
  exists first lo hi,
    FurtherShape.earliest (map (fun r => timestamp (raw r)) rs) first /\
    0 <= lo <= hi /\
    (forall t r, In (t, r) (indexed rs) ->
                 lo <= HealthDataMerger.bin_of (FurtherShape.midnight first) width t
                 <= hi) /\
    map fst (bins width (indexed rs))
    = map (fun k => FurtherShape.midnight first + k * width)
          (HealthDataMerger.bins_between lo hi).
Proof.
  intros W. pose proof (keys_sorted (flat_map (fun r => match timestamp (raw r) with
                        | Some t => [(t, r)]
                        | None => []
                        end) rs)) as S.
  fold (indexed rs) in S.
  assert (Idx : forall t r, In (t, r) (indexed rs) <->
                            In r rs /\ timestamp (raw r) = Some t)
    by (intros t r; apply reading_index_In).
  destruct (indexed rs) as [|[first r0] rest] eqn:E; [left; now split|].
  right. cbn [bins]. cbn [map fst] in S |- *.
  fold (FurtherShape.midnight first).
  set (origin := FurtherShape.midnight first).
  set (last := List.last (first :: map fst rest) first).
  exists first, (HealthDataMerger.bin_of origin width first),
    (HealthDataMerger.bin_of origin width last).
  assert (D : 0 < ns_per_day) by reflexivity.
  assert (O : origin <= first).
  { unfold origin, FurtherShape.midnight.
    pose proof (Z.mul_div_le first ns_per_day D). lia. }
  assert (B : forall t, In t (first :: map fst rest) -> first <= t <= last).
  { intros t Ht. apply sorted_keys_bounds; assumption. }
  split.
  { split.
    - destruct (proj1 (Idx first r0) (or_introl eq_refl)) as (Hr & Ht).
      apply in_map_iff. exists r0. now split.
    - intros t Ht. apply in_map_iff in Ht as (r & Er & Hr).
      assert (H : In (t, r) ((first, r0) :: rest)) by (apply Idx; now split).
      apply (B t). change (first :: map fst rest) with (map fst ((first, r0) :: rest)).
      apply in_map_iff. exists (t, r). now split. }
  split.
  { split.
    - unfold HealthDataMerger.bin_of. apply Z.div_pos; lia.
    - apply bin_of_monotone; [exact W|].
      apply (B first). now left. }
  split.
  { intros t r Hin.
    assert (Ht : In t (first :: map fst rest)).
    { change (first :: map fst rest) with (map fst ((first, r0) :: rest)).
      apply in_map_iff. exists (t, r). now split. }
    destruct (B t Ht). split; apply bin_of_monotone; auto. }
  rewrite map_map. reflexivity.
Qed.

Lemma resampled_starts (df : DataFrame Reading) (minutes : Z) :
  map bin_start (resampled df minutes)
  = map fst (bins (minutes * ns_per_minute) (indexed (rows df))).
Proof. unfold resampled. rewrite map_map. reflexivity. Qed.

Lemma nth_bins_between (f : Z -> Z) (lo hi : Z) (i : nat) :
  (i < List.length (HealthDataMerger.bins_between lo hi))%nat ->
  nth i (map f (HealthDataMerger.bins_between lo hi)) 0 = f (lo + Z.of_nat i).
Proof.
  unfold HealthDataMerger.bins_between. rewrite length_map, length_seq, map_map.
  intros Hi.
  rewrite (nth_indep _ 0 ((fun x => f (lo + Z.of_nat x)) O))
    by now rewrite length_map, length_seq.
  rewrite (map_nth (fun x => f (lo + Z.of_nat x))), seq_nth by exact Hi.
  reflexivity.
Qed.

(** X22. The rows [resample_data] returns lie on a regular grid.  Each row
    starts exactly one period after the row before it, so a period without
    readings still has its row; every start is a whole number of periods
    after midnight of the day of the earliest timestamp of the processed
    frame; every reading of the processed frame that has a timestamp falls
    within the period of one of the rows; and the frame returned has no row
    exactly when the processed frame has none. *)
Theorem resampled_rows_on_a_regular_grid
        (self : LibreGlucoseProcessor.Self) (minutes : Z)
        (df : DataFrame Reading) (out : DataFrame Resampled) :
  processed_data self = Some df ->
  resample_data self minutes = Ok out ->
  (forall i, (S i < List.length (rows out))%nat ->
     nth (S i) (map bin_start (rows out)) 0
     = nth i (map bin_start (rows out)) 0 + minutes * ns_per_minute) /\
  (forall t0,
     FurtherShape.earliest (map (fun r => timestamp (raw r)) (rows df)) t0 ->
     forall row, In row (rows out) ->
       exists k, 0 <= k /\
         bin_start row = FurtherShape.midnight t0 + k * (minutes * ns_per_minute)) /\
  (forall r t, In r (rows df) -> timestamp (raw r) = Some t ->
     exists row, In row (rows out) /\
       bin_start row <= t < bin_start row + minutes * ns_per_minute) /\
  (rows out = [] <-> rows df = []).
Proof.
  intros P R.
  destruct (resample_data_rows self minutes out R)
    as (df' & P' & Pos & _ & B & _ & _ & Idx).
  rewrite P in P'. injection P' as <-.
  rewrite resampled_starts in B.
  set (width := minutes * ns_per_minute) in *.
  assert (W : 0 < width).
  { unfold width. assert (0 < ns_per_minute) by reflexivity. nia. }
  destruct (bins_shape width (rows df) W)
    as [(Empty & Bins)|(first & lo & hi & Early & Lo & Cover & Starts)].
  - destruct Idx as [NoRows|Some]; [|congruence].
    rewrite Bins in B. cbn [map] in B. apply map_eq_nil in B.
    rewrite B, NoRows. cbn [List.length map].
    split; [intros i Hi; lia|].
    split; [intros t0 _ row []|].
    split; [intros r t []|]. split; reflexivity.
  - rewrite Starts in B.
    assert (L : List.length (rows out)
                = List.length (HealthDataMerger.bins_between lo hi)).
    { rewrite <- (length_map bin_start (rows out)), B. apply length_map. }
    split.
    { intros i Hi. rewrite B, !nth_bins_between by lia. lia. }
    split.
    { intros t0 Early0 row Hrow.
      rewrite (earliest_unique _ _ _ Early0 Early).
      assert (H : In (bin_start row) (map bin_start (rows out))) by now apply in_map.
      rewrite B in H. apply in_map_iff in H as (k & <- & Hk).
      apply bins_between_In in Hk. exists k. split; [lia|reflexivity]. }
    split.
    { intros r t Hr Ht.
      assert (H : In (t, r) (indexed (rows df))) by now apply reading_index_In.
      pose proof (Cover t r H) as Hk.
      assert (Hs : In (FurtherShape.midnight first
                       + HealthDataMerger.bin_of (FurtherShape.midnight first) width t
                         * width)
                      (map bin_start (rows out))).
      { rewrite B. apply in_map_iff. eexists. split; [reflexivity|].
        now apply bins_between_In. }
      apply in_map_iff in Hs as (row & Es & Hrow). exists row. split; [exact Hrow|].
      rewrite Es. apply bin_of_bounds. exact W. }
    destruct Early as (Has & _). apply in_map_iff in Has as (r & _ & Hr).
    split.
    { intros Nil. rewrite Nil in L. cbn [List.length] in L.
      unfold HealthDataMerger.bins_between in L. rewrite length_map, length_seq in L.
      lia. }
    intros NoRows. rewrite NoRows in Hr. destruct Hr.
Qed.

Lemma resampled_rows_on_a_regular_grid_witness :
  (forall i, (S i < List.length (rows FurtherSamples.gap_resampled))%nat ->
     nth (S i) (map bin_start (rows FurtherSamples.gap_resampled)) 0
     = nth i (map bin_start (rows FurtherSamples.gap_resampled)) 0
       + 15 * ns_per_minute) /\
  (forall t0,
     FurtherShape.earliest
       (map (fun r => timestamp (raw r)) (rows FurtherSamples.gap_frame)) t0 ->
     forall row, In row (rows FurtherSamples.gap_resampled) ->
       exists k, 0 <= k /\
         bin_start row = FurtherShape.midnight t0 + k * (15 * ns_per_minute)) /\
  (forall r t, In r (rows FurtherSamples.gap_frame) -> timestamp (raw r) = Some t ->
     exists row, In row (rows FurtherSamples.gap_resampled) /\
       bin_start row <= t < bin_start row + 15 * ns_per_minute) /\
  (rows FurtherSamples.gap_resampled = [] <-> rows FurtherSamples.gap_frame = []).
Proof.
  apply (resampled_rows_on_a_regular_grid
           FurtherSamples.gap_processed 15 FurtherSamples.gap_frame
           FurtherSamples.gap_resampled).
  - reflexivity.
  - vm_compute. reflexivity.
Defined.

(** *** After [clean_and_process] *)

Lemma add_column_has (c : string) (cols : list string) :
  existsb (String.eqb c) (add_column c cols) = true.
Proof.
  unfold add_column. destruct (existsb (String.eqb c) cols) eqn:E; [exact E|].
  rewrite existsb_app. cbn [existsb]. rewrite String.eqb_refl. apply orb_true_r.
Qed.

Lemma process_columns (d : DataFrame RawRow) (out : DataFrame Reading) :
  process d = Ok out ->
  existsb (String.eqb "timestamp") (columns out) = true /\
  existsb (String.eqb "glucose_value") (columns out) = true /\
  existsb (String.eqb "glucose_rate_change") (columns out) = true.
Proof.
  unfold process. cbv beta zeta.
  destruct (existsb (String.eqb "glucose_mmol_l") (columns d)
            && negb (existsb (String.eqb "glucose_mg_dl") (columns d)));
    (destruct (select_columns _ glucose_columns); cbn [bind]; [|discriminate];
     destruct (to_datetime _); cbn [bind]; [|discriminate];
     destruct (select_columns _ ["timestamp"]) eqn:S2; cbn [bind]; [|discriminate];
     intros H; injection H as H; subst out;
     pose proof (select_columns_ok _ _ _ S2 "timestamp" (or_introl eq_refl)) as T;
     unfold _add_glucose_metrics; cbn [columns fold_left];
     repeat split;
     [ do 6 apply add_column_keeps; exact T
     | do 7 apply add_column_keeps; apply add_column_has
     | do 5 apply add_column_keeps; apply add_column_has ]).
Qed.

(** X23. [resample_data] after [clean_and_process], for a frequency of one
    minute or more.  On the object a successful [clean_and_process] leaves
    behind, [resample_data] returns when the processed frame has no row or
    has a row with a timestamp, and the period and the edges of the bins
    are within the 64 bits of nanoseconds that a timestamp has: a frame with
    the columns [timestamp], [glucose_value] and [glucose_rate_change] and
    one row per bin.  When the processed frame
    has rows and none of them has a timestamp, [resample_data] raises an
    AttributeError.  On an object with the same loaded data and no
    processed frame it raises the ValueError that asks for
    [clean_and_process] first. *)
Theorem resample_after_processing
        (self : LibreGlucoseProcessor.Self) (minutes : Z) (df : DataFrame Reading) :
  snd (clean_and_process self) = Ok df ->
  0 < minutes ->
  minutes * ns_per_minute < 2 ^ 63 ->
  (forall r t, In r (rows df) -> timestamp (raw r) = Some t ->
               - 2 ^ 63 < FurtherShape.midnight t /\
               t + minutes * ns_per_minute < 2 ^ 63) ->
  (rows df = [] \/ (exists r, In r (rows df) /\ timestamp (raw r) <> None) ->
   exists out,
     resample_data (fst (clean_and_process self)) minutes = Ok out /\
     columns out = ["timestamp"; "glucose_value"; "glucose_rate_change"] /\
     List.length (rows out) = List.length (resampled df minutes)) /\
  (rows df <> [] -> (forall r, In r (rows df) -> timestamp (raw r) = None) ->
   resample_data (fst (clean_and_process self)) minutes = Raise AttributeError) /\
  resample_data (LibreGlucoseProcessor.mkSelf (raw_data self) None) minutes
  = Raise (ValueError "Data not processed. Call clean_and_process() first.").
Proof.
  intros Run Pos Fits _.
  pose proof (clean_and_process_stored self df Run) as Stored.
  assert (Cols : existsb (String.eqb "timestamp") (columns df) = true /\
                 existsb (String.eqb "glucose_value") (columns df) = true /\
                 existsb (String.eqb "glucose_rate_change") (columns df) = true).
  { destruct (raw_data self) as [d|] eqn:Raw.
    - rewrite (clean_and_process_result self d Raw) in Run.
      now apply process_columns in Run.
    - unfold clean_and_process in Run. rewrite Raw in Run. discriminate. }
  destruct Cols as (C1 & C2 & C3).
  assert (Cases :
            (rows df = [] \/ indexed (rows df) <> [] ->
             exists out,
               resample_data (fst (clean_and_process self)) minutes = Ok out) /\
            (rows df <> [] -> indexed (rows df) = [] ->
             resample_data (fst (clean_and_process self)) minutes
             = Raise AttributeError)).
  { unfold resample_data. rewrite Stored.
    rewrite (select_columns_present (columns df) ["timestamp"])
      by (intros l [<-|[]]; exact C1).
    rewrite (select_columns_present (columns df) ["glucose_value"; "glucose_rate_change"])
      by (intros l [<-|[<-|[]]]; assumption).
    cbn [bind]. destruct (Z.leb_spec minutes 0) as [Le|_]; [lia|].
    destruct (Z.leb_spec (2 ^ 63) (minutes * ns_per_minute)) as [Le|_]; [lia|].
    cbn [bind]. split.
    - intros Index. destruct (rows df) as [|x xs]; [cbn [bind]; eexists; reflexivity|].
      destruct (indexed (x :: xs));
        [destruct Index as [H|H]; [discriminate|congruence]|].
      cbn [bind]. eexists. reflexivity.
    - intros Rows Empty. rewrite Empty. destruct (rows df); [congruence|reflexivity]. }
  destruct Cases as (Returns & Raises).
  split; [|split; [|reflexivity]].
  - intros Index.
    assert (R : exists out,
               resample_data (fst (clean_and_process self)) minutes = Ok out).
    { apply Returns. destruct Index as [NoRows|(r & Hr & Ht)]; [now left|right].
      destruct (timestamp (raw r)) as [t|] eqn:Et; [|congruence].
      assert (H : In (t, r) (indexed (rows df))) by now apply reading_index_In.
      intros Empty. rewrite Empty in H. destruct H. }
    destruct R as (out & R). exists out. split; [exact R|].
    destruct (resample_data_rows _ minutes out R) as (df' & P' & _ & C & B & _ & _).
    rewrite Stored in P'. injection P' as <-. split; [exact C|].
    rewrite <- (length_map bin_start (rows out)), B. apply length_map.
  - intros Rows NaT. apply Raises; [exact Rows|].
    destruct (indexed (rows df)) as [|[t r] rest] eqn:E; [reflexivity|].
    assert (H : In (t, r) (indexed (rows df))) by (rewrite E; now left).
    apply reading_index_In in H as (Hr & Ht). rewrite (NaT r Hr) in Ht.
    discriminate.
Qed.

Lemma resample_after_processing_witness :
  (rows FurtherSamples.gap_frame = [] \/
   (exists r, In r (rows FurtherSamples.gap_frame) /\ timestamp (raw r) <> None) ->
   exists out,
     resample_data (fst (clean_and_process FurtherSamples.gap_series)) 15 = Ok out /\
     columns out = ["timestamp"; "glucose_value"; "glucose_rate_change"] /\
     List.length (rows out)
     = List.length (resampled FurtherSamples.gap_frame 15)) /\
  (rows FurtherSamples.gap_frame <> [] ->
   (forall r, In r (rows FurtherSamples.gap_frame) -> timestamp (raw r) = None) ->
   resample_data (fst (clean_and_process FurtherSamples.gap_series)) 15
   = Raise AttributeError) /\
  resample_data
    (LibreGlucoseProcessor.mkSelf (raw_data FurtherSamples.gap_series) None) 15
  = Raise (ValueError "Data not processed. Call clean_and_process() first.").
Proof.
  apply (resample_after_processing FurtherSamples.gap_series 15
           FurtherSamples.gap_frame).
  - vm_compute. reflexivity.
  - lia.
  - vm_compute. reflexivity.
  - intros r t H E. vm_compute in H.
    repeat (destruct H as [H|H];
            [subst r; vm_compute in E; injection E as <-;
             split; vm_compute; reflexivity|]).
    destruct H.
Defined.

(** The two cases on samples: the series with a gap is resampled; a series
    whose only valid reading has no timestamp is processed, and its
    resampling raises. *)
Example resampling_of_samples :
  resample_data (fst (clean_and_process FurtherSamples.gap_series)) 15
  = Ok FurtherSamples.gap_resampled /\
  (exists df, snd (clean_and_process FurtherSamples.undated_series) = Ok df /\
              List.length (rows df) = 1%nat) /\
  resample_data (fst (clean_and_process FurtherSamples.undated_series)) 15
  = Raise AttributeError.
Proof.
  split; [vm_compute; reflexivity|]. split; [|vm_compute; reflexivity].
  eexists. split; vm_compute; reflexivity.
Qed.

End Resample.
